(** * SwiftAttend: event registration and attendance check-in

    A shallow embedding of the domain layer of the application
    (lib/auth.ts, lib/storage.ts, lib/supabase.ts), of the check-in
    handler of the scanner page and of the event filter of the index
    page, followed by the properties of the specification that concern
    them. *)

From Stdlib Require Import Bool Arith ZArith QArith Qround Qabs Qpower Lia Lqa List.
From Stdlib Require Import Ascii String DecimalString.
From Stdlib Require Import Sorted Permutation.
Import ListNotations.

Local Close Scope Q_scope.
Local Open Scope nat_scope.
Local Open Scope string_scope.

(* ================================================================== *)
(** * The JavaScript runtime, as far as the code uses it *)
(* ================================================================== *)

Module JS.

(** Strings are byte strings.  The functions below are those of the
    engine on ASCII text (every character below 128, [is_ascii]), which
    is what the generated identifiers, payloads and codes consist of.
    Text beyond ASCII is carried along unchanged, as its UTF-8 bytes, by
    comparison and concatenation; the engine's [trim] and the pattern
    class [\s] remove more white space than [is_space] lists (the
    no-break space among others), its [toUpperCase] maps more letters
    than a to z, and its [length] counts UTF-16 code units, not bytes.
    A statement whose truth depends on one of these for text a user
    types carries the hypothesis that the text is ASCII, or a hypothesis
    under which they agree with the engine (the trimmed text is a
    payload or a backup code stored by the application, which starts and
    ends with a letter or digit). *)

(** [String.prototype.charAt]: the one-character string at an index, the
    empty string out of range. *)
Fixpoint charAt (s : string) (i : nat) : string :=
  match s, i with
  | EmptyString, _ => ""
  | String c _, O => String c ""
  | String _ s', S i' => charAt s' i'
  end.

(** [String.prototype.substr (start, len)] for a non-negative start. *)
Definition substr (start len : nat) (s : string) : string :=
  String.substring start len s.

(** [String.prototype.startsWith]. *)
Definition startsWith (s p : string) : bool := String.prefix p s.

(** [String.prototype.endsWith]: [s] is [suf], or its tail ends with it. *)
Fixpoint endsWith (s suf : string) : bool :=
  String.eqb s suf
  || match s with
     | EmptyString => false
     | String _ s' => endsWith s' suf
     end.

(** [String.prototype.includes]. *)
Fixpoint includes (s sub : string) : bool :=
  String.prefix sub s
  || match s with
     | EmptyString => false
     | String _ s' => includes s' sub
     end.

(** A string is truthy when it is not empty. *)
Definition truthy (s : string) : bool := negb (String.eqb s "").

(** An optional string argument is truthy when given and not empty. *)
Definition truthy_opt (o : option string) : bool :=
  match o with
  | Some s => truthy s
  | None => false
  end.

Definition is_lower (c : ascii) : bool :=
  let n := nat_of_ascii c in (97 <=? n)%nat && (n <=? 122)%nat.

Definition upper_char (c : ascii) : ascii :=
  if is_lower c then ascii_of_nat (nat_of_ascii c - 32) else c.

(** [String.prototype.toUpperCase] on ASCII text: a to z become A to Z,
    every other character stays. *)
Fixpoint toUpperCase (s : string) : string :=
  match s with
  | EmptyString => EmptyString
  | String c s' => String (upper_char c) (toUpperCase s')
  end.

(** The ASCII white space removed by [trim] and matched by [\s]: space,
    tab, line feed, vertical tab, form feed, carriage return. *)
Definition is_space (c : ascii) : bool :=
  let n := nat_of_ascii c in
  (n =? 32)%nat || ((9 <=? n)%nat && (n <=? 13)%nat).

Fixpoint trimStart (s : string) : string :=
  match s with
  | EmptyString => EmptyString
  | String c s' => if is_space c then trimStart s' else s
  end.

Fixpoint trimEnd (s : string) : string :=
  match s with
  | EmptyString => EmptyString
  | String c s' =>
      let t := trimEnd s' in
      if is_space c && String.eqb t "" then "" else String c t
  end.

(** [String.prototype.trim] on ASCII text. *)
Definition trim (s : string) : string := trimEnd (trimStart s).

(** [s.split(sep)[0]]: the part of [s] before the first [sep]. *)
Fixpoint before_first (sep : ascii) (s : string) : string :=
  match s with
  | EmptyString => EmptyString
  | String c s' => if Ascii.eqb c sep then "" else String c (before_first sep s')
  end.

(** All characters of a string satisfy [p]. *)
Fixpoint every (p : ascii -> bool) (s : string) : bool :=
  match s with
  | EmptyString => true
  | String c s' => p c && every p s'
  end.

(** ASCII text: every character is below 128. *)
Definition is_ascii (s : string) : bool :=
  every (fun c => (nat_of_ascii c <? 128)%nat) s.

(** An upper-case letter A-Z or a digit 0-9. *)
Definition is_upper_or_digit (c : ascii) : bool :=
  let n := nat_of_ascii c in
  ((65 <=? n)%nat && (n <=? 90)%nat) || ((48 <=? n)%nat && (n <=? 57)%nat).

(** A lower-case letter a-z or a digit 0-9. *)
Definition is_lower_or_digit (c : ascii) : bool :=
  let n := nat_of_ascii c in
  ((97 <=? n)%nat && (n <=? 122)%nat) || ((48 <=? n)%nat && (n <=? 57)%nat).

(** A template literal prints an integer in decimal. *)
Definition string_of_Z (z : Z) : string :=
  NilZero.string_of_int (Z.to_int z).

(** ** Numbers

    A number is a binary64 floating-point number.  A finite one is held
    as the rational it denotes, with no sign on zero; the operators [/]
    and [*] compute the exact quotient or product and round it to the
    nearest binary64 number, ties to even.  The values of
    [Math.random()] are taken as rationals in [0,1), and what is computed
    from them under [Math.floor] and [toString] is computed exactly. *)

(** [Math.floor]. *)
Definition Math_floor (q : Q) : Z := Qfloor q.

(** The digit characters of radix 36, as [Number.prototype.toString]
    prints them. *)
Definition digits36 : string := "0123456789abcdefghijklmnopqrstuvwxyz".

(** The base-36 digits of a fraction in [0,1), most significant first,
    until the fraction is exhausted or [fuel] digits are out. *)
Fixpoint frac_digits36 (fuel : nat) (q : Q) : string :=
  match fuel with
  | O => ""
  | S fuel' =>
      if Qeq_bool q 0 then ""
      else
        let x := Qred (q * 36) in
        let d := Qfloor x in
        charAt digits36 (Z.to_nat d) ++ frac_digits36 fuel' (Qred (x - inject_Z d))
  end.

(** [q.toString(36)] for [q] in [0,1): ["0"] for zero, otherwise ["0."]
    followed by the whole base-36 expansion of [q].  A double in [0,1) is
    a multiple of a power of two, so its expansion terminates.  An engine
    prints the shortest run of digits that identifies the double, the
    last one rounded, so for most draws it prints fewer digits than are
    produced here, and the characters of a generated identifier can
    differ; the two agree when the expansion is as short as the one of
    one half, ["0.i"].  The statements below use of the printed digits
    only that they are digits of radix 36, and what they are at one
    half. *)
Definition toString36 (q : Q) : string :=
  if Qeq_bool q 0 then "0" else "0." ++ frac_digits36 1100 q.

(** A number: a finite value, [NaN], or an infinity ([true]: negative). *)
Inductive number : Type :=
| Num (q : Q)
| NaN
| Infinity (negative : bool).

Definition Qsign_neg (q : Q) : bool := (Qnum q <? 0)%Z.

(** The exponent [e] of the binade of a positive rational:
    [2^e <= x < 2^(e+1)]. *)
Definition floor_log2 (x : Q) : Z :=
  let k := (Z.log2 (Qnum x) - Z.log2 (Zpos (Qden x)))%Z in
  if Qle_bool (2 ^ k)%Q x then k else (k - 1)%Z.

(** The integer nearest to [q], the even one of the two when [q] lies
    half-way. *)
Definition round_half_even (q : Q) : Z :=
  let f := Qfloor q in
  match Qcompare (q - inject_Z f)%Q (1 # 2)%Q with
  | Lt => f
  | Eq => if Z.even f then f else (f + 1)%Z
  | Gt => (f + 1)%Z
  end.

(** Rounding of a real result to binary64: 53 significant bits, so the
    spacing in the binade of exponent [e] is [2^(e-52)]; below the
    smallest normal exponent, -1022, the spacing stays [2^(-1074)]
    (subnormal numbers, down to zero); a result that rounds to [2^1024]
    or beyond is an infinity. *)
Definition round64 (x : Q) : number :=
  if Qeq_bool x 0 then Num 0
  else
    let e := Z.max (floor_log2 (Qabs x)) (-1022) in
    let ulp := (2 ^ (e - 52))%Q in
    let y := (inject_Z (round_half_even (Qabs x / ulp)) * ulp)%Q in
    if Qle_bool (2 ^ 1024)%Q y then Infinity (Qsign_neg x)
    else Num (Qred (if Qsign_neg x then (- y)%Q else y)).

(** The [/] operator. *)
Definition div (a b : number) : number :=
  match a, b with
  | Num x, Num y =>
      if Qeq_bool y 0 then
        (if Qeq_bool x 0 then NaN else Infinity (Qsign_neg x))
      else round64 (x / y)
  | Num _, Infinity _ => Num 0
  | Infinity n, Num y => Infinity (xorb n (Qsign_neg y))
  | _, _ => NaN
  end.

(** The [*] operator. *)
Definition mul (a b : number) : number :=
  match a, b with
  | Num x, Num y => round64 (x * y)
  | Num x, Infinity n | Infinity n, Num x =>
      if Qeq_bool x 0 then NaN else Infinity (xorb n (Qsign_neg x))
  | Infinity n, Infinity m => Infinity (xorb n m)
  | _, _ => NaN
  end.

(** A length or count as a number: the length of an array is an integer
    below 2^32, which binary64 holds exactly (rounding leaves an integer
    below 2^53 as it is). *)
Definition of_nat (n : nat) : number := Num (inject_Z (Z.of_nat n)).

(** ** Dates

    A [Date] holds a time value: milliseconds since the epoch, or [None]
    for an invalid date. *)

Definition msPerDay : Z := 86400000.

Definition digit_of (c : ascii) : option Z :=
  let n := nat_of_ascii c in
  if (48 <=? n)%nat && (n <=? 57)%nat then Some (Z.of_nat (n - 48)) else None.

Fixpoint number_of (acc : Z) (s : string) : option Z :=
  match s with
  | EmptyString => Some acc
  | String c s' =>
      match digit_of c with
      | Some d => number_of (10 * acc + d) s'
      | None => None
      end
  end.

Definition is_leap (y : Z) : bool :=
  ((y mod 4 =? 0) && negb (y mod 100 =? 0) || (y mod 400 =? 0))%Z.

Definition days_in_month (y m : Z) : Z :=
  if (m =? 2)%Z then (if is_leap y then 29 else 28)
  else if ((m =? 4) || (m =? 6) || (m =? 9) || (m =? 11))%Z then 30
  else 31.

(** Day number (days since 1970-01-01) of a civil date. *)
Definition day_of_civil (y m d : Z) : Z :=
  let y' := if (m <=? 2)%Z then (y - 1)%Z else y in
  let era := (y' / 400)%Z in
  let yoe := (y' - era * 400)%Z in
  let mp := if (m <=? 2)%Z then (m + 9)%Z else (m - 3)%Z in
  let doy := ((153 * mp + 2) / 5 + d - 1)%Z in
  let doe := (yoe * 365 + yoe / 4 - yoe / 100 + doy)%Z in
  (era * 146097 + doe - 719468)%Z.

(** The date-only ISO form [YYYY-MM-DD], which is what the date input of
    the event form stores in [event_date]: year, month and day. *)
Definition parse_date_only (s : string) : option (Z * Z * Z) :=
  if (String.length s =? 10)%nat
     && String.eqb (substr 4 1 s) "-" && String.eqb (substr 7 1 s) "-"
  then
    match number_of 0 (substr 0 4 s), number_of 0 (substr 5 2 s),
          number_of 0 (substr 8 2 s) with
    | Some y, Some m, Some d =>
        if ((1 <=? m) && (m <=? 12) && (1 <=? d) && (d <=? days_in_month y m))%Z
        then Some (y, m, d) else None
    | _, _, _ => None
    end
  else None.

(** [new Date(s)] for a valid date-only string [YYYY-MM-DD]: the time
    value of midnight UTC of that day.  Every other string is read as an
    invalid date here, where an engine accepts more (date-time forms, and
    a day 31 in a month of 30 days, which it carries over); statements
    about stored events other than the sample ones carry the hypothesis
    that their dates are valid date-only strings. *)
Definition Date_parse (s : string) : option Z :=
  match parse_date_only s with
  | Some (y, m, d) => Some (day_of_civil y m d * msPerDay)%Z
  | None => None
  end.

(** [Date.prototype.setHours(0, 0, 0, 0)] on the time value [t], in a
    time zone whose local time is UTC plus [tza] milliseconds: the time
    value of local midnight of the local day of [t]. *)
Definition setHours0 (tza t : Z) : Z :=
  (((t + tza) / msPerDay) * msPerDay - tza)%Z.

(** The local calendar day (as a day number) of the time value [t]. *)
Definition local_day (tza t : Z) : Z := ((t + tza) / msPerDay)%Z.

(** ** Arrays *)

(** The number of elements of a list that satisfy [p]. *)
Fixpoint count {A : Type} (p : A -> bool) (l : list A) : nat :=
  match l with
  | [] => 0
  | x :: l' => (if p x then 1 else 0) + count p l'
  end.

(** ** Thrown errors *)

Inductive result (A : Type) : Type :=
| Ok (a : A)
| Throw (message : string).

Arguments Ok {A} a.
Arguments Throw {A} message.

(** ** Sources of non-determinism

    What one run of an operation reads from the clock and from the
    random number generator: [Date_now k] is the result of its [k]-th
    reading of the clock, [Math_random k] of its [k]-th call of
    [Math.random()]. *)
Record Oracle : Type := {
  Date_now : nat -> Z;
  Math_random : nat -> Q
}.

(** [Math.random()] returns a number in [0,1). *)
Definition unit_interval (q : Q) : Prop := (0 <= q)%Q /\ (q < 1)%Q.

(** An oracle all of whose random numbers are such. *)
Definition well_drawn (o : Oracle) : Prop :=
  forall k, unit_interval (Math_random o k).

End JS.

Import JS.

(* ================================================================== *)
(** * lib/auth.ts: sign-in against local storage *)
(* ================================================================== *)

Module Auth.

Inductive Role : Type := admin | staff | participant.

Record User : Type := {
  id : string;
  email : string;
  full_name : string;
  role : Role;
  student_id : option string;
  created_at : Z  (* the time value whose ISO rendering is stored *)
}.

Definition ADMIN_PASSWORD : string := "14567".
Definition STAFF_PASSWORD : string := "14567".

Record Validation : Type := {
  valid : bool;
  error : option string
}.

Definition validateEmail (email : string) : Validation :=
  if negb (truthy email) then
    {| valid := false; error := Some "Email is required" |}
  else if negb (includes email "@") then
    {| valid := false; error := Some "Please enter a valid email address" |}
  else if negb (endsWith email "@nmamit.in") then
    {| valid := false; error := Some "Email must end with @nmamit.in" |}
  else
    {| valid := true; error := None |}.

(** The value under the key [swiftattend_user], the only key this module
    touches: the signed-in user, if any. *)
Definition Session : Type := option User.

Definition getCurrentUser (st : Session) : option User := st.

Record SignInResult : Type := {
  success : bool;
  sign_error : option string;
  user : option User
}.

Definition failure (msg : option string) : SignInResult :=
  {| success := false; sign_error := msg; user := None |}.

Definition role_eqb (a b : Role) : bool :=
  match a, b with
  | admin, admin | staff, staff | participant, participant => true
  | _, _ => false
  end.

Definition signIn (o : Oracle) (email password : string) (role : Role)
    (fullName studentId : option string) (st : Session)
    : SignInResult * Session :=
  let emailValidation := validateEmail email in
  if negb (valid emailValidation) then
    (failure (error emailValidation), st)
  else if role_eqb role admin && negb (String.eqb password ADMIN_PASSWORD) then
    (failure (Some "Invalid admin password. Contact administrator for access."), st)
  else if role_eqb role staff && negb (String.eqb password STAFF_PASSWORD) then
    (failure (Some "Invalid staff password. Contact administrator for access."), st)
  else if role_eqb role participant && negb (truthy_opt fullName) then
    (failure (Some "Full name is required for participants."), st)
  else
    let u := {|
      id := "user_" ++ string_of_Z (Date_now o 0) ++ "_"
            ++ substr 2 9 (toString36 (Math_random o 0));
      email := email;
      full_name := (if truthy_opt fullName
                    then match fullName with Some n => n | None => "" end
                    else before_first "@" email);
      role := role;
      student_id := studentId;
      created_at := Date_now o 1
    |} in
    ({| success := true; sign_error := None; user := Some u |}, Some u).

Definition signOut (st : Session) : Session := None.

Definition isAuthenticated (st : Session) : bool :=
  match getCurrentUser st with Some _ => true | None => false end.

End Auth.

(* ================================================================== *)
(** * lib/storage.ts: the record store kept in local storage *)
(* ================================================================== *)

Module Storage.

(** The interfaces of the module; where two of them have a field of the
    same name, the field carries a prefix here. *)

Record Event : Type := {
  id : string;
  name : string;
  description : option string;
  event_date : string;
  start_time : string;
  end_time : string;
  location : string;
  max_capacity : option Z;
  poster_url : option string;
  created_by : string;
  created_at : Z
}.

(** What [createEvent] is given: an event without [id] and [created_at]. *)
Record EventData : Type := {
  d_name : string;
  d_description : option string;
  d_event_date : string;
  d_start_time : string;
  d_end_time : string;
  d_location : string;
  d_max_capacity : option Z;
  d_poster_url : option string;
  d_created_by : string
}.

Record Registration : Type := {
  reg_id : string;
  reg_event_id : string;
  user_id : string;
  user_name : string;
  user_email : string;
  qr_code_data : string;
  backup_code : string;
  reg_created_at : Z
}.

Inductive CheckInMethod : Type := qr_scan | backup_code_method.

Record Attendance : Type := {
  att_id : string;
  registration_id : string;
  att_event_id : string;
  att_user_id : string;
  checked_in_at : Z;
  check_in_method : CheckInMethod;
  staff_id : string
}.

Inductive MessageStatus : Type := open | resolved.

Record SupportMessage : Type := {
  msg_id : string;
  msg_event_id : string;
  msg_user_id : string;
  msg_user_name : string;
  msg_user_email : string;
  message : string;
  status : MessageStatus;
  msg_created_at : Z;
  resolved_at : option Z;
  resolved_by : option string
}.

(** The four keys of local storage this module reads and writes; each
    holds the JSON text of an array, and a missing key reads as the empty
    array. *)
Record LocalStorage : Type := {
  swiftattend_events : list Event;
  swiftattend_registrations : list Registration;
  swiftattend_attendances : list Attendance;
  swiftattend_support_messages : list SupportMessage
}.

Definition set_events (v : list Event) (ls : LocalStorage) : LocalStorage :=
  {| swiftattend_events := v;
     swiftattend_registrations := swiftattend_registrations ls;
     swiftattend_attendances := swiftattend_attendances ls;
     swiftattend_support_messages := swiftattend_support_messages ls |}.

Definition set_registrations (v : list Registration) (ls : LocalStorage)
    : LocalStorage :=
  {| swiftattend_events := swiftattend_events ls;
     swiftattend_registrations := v;
     swiftattend_attendances := swiftattend_attendances ls;
     swiftattend_support_messages := swiftattend_support_messages ls |}.

Definition set_attendances (v : list Attendance) (ls : LocalStorage)
    : LocalStorage :=
  {| swiftattend_events := swiftattend_events ls;
     swiftattend_registrations := swiftattend_registrations ls;
     swiftattend_attendances := v;
     swiftattend_support_messages := swiftattend_support_messages ls |}.

Definition set_support_messages (v : list SupportMessage) (ls : LocalStorage)
    : LocalStorage :=
  {| swiftattend_events := swiftattend_events ls;
     swiftattend_registrations := swiftattend_registrations ls;
     swiftattend_attendances := swiftattend_attendances ls;
     swiftattend_support_messages := v |}.

(** [generateId], reading the clock at [kc] and the generator at [kr]. *)
Definition generateId (o : Oracle) (kc kr : nat) : string :=
  string_of_Z (Date_now o kc) ++ "_" ++ substr 2 9 (toString36 (Math_random o kr)).

Definition chars : string := "ABCDEFGHIJKLMNOPQRSTUVWXYZ0123456789".

(** The loop of [generateBackupCode]: [n] more characters appended to
    [result], the next one drawn with the [kr]-th random number.  The
    product under [Math.floor] is taken exactly; for a draw within
    rounding distance below a multiple of 1/36 the engine, which rounds
    the product, selects the next character of [chars].  What is stated
    of a backup code is its length and its alphabet. *)
Fixpoint generateBackupCode_loop (o : Oracle) (kr n : nat) (result : string)
    : string :=
  match n with
  | O => result
  | S n' =>
      generateBackupCode_loop o (S kr) n'
        (result ++ charAt chars
           (Z.to_nat
              (Math_floor
                 (Math_random o kr * inject_Z (Z.of_nat (String.length chars))))))
  end.

(** [generateBackupCode], its first draw being the [kr]-th. *)
Definition generateBackupCode (o : Oracle) (kr : nat) : string :=
  generateBackupCode_loop o kr 8 "".

Definition generateQRCodeData (o : Oracle) (kc : nat)
    (eventId userId registrationId : string) : string :=
  "SWIFTATTEND_" ++ eventId ++ "_" ++ userId ++ "_" ++ registrationId ++ "_"
  ++ string_of_Z (Date_now o kc).

(** ** Events *)

Definition getEvents (ls : LocalStorage) : list Event := swiftattend_events ls.

Definition createEvent (o : Oracle) (eventData : EventData) (ls : LocalStorage)
    : Event * LocalStorage :=
  let event := {|
    id := generateId o 0 0;
    name := d_name eventData;
    description := d_description eventData;
    event_date := d_event_date eventData;
    start_time := d_start_time eventData;
    end_time := d_end_time eventData;
    location := d_location eventData;
    max_capacity := d_max_capacity eventData;
    poster_url := d_poster_url eventData;
    created_by := d_created_by eventData;
    created_at := Date_now o 1
  |} in
  let events := getEvents ls in
  (event, set_events (events ++ [event]) ls).

Definition getEventById (eventId : string) (ls : LocalStorage) : option Event :=
  find (fun event => String.eqb (id event) eventId) (getEvents ls).

(** ** Registrations *)

Definition getRegistrations (ls : LocalStorage) : list Registration :=
  swiftattend_registrations ls.

Definition registerForEvent (o : Oracle)
    (eventId userId userName userEmail : string) (ls : LocalStorage)
    : result Registration * LocalStorage :=
  let registrationId := generateId o 0 0 in
  let registration := {|
    reg_id := registrationId;
    reg_event_id := eventId;
    user_id := userId;
    user_name := userName;
    user_email := userEmail;
    qr_code_data := generateQRCodeData o 1 eventId userId registrationId;
    backup_code := generateBackupCode o 1;
    reg_created_at := Date_now o 2
  |} in
  let registrations := getRegistrations ls in
  let existingRegistration :=
    find (fun reg => String.eqb (reg_event_id reg) eventId
                     && String.eqb (user_id reg) userId) registrations in
  match existingRegistration with
  | Some _ => (Throw "Already registered for this event", ls)
  | None =>
      (Ok registration, set_registrations (registrations ++ [registration]) ls)
  end.

Definition getEventRegistrations (eventId : string) (ls : LocalStorage)
    : list Registration :=
  filter (fun reg => String.eqb (reg_event_id reg) eventId) (getRegistrations ls).

Definition checkRegistrationStatus (eventId userId : string) (ls : LocalStorage)
    : option Registration :=
  find (fun reg => String.eqb (reg_event_id reg) eventId
                   && String.eqb (user_id reg) userId) (getRegistrations ls).

Definition getAttendances (ls : LocalStorage) : list Attendance :=
  swiftattend_attendances ls.

Definition deleteRegistration (registrationId : string) (ls : LocalStorage)
    : bool * LocalStorage :=
  let registrations := getRegistrations ls in
  let filteredRegistrations :=
    filter (fun reg => negb (String.eqb (reg_id reg) registrationId)) registrations in
  if (List.length filteredRegistrations =? List.length registrations)%nat then
    (false, ls)
  else
    let ls1 := set_registrations filteredRegistrations ls in
    let attendances := getAttendances ls1 in
    let filteredAttendances :=
      filter (fun att => negb (String.eqb (registration_id att) registrationId))
             attendances in
    (true, set_attendances filteredAttendances ls1).


(** ** Support messages *)

Definition getSupportMessages (ls : LocalStorage) : list SupportMessage :=
  swiftattend_support_messages ls.

Definition createSupportMessage (o : Oracle)
    (eventId userId userName userEmail message : string) (ls : LocalStorage)
    : SupportMessage * LocalStorage :=
  let supportMessage := {|
    msg_id := generateId o 0 0;
    msg_event_id := eventId;
    msg_user_id := userId;
    msg_user_name := userName;
    msg_user_email := userEmail;
    message := message;
    status := open;
    msg_created_at := Date_now o 1;
    resolved_at := None;
    resolved_by := None
  |} in
  let messages := getSupportMessages ls in
  (supportMessage, set_support_messages (messages ++ [supportMessage]) ls).

Definition getEventSupportMessages (eventId : string) (ls : LocalStorage)
    : list SupportMessage :=
  filter (fun msg => String.eqb (msg_event_id msg) eventId) (getSupportMessages ls).

Definition getAllSupportMessages (ls : LocalStorage) : list SupportMessage :=
  getSupportMessages ls.

(** The element at the first index where [p] holds replaced by its image
    under [f]; [None] when [findIndex] gives -1. *)
Fixpoint update_first {A : Type} (p : A -> bool) (f : A -> A) (l : list A)
    : option (list A) :=
  match l with
  | [] => None
  | x :: l' =>
      if p x then Some (f x :: l')
      else match update_first p f l' with
           | Some r => Some (x :: r)
           | None => None
           end
  end.

Definition resolveSupportMessage (o : Oracle) (messageId resolvedBy : string)
    (ls : LocalStorage) : bool * LocalStorage :=
  let messages := getSupportMessages ls in
  match update_first (fun msg => String.eqb (msg_id msg) messageId)
          (fun msg => {|
             msg_id := msg_id msg;
             msg_event_id := msg_event_id msg;
             msg_user_id := msg_user_id msg;
             msg_user_name := msg_user_name msg;
             msg_user_email := msg_user_email msg;
             message := message msg;
             status := resolved;
             msg_created_at := msg_created_at msg;
             resolved_at := Some (Date_now o 0);
             resolved_by := Some resolvedBy |})
          messages with
  | None => (false, ls)
  | Some messages' => (true, set_support_messages messages' ls)
  end.

(** ** Finding a registration by its QR payload or its backup code *)

Definition findRegistrationByQR (qrData : string) (ls : LocalStorage)
    : option Registration :=
  find (fun reg => String.eqb (qr_code_data reg) qrData) (getRegistrations ls).

Definition findRegistrationByBackupCode (backupCode : string) (ls : LocalStorage)
    : option Registration :=
  find (fun reg => String.eqb (backup_code reg) (toUpperCase backupCode))
       (getRegistrations ls).

(** ** Attendance *)

Definition getEventAttendances (eventId : string) (ls : LocalStorage)
    : list Attendance :=
  filter (fun att => String.eqb (att_event_id att) eventId) (getAttendances ls).

Definition isAttendeeCheckedIn (registrationId : string) (ls : LocalStorage)
    : bool :=
  existsb (fun att => String.eqb (registration_id att) registrationId)
          (getAttendances ls).

Definition checkInAttendee (o : Oracle) (registrationId : string)
    (method : CheckInMethod) (staffId : string) (ls : LocalStorage)
    : result Attendance * LocalStorage :=
  match find (fun reg => String.eqb (reg_id reg) registrationId)
             (getRegistrations ls) with
  | None => (Throw "Registration not found", ls)
  | Some registration =>
      if isAttendeeCheckedIn registrationId ls then
        (Throw "Already checked in", ls)
      else
        let attendance := {|
          att_id := generateId o 0 0;
          registration_id := registrationId;
          att_event_id := reg_event_id registration;
          att_user_id := user_id registration;
          checked_in_at := Date_now o 1;
          check_in_method := method;
          staff_id := staffId
        |} in
        let attendances := getAttendances ls in
        (Ok attendance, set_attendances (attendances ++ [attendance]) ls)
  end.

(** ** Statistics *)

Record EventStats : Type := {
  totalRegistrations : nat;
  totalAttendances : nat;
  attendanceRate : number
}.

Definition getEventStats (eventId : string) (ls : LocalStorage) : EventStats :=
  let registrations := getEventRegistrations eventId ls in
  let attendances := getEventAttendances eventId ls in
  {| totalRegistrations := List.length registrations;
     totalAttendances := List.length attendances;
     attendanceRate :=
       if (0 <? List.length registrations)%nat
       then mul (div (of_nat (List.length attendances))
                     (of_nat (List.length registrations)))
                (Num 100)
       else Num 0 |}.

Definition clearAllData (ls : LocalStorage) : LocalStorage :=
  {| swiftattend_events := [];
     swiftattend_registrations := [];
     swiftattend_attendances := [];
     swiftattend_support_messages := [] |}.

(** Local storage with none of the keys set. *)
Definition empty : LocalStorage := clearAllData
  {| swiftattend_events := [];
     swiftattend_registrations := [];
     swiftattend_attendances := [];
     swiftattend_support_messages := [] |}.

End Storage.

(* ================================================================== *)
(** * pages/Scanner.tsx: the check-in handler *)
(* ================================================================== *)

Module Scanner.

Import Storage.

Inductive MessageType : Type := success | error.

Record Message : Type := {
  type : MessageType;
  text : string
}.

(** The state of the component that the handler reads and sets. *)
Record State : Type := {
  selectedEventId : string;
  scanning : bool;
  scanInput : string;
  message : option Message
}.

Definition setMessage (m : option Message) (st : State) : State :=
  {| selectedEventId := selectedEventId st;
     scanning := scanning st;
     scanInput := scanInput st;
     message := m |}.

Definition setScanning (b : bool) (st : State) : State :=
  {| selectedEventId := selectedEventId st;
     scanning := b;
     scanInput := scanInput st;
     message := message st |}.

Definition setScanInput (v : string) (st : State) : State :=
  {| selectedEventId := selectedEventId st;
     scanning := scanning st;
     scanInput := v;
     message := message st |}.

Definition err (t : string) : option Message := Some {| type := error; text := t |}.

(** The registration [handleScan] goes on with: the one found by QR
    payload and, when there is none, the one found by backup code. *)
Definition lookup (input : string) (ls : LocalStorage) : option Registration :=
  match findRegistrationByQR input ls with
  | Some r => Some r
  | None => findRegistrationByBackupCode (toUpperCase input) ls
  end.

(** The state passes the first test of [handleScan]: an event is
    selected and the trimmed input is not empty. *)
Definition passes_guard (st : State) : Prop :=
  truthy (selectedEventId st) = true /\ truthy (trim (scanInput st)) = true.

(** [handleScan], run by [user] on the component state [st0] and the
    store [ls]; all reads of [selectedEventId] and [scanInput] are those
    of the state the handler was created with. *)
Definition handleScan (o : Oracle) (user : Auth.User) (st0 : State)
    (ls : LocalStorage) : State * LocalStorage :=
  let input := trim (scanInput st0) in
  if negb (truthy (selectedEventId st0)) || negb (truthy input) then
    (setMessage (err "Please select an event and enter QR code or backup code") st0,
     ls)
  else
    let st := setMessage None (setScanning true st0) in
    match lookup input ls with
    | None =>
        (setScanning false (setMessage (err "Invalid QR code or backup code") st),
         ls)
    | Some registration =>
        if negb (String.eqb (reg_event_id registration) (selectedEventId st0)) then
          (setScanning false
             (setMessage (err "This registration is not for the selected event") st),
           ls)
        else if isAttendeeCheckedIn (reg_id registration) ls then
          (setScanning false
             (setMessage (err (user_name registration ++ " is already checked in")) st),
           ls)
        else
          let method :=
            if (10 <? String.length (scanInput st0))%nat
            then qr_scan else backup_code_method in
          match checkInAttendee o (reg_id registration) method (Auth.id user) ls with
          | (Ok _, ls') =>
              (setScanning false
                 (setScanInput ""
                    (setMessage
                       (Some {| type := success;
                                text := "✅ " ++ user_name registration
                                        ++ " checked in successfully!" |}) st)),
               ls')
          | (Throw _, ls') =>
              (setScanning false
                 (setMessage (err "Failed to check in attendee") st), ls')
          end
    end.

End Scanner.

(* ================================================================== *)
(** * pages/Index.tsx: the events shown on the index page *)
(* ================================================================== *)

Module IndexPage.

Import Storage.

(** The callback of the filter, for one event: [now] is the clock as
    [new Date()] reads it for this event, [tza] the offset of local time
    from UTC in milliseconds.  A comparison with an invalid date is
    false. *)
Definition is_upcoming (tza now : Z) (event : Event) : bool :=
  match Date_parse (event_date event) with
  | Some eventDate =>
      let today := setHours0 tza now in
      (today <=? eventDate)%Z
  | None => false
  end.

(** The filter over [allEvents]; the callback reads the clock once per
    event, the [k]-th reading being for the first event of the list. *)
Fixpoint filter_upcoming (tza : Z) (o : Oracle) (k : nat) (allEvents : list Event)
    : list Event :=
  match allEvents with
  | [] => []
  | event :: rest =>
      if is_upcoming tza (Date_now o k) event
      then event :: filter_upcoming tza o (S k) rest
      else filter_upcoming tza o (S k) rest
  end.

(** The events the page shows after its effect has run. *)
Definition upcomingEvents (tza : Z) (o : Oracle) (ls : LocalStorage) : list Event :=
  filter_upcoming tza o 0 (getEvents ls).

(** The order of two events by date, as the dates parse. *)
Definition date_leb (a b : Event) : bool :=
  match Date_parse (event_date a), Date_parse (event_date b) with
  | Some ta, Some tb => (ta <=? tb)%Z
  | _, _ => false
  end.

(** A listing is in ascending order of event date. *)
Fixpoint ascending_by_date (l : list Event) : bool :=
  match l with
  | [] => true
  | a :: l' =>
      match l' with
      | [] => true
      | b :: _ => date_leb a b && ascending_by_date l'
      end
  end.

End IndexPage.

(* ================================================================== *)
(** * lib/supabase.ts: the hosted variant *)
(* ================================================================== *)

Module Supabase.

(** A row of the table [events] of the schema; a [DATE] is a day number,
    a [UUID] a string, a timestamp a time value. *)
Record EventRow : Type := {
  id : string;
  name : string;
  description : option string;
  event_date : Z;
  start_time : string;
  end_time : string;
  location : string;
  qr_code_data : string;
  max_capacity : option Z;
  created_by : string;
  created_at : Z;
  updated_at : Z
}.

(** [.order(column, { ascending: true })]: the rows in ascending order of
    the column, rows with equal keys in their given order. *)
Fixpoint insert_asc {A : Type} (key : A -> Z) (x : A) (rows : list A) : list A :=
  match rows with
  | [] => [x]
  | y :: rows' =>
      if (key x <? key y)%Z then x :: y :: rows'
      else y :: insert_asc key x rows'
  end.

Fixpoint order_asc {A : Type} (key : A -> Z) (rows : list A) : list A :=
  match rows with
  | [] => []
  | x :: rows' => insert_asc key x (order_asc key rows')
  end.

(** [getEvents]: [selected] being the rows of [events] that the [select]
    of the query yields (each with its embedded counts, left out here),
    the answer is these rows ordered by [event_date]. *)
Definition getEvents (selected : list EventRow) : list EventRow :=
  order_asc event_date selected.

(** The row [registerForEvent] hands to [insert]. *)
Record NewRegistration : Type := {
  new_event_id : string;
  new_user_id : string;
  new_qr_code_data : string;
  new_backup_code : string
}.

Definition registerForEvent (o : Oracle) (eventId userId : string)
    : NewRegistration :=
  let qr_code_data :=
    "reg_" ++ eventId ++ "_" ++ userId ++ "_" ++ string_of_Z (Date_now o 0) in
  let backup_code := toUpperCase (substr 2 8 (toString36 (Math_random o 0))) in
  {| new_event_id := eventId;
     new_user_id := userId;
     new_qr_code_data := qr_code_data;
     new_backup_code := backup_code |}.

End Supabase.

(* ================================================================== *)
(** * Runs of the application over local storage *)
(* ================================================================== *)

Module Run.

Import Storage.

(** The operations through which the pages change local storage. *)
Inductive Op : Type :=
| CreateEvent (eventData : EventData)
| RegisterForEvent (eventId userId userName userEmail : string)
| DeleteRegistration (registrationId : string)
| CreateSupportMessage (eventId userId userName userEmail message : string)
| ResolveSupportMessage (messageId resolvedBy : string)
| CheckInAttendee (registrationId : string) (method : CheckInMethod)
    (staffId : string)
| HandleScan (user : Auth.User) (st : Scanner.State)
| ClearAllData.

(** The store after one operation, whatever it returned or threw. *)
Definition exec (o : Oracle) (op : Op) (ls : LocalStorage) : LocalStorage :=
  match op with
  | CreateEvent d => snd (createEvent o d ls)
  | RegisterForEvent e u n m => snd (registerForEvent o e u n m ls)
  | DeleteRegistration r => snd (deleteRegistration r ls)
  | CreateSupportMessage e u n m t => snd (createSupportMessage o e u n m t ls)
  | ResolveSupportMessage i b => snd (resolveSupportMessage o i b ls)
  | CheckInAttendee r m s => snd (checkInAttendee o r m s ls)
  | HandleScan u st => snd (Scanner.handleScan o u st ls)
  | ClearAllData => clearAllData ls
  end.

(** The stores that runs of the application reach from empty storage. *)
Inductive reachable : LocalStorage -> Prop :=
| reach_empty : reachable Storage.empty
| reach_exec : forall o op ls,
    well_drawn o -> reachable ls -> reachable (exec o op ls).

(** The attendance records that reference a registration. *)
Definition attendances_of (registrationId : string) (ls : LocalStorage) : nat :=
  count (fun att => String.eqb (registration_id att) registrationId)
        (getAttendances ls).

(** Every registration carries a QR payload and a backup code. *)
Definition codes_nonempty (ls : LocalStorage) : Prop :=
  forall r, In r (getRegistrations ls) ->
            qr_code_data r <> "" /\ backup_code r <> "".

End Run.

(* ================================================================== *)
(** * Sample runs *)
(* ================================================================== *)

Module Examples.

Import Storage.

(** An oracle whose clock starts at [t] and ticks once per reading, and
    whose [k]-th random number is (2 m + 1) / 72 for m = 7 k + seed
    modulo 36, which is m / 36 + 1 / 72. *)
Definition oracle_at (t : Z) (seed : Z) : Oracle :=
  {| Date_now := fun k => (t + Z.of_nat k)%Z;
     Math_random := fun k =>
       Qmake (2 * ((Z.of_nat k * 7 + seed) mod 36) + 1) 72 |}.

(** 2024-06-15T17:00:00Z. *)
Definition t0 : Z := 1718470800000.

Definition o1 : Oracle := oracle_at t0 3.
Definition o2 : Oracle := oracle_at (t0 + 60000) 5.
Definition o3 : Oracle := oracle_at (t0 + 120000) 11.
Definition o4 : Oracle := oracle_at (t0 + 180000) 17.

Definition event_on (date : string) (title : string) : EventData :=
  {| d_name := title;
     d_description := None;
     d_event_date := date;
     d_start_time := "10:00";
     d_end_time := "12:00";
     d_location := "Main Hall";
     d_max_capacity := None;
     d_poster_url := None;
     d_created_by := "user_admin" |}.

Definition staff_user : Auth.User :=
  {| Auth.id := "user_staff";
     Auth.email := "staff@nmamit.in";
     Auth.full_name := "Staff";
     Auth.role := Auth.staff;
     Auth.student_id := None;
     Auth.created_at := t0 |}.

(** One event, created on the dashboard. *)
Definition with_event : LocalStorage :=
  Run.exec o1 (Run.CreateEvent (event_on "2024-06-20" "Orientation")) Storage.empty.

Definition the_event_id : string :=
  match getEvents with_event with
  | e :: _ => id e
  | [] => ""
  end.

(** A participant registered for it. *)
Definition with_registration : LocalStorage :=
  Run.exec o2
    (Run.RegisterForEvent the_event_id "user_asha" "Asha Rao" "asha@nmamit.in")
    with_event.

Definition the_registration : Registration :=
  match getRegistrations with_registration with
  | r :: _ => r
  | [] => {| reg_id := ""; reg_event_id := ""; user_id := ""; user_name := "";
             user_email := ""; qr_code_data := ""; backup_code := "";
             reg_created_at := 0 |}
  end.

(** The scanner with an event selected and a code typed in. *)
Definition scanner (eventId code : string) : Scanner.State :=
  {| Scanner.selectedEventId := eventId;
     Scanner.scanning := false;
     Scanner.scanInput := code;
     Scanner.message := None |}.

(** The participant checked in with the backup code typed in lower case. *)
Definition with_attendance : LocalStorage :=
  Run.exec o3
    (Run.HandleScan staff_user
       (scanner the_event_id " mt07elsz "))
    with_registration.

(** A second participant registered after that. *)
Definition with_second_registration : LocalStorage :=
  Run.exec o4
    (Run.RegisterForEvent the_event_id "user_ravi" "Ravi Shetty" "ravi@nmamit.in")
    with_attendance.

(** Two events, the later one created first. *)
Definition two_events : LocalStorage :=
  Run.exec o2 (Run.CreateEvent (event_on "2024-06-20" "Orientation"))
    (Run.exec o1 (Run.CreateEvent (event_on "2024-06-30" "Farewell"))
       Storage.empty).

(** The index page opened at noon of 2024-06-15 in a zone five hours
    behind UTC (17:00 UTC), and in a zone five and a half hours ahead. *)
Definition tza_minus_5h : Z := -18000000.
Definition tza_plus_5h30 : Z := 19800000.

Definition event_today : Event :=
  {| id := "1718400000000_abc";
     name := "Tech Talk";
     description := None;
     event_date := "2024-06-15";
     start_time := "18:00";
     end_time := "19:00";
     location := "Auditorium";
     max_capacity := None;
     poster_url := None;
     created_by := "user_admin";
     created_at := 1718400000000 |}.

Definition with_event_today : LocalStorage :=
  set_events [event_today] Storage.empty.

(** An oracle whose random number generator returns one half. *)
Definition o_half : Oracle :=
  {| Date_now := fun k => (t0 + Z.of_nat k)%Z;
     Math_random := fun _ => (1 # 2)%Q |}.

End Examples.


(* ================================================================== *)
(** * components/SupportChat.tsx: the support messages of a user *)
(* ================================================================== *)

Module SupportChat.

Import Storage.

(** [Array.prototype.sort] with the comparator [(a, b) => key(b) - key(a)]:
    descending keys, elements with equal keys in their given order. *)
Fixpoint insert_desc {A : Type} (key : A -> Z) (x : A) (rows : list A) : list A :=
  match rows with
  | [] => [x]
  | y :: rows' =>
      if (key y <=? key x)%Z then x :: y :: rows'
      else y :: insert_desc key x rows'
  end.

Fixpoint sort_desc {A : Type} (key : A -> Z) (rows : list A) : list A :=
  match rows with
  | [] => []
  | x :: rows' => insert_desc key x (sort_desc key rows')
  end.

(** The state of the component that its handlers read and set. *)
Record State : Type := {
  messages : list SupportMessage;
  loading : bool;
  sending : bool;
  dialogOpen : bool;
  issueType : string;
  form_message : string;
  success : option string;
  error : option string
}.

(** The list [loadMessages] hands to [setMessages], for the props [user]
    and [eventId]. *)
Definition loaded_messages (user : Auth.User) (eventId : option string)
    (ls : LocalStorage) : list SupportMessage :=
  let allMessages := getSupportMessages ls in
  let userMessages :=
    if Auth.role_eqb (Auth.role user) Auth.admin then allMessages
    else filter (fun msg => String.eqb (msg_user_id msg) (Auth.id user)) allMessages in
  let filteredMessages :=
    match eventId with
    | Some e =>
        if truthy e
        then filter (fun msg => String.eqb (msg_event_id msg) e) userMessages
        else userMessages
    | None => userMessages
    end in
  sort_desc msg_created_at filteredMessages.

Definition loadMessages (user : Auth.User) (eventId : option string)
    (st : State) (ls : LocalStorage) : State :=
  {| messages := loaded_messages user eventId ls;
     loading := false;
     sending := sending st;
     dialogOpen := dialogOpen st;
     issueType := issueType st;
     form_message := form_message st;
     success := success st;
     error := None |}.

(** [eventId || 'general']. *)
Definition event_or_general (eventId : option string) : string :=
  match eventId with
  | Some e => if truthy e then e else "general"
  | None => "general"
  end.

Definition handleSubmitMessage (o : Oracle) (user : Auth.User)
    (eventId : option string) (st : State) (ls : LocalStorage)
    : State * LocalStorage :=
  if negb (truthy (issueType st)) || negb (truthy (trim (form_message st))) then
    ({| messages := messages st;
        loading := loading st;
        sending := sending st;
        dialogOpen := dialogOpen st;
        issueType := issueType st;
        form_message := form_message st;
        success := success st;
        error := Some "Please fill in all fields" |}, ls)
  else
    let (newMessage, ls') :=
      createSupportMessage o (event_or_general eventId) (Auth.id user)
        (Auth.full_name user) (Auth.email user)
        ("[" ++ issueType st ++ "] " ++ form_message st) ls in
    ({| messages := newMessage :: messages st;
        loading := loading st;
        sending := false;
        dialogOpen := false;
        issueType := "";
        form_message := "";
        success :=
          Some "Your message has been sent to admin. You will receive a response soon.";
        error := None |}, ls').

Definition handleResolveMessage (o : Oracle) (user : Auth.User)
    (eventId : option string) (messageId : string) (st : State)
    (ls : LocalStorage) : State * LocalStorage :=
  match resolveSupportMessage o messageId (Auth.id user) ls with
  | (true, ls') =>
      let st' := loadMessages user eventId st ls' in
      ({| messages := messages st';
          loading := loading st';
          sending := sending st';
          dialogOpen := dialogOpen st';
          issueType := issueType st';
          form_message := form_message st';
          success := Some "Message marked as resolved";
          error := error st' |}, ls')
  | (false, ls') =>
      ({| messages := messages st;
          loading := loading st;
          sending := sending st;
          dialogOpen := dialogOpen st;
          issueType := issueType st;
          form_message := form_message st;
          success := success st;
          error := Some "Failed to resolve message" |}, ls')
  end.

(** [getIssueTypeFromMessage]: what the pattern [^\[([^\]]+)\]] captures,
    the text between an opening bracket at the start and the first closing
    bracket, when there is such a text and it is not empty. *)
Definition getIssueTypeFromMessage (message : string) : string :=
  match message with
  | String "[" rest =>
      let captured := before_first "]" rest in
      if truthy captured && (String.length captured <? String.length rest)%nat
      then captured else "General"
  | _ => "General"
  end.

(** The string without its first [n] characters. *)
Fixpoint drop (n : nat) (s : string) : string :=
  match n, s with
  | O, _ => s
  | S n', String _ s' => drop n' s'
  | S _, EmptyString => EmptyString
  end.

(** [getMessageContent]: the message without what the pattern
    [^\[[^\]]+\]\s*] matches, the bracketed text at its start and the
    white space that follows. *)
Definition getMessageContent (message : string) : string :=
  match message with
  | String "[" rest =>
      let captured := before_first "]" rest in
      if truthy captured && (String.length captured <? String.length rest)%nat
      then trimStart (drop (S (String.length captured)) rest)
      else message
  | _ => message
  end.

End SupportChat.

(* ================================================================== *)
(** * pages/Dashboard.tsx: the badge of open support messages *)
(* ================================================================== *)

Module Dashboard.

Import Storage.

Definition is_open (msg : SupportMessage) : bool :=
  match status msg with
  | open => true
  | resolved => false
  end.

(** The number [loadSupportMessageCount] hands to
    [setSupportMessageCount]. *)
Definition loadSupportMessageCount (ls : LocalStorage) : nat :=
  let messages := getAllSupportMessages ls in
  let openMessages := filter is_open messages in
  List.length openMessages.

End Dashboard.

(* ================================================================== *)
(** * pages/EventDetails.tsx: one-click registration *)
(* ================================================================== *)

Module EventDetails.

Import Storage.

(** The state of the component that its effect and handler read and
    set. *)
Record State : Type := {
  event : option Event;
  registration : option Registration;
  loading : bool;
  registering : bool;
  error : option string;
  showQR : bool;
  success : option string
}.

Definition initial : State :=
  {| event := None;
     registration := None;
     loading := true;
     registering := false;
     error := None;
     showQR := false;
     success := None |}.

(** The effect that loads the page for the route parameter [eventId]:
    the state after it, and whether it navigated to the index page. *)
Definition load (eventId : option string) (user : Auth.User) (st : State)
    (ls : LocalStorage) : State * bool :=
  match eventId with
  | None => (st, true)
  | Some eventId =>
      if negb (truthy eventId) then (st, true)
      else
        match getEventById eventId ls with
        | None =>
            ({| event := event st;
                registration := registration st;
                loading := false;
                registering := registering st;
                error := Some "Event not found";
                showQR := showQR st;
                success := success st |}, false)
        | Some eventData =>
            ({| event := Some eventData;
                registration := checkRegistrationStatus eventId (Auth.id user) ls;
                loading := false;
                registering := registering st;
                error := error st;
                showQR := showQR st;
                success := success st |}, false)
        end
  end.

Definition handleOneClickRegister (o : Oracle) (user : Auth.User) (st : State)
    (ls : LocalStorage) : State * LocalStorage :=
  match event st with
  | None => (st, ls)
  | Some ev =>
      match registerForEvent o (id ev) (Auth.id user) (Auth.full_name user)
              (Auth.email user) ls with
      | (Ok newRegistration, ls') =>
          ({| event := event st;
              registration := Some newRegistration;
              loading := loading st;
              registering := false;
              error := None;
              showQR := showQR st;
              success :=
                Some ("Successfully registered for " ++ name ev
                      ++ "! Your QR code and backup code are ready.") |}, ls')
      | (Throw _, ls') =>
          ({| event := event st;
              registration := registration st;
              loading := loading st;
              registering := false;
              error := Some "Failed to register for event";
              showQR := showQR st;
              success := None |}, ls')
      end
  end.

Definition isRegistered (st : State) : bool :=
  match registration st with Some _ => true | None => false end.

(** Whether the page offers the button that registers. *)
Definition canRegister (user : Auth.User) (st : State) : bool :=
  negb (isRegistered st) && Auth.role_eqb (Auth.role user) Auth.participant.

End EventDetails.

(* ================================================================== *)
(** * components/EventCard.tsx: the badges of an event card *)
(* ================================================================== *)

Module EventCard.

(** The interface [Event] of lib/supabase.ts, as the card receives it. *)
Record Event : Type := {
  id : string;
  name : string;
  description : option string;
  event_date : string;
  start_time : string;
  end_time : string;
  location : string;
  qr_code_data : string;
  max_capacity : option Z;
  created_by : string;
  created_at : string;
  updated_at : string;
  registration_count : option Z;
  attendance_count : option Z
}.

(** [new Date(event.event_date) < new Date()], the clock reading [now];
    a comparison with an invalid date is false. *)
Definition isEventPast (now : Z) (event : Event) : bool :=
  match Date_parse (event_date event) with
  | Some eventDate => (eventDate <? now)%Z
  | None => false
  end.

(** [new Date(event.event_date).toDateString() === new Date().toDateString()]:
    the two dates fall on the same local calendar day; the text of an
    invalid date differs from that of the clock. *)
Definition isEventToday (tza now : Z) (event : Event) : bool :=
  match Date_parse (event_date event) with
  | Some eventDate => (local_day tza eventDate =? local_day tza now)%Z
  | None => false
  end.

(** Whether the card shows the button that registers, [now] being the
    reading of the clock in [isEventPast]. *)
Definition showsRegister (user_role : Auth.Role) (now : Z) (event : Event) : bool :=
  Auth.role_eqb user_role Auth.participant && negb (isEventPast now event).

End EventCard.

(* ================================================================== *)
(** * What the stores of the application keep *)
(* ================================================================== *)

Module Invariants.

Import Storage.

(** Every attendance record is that of a stored registration: same id,
    same event, same user. *)
Definition attendance_refers (ls : LocalStorage) : Prop :=
  forall a, In a (getAttendances ls) ->
    exists r, In r (getRegistrations ls)
              /\ reg_id r = registration_id a
              /\ reg_event_id r = att_event_id a
              /\ user_id r = att_user_id a.

(** The registrations of a user for an event. *)
Definition registrations_of (eventId userId : string) (ls : LocalStorage) : nat :=
  count (fun reg => String.eqb (reg_event_id reg) eventId
                    && String.eqb (user_id reg) userId)
        (getRegistrations ls).

(** The shape of the payload and of the backup code of a registration. *)
Definition well_coded (r : Registration) : Prop :=
  startsWith (qr_code_data r) "SWIFTATTEND_" = true
  /\ String.length (backup_code r) = 8
  /\ every is_upper_or_digit (backup_code r) = true.

(** The statuses of support messages never go back: [after] starts with
    the messages of [before], each with its id and, once resolved, still
    resolved. *)
Fixpoint statuses_kept (before after : list SupportMessage) : Prop :=
  match before, after with
  | [], _ => True
  | m :: before', m' :: after' =>
      msg_id m' = msg_id m
      /\ (status m = resolved -> status m' = resolved)
      /\ statuses_kept before' after'
  | _ :: _, [] => False
  end.

End Invariants.

(* ================================================================== *)
(** * More sample runs *)
(* ================================================================== *)

Module Tour.

Import Storage Examples.

Definition o5 : Oracle := oracle_at (t0 + 240000) 23.
Definition o6 : Oracle := oracle_at (t0 + 300000) 29.
Definition o7 : Oracle := oracle_at (t0 + 360000) 31.

Definition asha : Auth.User :=
  {| Auth.id := "user_asha";
     Auth.email := "asha@nmamit.in";
     Auth.full_name := "Asha Rao";
     Auth.role := Auth.participant;
     Auth.student_id := None;
     Auth.created_at := t0 |}.

Definition ravi : Auth.User :=
  {| Auth.id := "user_ravi";
     Auth.email := "ravi@nmamit.in";
     Auth.full_name := "Ravi Shetty";
     Auth.role := Auth.participant;
     Auth.student_id := None;
     Auth.created_at := t0 |}.

(** The registration of the second participant. *)
Definition the_second_registration : Registration :=
  match getRegistrations with_second_registration with
  | _ :: r :: _ => r
  | _ => the_registration
  end.

(** The first participant reports a problem with the event, the second
    asks a general question. *)
Definition with_message : LocalStorage :=
  Run.exec o5
    (Run.CreateSupportMessage the_event_id "user_asha" "Asha Rao" "asha@nmamit.in"
       "[QR Code Issue] My code does not scan")
    with_second_registration.

Definition with_two_messages : LocalStorage :=
  Run.exec o6
    (Run.CreateSupportMessage "general" "user_ravi" "Ravi Shetty" "ravi@nmamit.in"
       "[Other] Where is the hall?")
    with_message.

Definition first_message : SupportMessage :=
  match getSupportMessages with_two_messages with
  | m :: _ => m
  | [] => {| msg_id := ""; msg_event_id := ""; msg_user_id := "";
             msg_user_name := ""; msg_user_email := ""; message := "";
             status := open; msg_created_at := 0; resolved_at := None;
             resolved_by := None |}
  end.

Definition second_message : SupportMessage :=
  match getSupportMessages with_two_messages with
  | _ :: m :: _ => m
  | _ => first_message
  end.

(** The administrator resolves the first message. *)
Definition with_resolved : LocalStorage :=
  Run.exec o7 (Run.ResolveSupportMessage (msg_id first_message) "user_admin")
    with_two_messages.

(** The support chat with its form filled in. *)
Definition chat : SupportChat.State :=
  {| SupportChat.messages := [];
     SupportChat.loading := false;
     SupportChat.sending := false;
     SupportChat.dialogOpen := true;
     SupportChat.issueType := "Registration Problem";
     SupportChat.form_message := "I cannot see my code";
     SupportChat.success := None;
     SupportChat.error := None |}.

(** The card of an event dated 2024-06-15. *)
Definition card_event : EventCard.Event :=
  {| EventCard.id := "7c0e6f0a-1111-4222-8333-444455556666";
     EventCard.name := "Tech Talk";
     EventCard.description := None;
     EventCard.event_date := "2024-06-15";
     EventCard.start_time := "18:00:00";
     EventCard.end_time := "19:00:00";
     EventCard.location := "Auditorium";
     EventCard.qr_code_data := "event_1718400000000_abc";
     EventCard.max_capacity := None;
     EventCard.created_by := "user_admin";
     EventCard.created_at := "2024-06-14T21:20:00.000Z";
     EventCard.updated_at := "2024-06-14T21:20:00.000Z";
     EventCard.registration_count := None;
     EventCard.attendance_count := None |}.

End Tour.

(* ================================================================== *)
(** * Properties *)
(* ================================================================== *)

(** ** Strings *)

Section StringFacts.

Lemma eqb_eq_true (a b : string) : String.eqb a b = true <-> a = b.
Proof. apply String.eqb_eq. Qed.

Lemma truthy_true (s : string) : truthy s = true <-> s <> "".
Proof.
  unfold truthy. rewrite negb_true_iff. split.
  - intros H E. subst s. discriminate.
  - intros H. destruct (String.eqb s "") eqn:E; auto.
    apply String.eqb_eq in E. contradiction.
Qed.

Lemma truthy_false (s : string) : truthy s = false <-> s = "".
Proof.
  unfold truthy. rewrite negb_false_iff. apply String.eqb_eq.
Qed.

(** [endsWith] holds exactly of the strings that are some prefix
    followed by the suffix. *)
Lemma endsWith_spec (s suf : string) :
  endsWith s suf = true <-> exists p, s = p ++ suf.
Proof.
  induction s as [|c s IH]; cbn [endsWith].
  - rewrite orb_false_r. split.
    + intros H. apply String.eqb_eq in H. exists "". now rewrite <- H.
    + intros [p Hp]. destruct p; simpl in Hp.
      * subst suf. reflexivity.
      * discriminate.
  - rewrite orb_true_iff, IH. split.
    + intros [H | [p Hp]].
      * apply String.eqb_eq in H. exists "". now rewrite <- H.
      * exists (String c p). simpl. now rewrite Hp.
    + intros [p Hp]. destruct p as [|c' p]; simpl in Hp.
      * left. subst suf. apply String.eqb_refl.
      * right. injection Hp as _ Hp. now exists p.
Qed.

Lemma includes_app (p s sub : string) :
  includes s sub = true -> includes (p ++ s) sub = true.
Proof.
  intros H. induction p as [|c p IH]; simpl; auto.
  rewrite IH. apply orb_true_r.
Qed.

Lemma endsWith_domain_includes_at (s : string) :
  endsWith s "@nmamit.in" = true -> includes s "@" = true.
Proof.
  intros H. apply endsWith_spec in H. destruct H as [p ->].
  apply includes_app. reflexivity.
Qed.

Lemma endsWith_domain_truthy (s : string) :
  endsWith s "@nmamit.in" = true -> truthy s = true.
Proof.
  intros H. apply truthy_true. intros ->. discriminate.
Qed.

Lemma upper_char_idem (c : ascii) : upper_char (upper_char c) = upper_char c.
Proof.
  destruct c as [[] [] [] [] [] [] [] []]; reflexivity.
Qed.

Lemma toUpperCase_idem (s : string) : toUpperCase (toUpperCase s) = toUpperCase s.
Proof.
  induction s as [|c s IH]; simpl; [reflexivity|].
  now rewrite upper_char_idem, IH.
Qed.

Lemma toUpperCase_length (s : string) :
  String.length (toUpperCase s) = String.length s.
Proof. induction s; simpl; auto. Qed.

Lemma append_length (a b : string) :
  String.length (a ++ b) = String.length a + String.length b.
Proof. induction a; simpl; auto. Qed.

End StringFacts.

(** ** Sign-in *)

Section SignIn.

Import Auth.

Lemma validateEmail_valid (email : string) :
  valid (validateEmail email) = true <-> endsWith email "@nmamit.in" = true.
Proof.
  unfold validateEmail. split.
  - destruct (truthy email); simpl; [|discriminate].
    destruct (includes email "@"); simpl; [|discriminate].
    destruct (endsWith email "@nmamit.in"); simpl; auto.
  - intros H. rewrite (endsWith_domain_truthy _ H),
      (endsWith_domain_includes_at _ H), H. reflexivity.
Qed.

Lemma validateEmail_error (email : string) :
  error (validateEmail email) =
    if String.eqb email "" then Some "Email is required"
    else if negb (includes email "@") then Some "Please enter a valid email address"
    else if negb (endsWith email "@nmamit.in") then Some "Email must end with @nmamit.in"
    else None.
Proof.
  unfold validateEmail, truthy. rewrite negb_involutive.
  destruct (String.eqb email ""); simpl; auto.
  destruct (includes email "@"); simpl; auto.
  destruct (endsWith email "@nmamit.in"); simpl; auto.
Qed.

Lemma truthy_opt_true (o : option string) :
  truthy_opt o = true <-> exists n, o = Some n /\ n <> "".
Proof.
  destruct o as [n|]; simpl.
  - rewrite truthy_true. split.
    + intros H. now exists n.
    + intros [m [E H]]. now injection E as ->.
  - split; [discriminate|]. intros [m [E _]]. discriminate.
Qed.

(** The three parts of the statement below, on a sign-in that went
    through and on one that was turned down by a role test. *)
Ltac sign_in_outcome := cbn [negb fst snd success user sign_error failure].
Ltac accepted :=
  repeat split; auto; try discriminate; intros _; eexists; repeat split.
Ltac rejected :=
  repeat split; try discriminate; auto; intros [_ ?]; contradiction.

(** C9. Sign-in succeeds exactly when the email ends with "@nmamit.in"
    and, for the roles admin and staff, the password is the shared
    static password "14567", for the role participant, a non-empty full
    name is given (whatever the password).  A successful sign-in stores
    the user it returns; a failed one returns the message of the first
    violated condition, returns no user and leaves the stored session as
    it was. *)
Theorem signIn_succeeds_iff :
  forall o email password role fullName studentId st,
    let r := signIn o email password role fullName studentId st in
    (success (fst r) = true <->
       endsWith email "@nmamit.in" = true /\
       match role with
       | admin | staff => password = "14567"
       | participant => exists n, fullName = Some n /\ n <> ""
       end)
    /\ (success (fst r) = true ->
          exists u, user (fst r) = Some u /\ snd r = Some u /\
                    Auth.email u = email /\ Auth.role u = role)
    /\ (success (fst r) = false ->
          snd r = st /\ user (fst r) = None /\
          sign_error (fst r) =
            Some (if String.eqb email "" then "Email is required"
                  else if negb (includes email "@")
                  then "Please enter a valid email address"
                  else if negb (endsWith email "@nmamit.in")
                  then "Email must end with @nmamit.in"
                  else match role with
                       | admin =>
                           "Invalid admin password. Contact administrator for access."
                       | staff =>
                           "Invalid staff password. Contact administrator for access."
                       | participant => "Full name is required for participants."
                       end)).
Proof.
  intros o email password role fullName studentId st r. subst r.
  unfold signIn.
  pose proof (validateEmail_valid email) as Hv.
  pose proof (validateEmail_error email) as He.
  destruct (valid (validateEmail email)) eqn:V; cbn [negb].
  - (* the email is valid *)
    assert (E : endsWith email "@nmamit.in" = true) by now apply Hv.
    assert (T : String.eqb email "" = false).
    { apply endsWith_domain_truthy in E. unfold truthy in E.
      now apply negb_true_iff in E. }
    rewrite T, (endsWith_domain_includes_at _ E), E. cbn [negb].
    unfold ADMIN_PASSWORD, STAFF_PASSWORD.
    destruct role; cbn [role_eqb andb].
    + destruct (String.eqb password "14567") eqn:P; sign_in_outcome.
      * apply String.eqb_eq in P. accepted.
      * assert (password <> "14567") by (intros ->; discriminate). rejected.
    + destruct (String.eqb password "14567") eqn:P; sign_in_outcome.
      * apply String.eqb_eq in P. accepted.
      * assert (password <> "14567") by (intros ->; discriminate). rejected.
    + destruct (truthy_opt fullName) eqn:F; sign_in_outcome.
      * apply truthy_opt_true in F. accepted.
      * assert (~ exists n, fullName = Some n /\ n <> "").
        { intros H. apply truthy_opt_true in H. congruence. }
        rejected.
  - (* the email is rejected *)
    assert (E : endsWith email "@nmamit.in" = false).
    { destruct (endsWith email "@nmamit.in"); auto.
      destruct Hv as [_ Hv]. discriminate (Hv eq_refl). }
    cbn [fst snd success user sign_error failure]. rewrite He, E.
    repeat split; try discriminate.
    + intros [? _]. discriminate.
    + destruct (String.eqb email ""); auto.
      destruct (includes email "@"); auto.
Qed.

End SignIn.

(** ** Lists *)

Section ListFacts.

Context {A : Type}.

Lemma find_app_None (p : A -> bool) (l : list A) (x : A) :
  find p l = None -> find p (l ++ [x]) = if p x then Some x else None.
Proof.
  induction l as [|y l IH]; simpl; [reflexivity|].
  destruct (p y); [discriminate|]. exact IH.
Qed.

Lemma find_app_Some (p : A -> bool) (l l' : list A) (y : A) :
  find p l = Some y -> find p (l ++ l') = Some y.
Proof.
  induction l as [|z l IH]; simpl; [discriminate|].
  destruct (p z); auto.
Qed.

Lemma find_None_forall (p : A -> bool) (l : list A) :
  find p l = None <-> forall x, In x l -> p x = false.
Proof.
  split.
  - intros H x Hx. exact (find_none p l H x Hx).
  - induction l as [|y l IH]; simpl; intros H; [reflexivity|].
    rewrite (H y (or_introl eq_refl)). apply IH. intros x Hx. apply H. now right.
Qed.

Lemma filter_length_le (p : A -> bool) (l : list A) :
  List.length (filter p l) <= List.length l.
Proof.
  induction l as [|x l IH]; simpl; [lia|]. destruct (p x); simpl; lia.
Qed.

Lemma filter_length_lt (p : A -> bool) (l : list A) (x : A) :
  In x l -> p x = false -> List.length (filter p l) < List.length l.
Proof.
  induction l as [|y l IH]; simpl; [contradiction|].
  intros [-> | Hx] Hp.
  - rewrite Hp. pose proof (filter_length_le p l). lia.
  - specialize (IH Hx Hp). destruct (p y); simpl; lia.
Qed.

Lemma filter_length_eq (p : A -> bool) (l : list A) :
  List.length (filter p l) = List.length l -> filter p l = l.
Proof.
  induction l as [|y l IH]; simpl; [reflexivity|].
  destruct (p y) eqn:E; simpl.
  - intros H. f_equal. apply IH. lia.
  - pose proof (filter_length_le p l). lia.
Qed.

Lemma count_filter (p : A -> bool) (l : list A) :
  List.length (filter p l) = count p l.
Proof.
  induction l as [|x l IH]; simpl; [reflexivity|].
  destruct (p x); simpl; lia.
Qed.

Lemma count_app (p : A -> bool) (l l' : list A) :
  count p (l ++ l') = count p l + count p l'.
Proof.
  induction l as [|x l IH]; simpl; [reflexivity|]. rewrite IH. lia.
Qed.

Lemma count_existsb_false (p : A -> bool) (l : list A) :
  existsb p l = false -> count p l = 0.
Proof.
  induction l as [|x l IH]; simpl; [reflexivity|].
  destruct (p x); simpl; [discriminate|]. exact IH.
Qed.

Lemma count_filter_le (p q : A -> bool) (l : list A) :
  count p (filter q l) <= count p l.
Proof.
  induction l as [|x l IH]; simpl; [lia|].
  destruct (q x); simpl; destruct (p x); lia.
Qed.

(** Filtering out the elements that satisfy [q] leaves the count of the
    elements that satisfy [p] as it was when no element satisfies both. *)
Lemma count_filter_other (p q : A -> bool) (l : list A) :
  (forall x, p x = true -> q x = false) ->
  count p (filter (fun x => negb (q x)) l) = count p l.
Proof.
  intros H. induction l as [|x l IH]; simpl; [reflexivity|].
  destruct (q x) eqn:Q; simpl.
  - destruct (p x) eqn:P; [|exact IH].
    rewrite (H x P) in Q. discriminate.
  - now rewrite IH.
Qed.

Lemma existsb_count_pos (p : A -> bool) (l : list A) :
  existsb p l = true <-> 0 < count p l.
Proof.
  induction l as [|x l IH]; simpl.
  - split; [discriminate|lia].
  - destruct (p x); simpl; [split; [lia|reflexivity]|exact IH].
Qed.

End ListFacts.

(** ** Registration *)

Section Registration.

Import Storage.

Lemma registerForEvent_fresh o eventId userId userName userEmail ls :
  checkRegistrationStatus eventId userId ls = None ->
  exists r,
    registerForEvent o eventId userId userName userEmail ls
      = (Ok r, set_registrations (getRegistrations ls ++ [r]) ls)
    /\ reg_event_id r = eventId /\ user_id r = userId.
Proof.
  unfold checkRegistrationStatus, registerForEvent. intros ->.
  eexists. split; [reflexivity|]. split; reflexivity.
Qed.

Lemma registerForEvent_conflict o eventId userId userName userEmail ls :
  checkRegistrationStatus eventId userId ls <> None ->
  registerForEvent o eventId userId userName userEmail ls
    = (Throw "Already registered for this event", ls).
Proof.
  unfold checkRegistrationStatus, registerForEvent. intros H.
  destruct (find _ (getRegistrations ls)); [reflexivity|contradiction].
Qed.

Lemma registerForEvent_registered o eventId userId userName userEmail ls :
  checkRegistrationStatus eventId userId
    (snd (registerForEvent o eventId userId userName userEmail ls)) <> None.
Proof.
  unfold checkRegistrationStatus, registerForEvent.
  destruct (find _ (getRegistrations ls)) eqn:F; cbn [snd].
  - rewrite F. discriminate.
  - cbn [getRegistrations set_registrations swiftattend_registrations].
    unfold getRegistrations in F. rewrite (find_app_None _ _ _ F).
    cbn [reg_event_id user_id]. rewrite !String.eqb_refl. discriminate.
Qed.

(** C2. Once a user has asked to register for an event, whatever the
    outcome, a further call of [registerForEvent] for the same event and
    user throws "Already registered for this event" to its caller and
    leaves local storage, its registrations among the rest, as it was;
    and the first call, made when the user holds no registration for the
    event, does register the user. *)
Theorem registerForEvent_twice_conflict :
  forall o1 o2 eventId userId userName1 userEmail1 userName2 userEmail2 ls,
    let first := registerForEvent o1 eventId userId userName1 userEmail1 ls in
    let second :=
      registerForEvent o2 eventId userId userName2 userEmail2 (snd first) in
    (checkRegistrationStatus eventId userId ls = None ->
       exists r, fst first = Ok r
                 /\ getRegistrations (snd first) = (getRegistrations ls ++ [r])%list
                 /\ reg_event_id r = eventId /\ user_id r = userId)
    /\ fst second = Throw "Already registered for this event"
    /\ snd second = snd first
    /\ getRegistrations (snd second) = getRegistrations (snd first).
Proof.
  intros o1 o2 eventId userId userName1 userEmail1 userName2 userEmail2 ls
         first second.
  split.
  - intros H.
    destruct (registerForEvent_fresh o1 eventId userId userName1 userEmail1 ls H)
      as [r [E [He Hu]]].
    exists r. subst first. rewrite E. cbn [fst snd]. auto.
  - subst second.
    rewrite (registerForEvent_conflict o2 eventId userId userName2 userEmail2
               (snd first)).
    + cbn [fst snd]. auto.
    + apply registerForEvent_registered.
Qed.

End Registration.

(** ** Deleting a registration *)

Section Deletion.

Import Storage.

Lemma deleteRegistration_found registrationId ls :
  (exists r, In r (getRegistrations ls) /\ reg_id r = registrationId) ->
  deleteRegistration registrationId ls
    = (true,
       set_attendances
         (filter (fun att => negb (String.eqb (registration_id att) registrationId))
                 (getAttendances ls))
         (set_registrations
            (filter (fun reg => negb (String.eqb (reg_id reg) registrationId))
                    (getRegistrations ls))
            ls)).
Proof.
  intros [r [Hin Hid]]. unfold deleteRegistration.
  assert (L : List.length
                (filter (fun reg => negb (String.eqb (reg_id reg) registrationId))
                        (getRegistrations ls))
              < List.length (getRegistrations ls)).
  { apply filter_length_lt with (x := r); auto.
    rewrite Hid, String.eqb_refl. reflexivity. }
  destruct (Nat.eqb_spec
              (List.length
                 (filter (fun reg => negb (String.eqb (reg_id reg) registrationId))
                         (getRegistrations ls)))
              (List.length (getRegistrations ls))) as [E|_]; [lia|].
  reflexivity.
Qed.

Lemma deleteRegistration_absent registrationId ls :
  (forall r, In r (getRegistrations ls) -> reg_id r <> registrationId) ->
  deleteRegistration registrationId ls = (false, ls).
Proof.
  intros H. unfold deleteRegistration.
  assert (F : filter (fun reg => negb (String.eqb (reg_id reg) registrationId))
                     (getRegistrations ls) = getRegistrations ls).
  { apply forallb_filter_id. apply forallb_forall. intros r Hr.
    apply negb_true_iff. destruct (String.eqb_spec (reg_id r) registrationId); auto.
    exfalso. now apply (H r Hr). }
  rewrite F, Nat.eqb_refl. reflexivity.
Qed.

(** C5. Deleting a registration whose id is in the store succeeds; what
    is left are the registrations with another id and the attendance
    records that reference another id, each in its place and as it was,
    so that no attendance record references the deleted id any more and
    every other registration keeps its attendance records; events and
    support messages are untouched. *)
Theorem deleteRegistration_cascade :
  forall registrationId ls,
    (exists r, In r (getRegistrations ls) /\ reg_id r = registrationId) ->
    let res := deleteRegistration registrationId ls in
    fst res = true
    /\ getRegistrations (snd res)
       = filter (fun reg => negb (String.eqb (reg_id reg) registrationId))
                (getRegistrations ls)
    /\ getAttendances (snd res)
       = filter (fun att => negb (String.eqb (registration_id att) registrationId))
                (getAttendances ls)
    /\ (forall r, In r (getRegistrations (snd res)) -> reg_id r <> registrationId)
    /\ (forall a, In a (getAttendances (snd res)) ->
                  registration_id a <> registrationId)
    /\ (forall r, reg_id r <> registrationId ->
                  (In r (getRegistrations (snd res)) <-> In r (getRegistrations ls)))
    /\ (forall a, registration_id a <> registrationId ->
                  (In a (getAttendances (snd res)) <-> In a (getAttendances ls)))
    /\ (forall other, other <> registrationId ->
                      Run.attendances_of other (snd res) = Run.attendances_of other ls)
    /\ getEvents (snd res) = getEvents ls
    /\ getSupportMessages (snd res) = getSupportMessages ls.
Proof.
  intros registrationId ls H res. subst res.
  rewrite (deleteRegistration_found registrationId ls H). cbn [fst snd].
  unfold getRegistrations, getAttendances, getEvents, getSupportMessages,
    Run.attendances_of, getAttendances.
  cbn [set_attendances set_registrations swiftattend_registrations
       swiftattend_attendances swiftattend_events swiftattend_support_messages].
  repeat split; auto.
  - intros r Hr E. apply filter_In in Hr. destruct Hr as [_ Hr].
    rewrite E, String.eqb_refl in Hr. discriminate.
  - intros a Ha E. apply filter_In in Ha. destruct Ha as [_ Ha].
    rewrite E, String.eqb_refl in Ha. discriminate.
  - intros Hr. apply filter_In in Hr. tauto.
  - intros Hr. apply filter_In. split; auto.
    apply negb_true_iff. now apply String.eqb_neq.
  - intros Ha. apply filter_In in Ha. tauto.
  - intros Ha. apply filter_In. split; auto.
    apply negb_true_iff. now apply String.eqb_neq.
  - intros other Ho.
    apply (count_filter_other
             (fun att => String.eqb (registration_id att) other)
             (fun att => String.eqb (registration_id att) registrationId)).
    intros a Ha. apply String.eqb_eq in Ha.
    apply String.eqb_neq. congruence.
Qed.

End Deletion.

(** ** Rounding to binary64 *)

Section Binary64.

Local Open Scope Q_scope.

Lemma pow2_pos k : 0 < 2 ^ k.
Proof. apply Qpower_0_lt. reflexivity. Qed.

Lemma pow2_add a b : 2 ^ (a + b) == 2 ^ a * 2 ^ b.
Proof. apply Qpower_plus. discriminate. Qed.

Lemma pow2_le a b : (a <= b)%Z -> 2 ^ a <= 2 ^ b.
Proof. intros H. apply Qpower_le_compat_l; [exact H|discriminate]. Qed.

Lemma pow2_inject k : (0 <= k)%Z -> 2 ^ k == inject_Z (2 ^ k).
Proof. intros H. symmetry. apply (Zpower_Qpower 2 k H). Qed.

Lemma inject_Z_pos z : (0 < z)%Z -> 0 < inject_Z z.
Proof. intros H. unfold Qlt, inject_Z. cbn [Qnum Qden]. lia. Qed.

(** [floor_log2 x] is the exponent of the binade of a positive [x]. *)
Lemma floor_log2_spec x :
  0 < x -> 2 ^ floor_log2 x <= x /\ x < 2 ^ (floor_log2 x + 1).
Proof.
  intros Hx. destruct x as [n d]. unfold floor_log2. cbn [Qnum Qden].
  assert (Hn : (0 < n)%Z).
  { unfold Qlt in Hx. cbn in Hx. lia. }
  set (ln := Z.log2 n). set (ld := Z.log2 (Zpos d)).
  assert (Ln : (2 ^ ln <= n < 2 ^ (ln + 1))%Z).
  { replace (ln + 1)%Z with (Z.succ ln) by lia. apply Z.log2_spec. exact Hn. }
  assert (Ld : (2 ^ ld <= Zpos d < 2 ^ (ld + 1))%Z).
  { replace (ld + 1)%Z with (Z.succ ld) by lia. apply Z.log2_spec. reflexivity. }
  assert (Nn : (0 <= ln)%Z) by apply Z.log2_nonneg.
  assert (Nd : (0 <= ld)%Z) by apply Z.log2_nonneg.
  assert (Pn : (0 < 2 ^ ln)%Z) by (apply Z.pow_pos_nonneg; lia).
  assert (Pd : (0 < 2 ^ ld)%Z) by (apply Z.pow_pos_nonneg; lia).
  assert (Sn : (2 ^ (ln + 1) = 2 * 2 ^ ln)%Z) by (rewrite Z.pow_add_r; lia).
  assert (Sd : (2 ^ (ld + 1) = 2 * 2 ^ ld)%Z) by (rewrite Z.pow_add_r; lia).
  (* the quotient lies between 2^(ln-ld-1) and 2^(ln-ld+1) *)
  assert (Lo : 2 ^ (ln - ld - 1) <= n # d).
  { apply Qle_trans with (inject_Z (2 ^ ln) / inject_Z (2 ^ (ld + 1))).
    - replace (ln - ld - 1)%Z with (ln + - (ld + 1))%Z by lia.
      rewrite pow2_add, Qpower_opp, (pow2_inject ln), (pow2_inject (ld + 1)) by lia.
      apply Qle_refl.
    - apply Qle_shift_div_r.
      + apply inject_Z_pos. lia.
      + unfold Qle, Qmult, inject_Z. cbn [Qnum Qden]. nia. }
  assert (Hi : n # d < 2 ^ (ln - ld + 1)).
  { apply Qlt_le_trans with (inject_Z (2 ^ (ln + 1)) / inject_Z (2 ^ ld)).
    - apply Qlt_shift_div_l.
      + apply inject_Z_pos. lia.
      + unfold Qlt, Qmult, inject_Z. cbn [Qnum Qden]. nia.
    - replace (ln - ld + 1)%Z with ((ln + 1) + - ld)%Z by lia.
      rewrite pow2_add, Qpower_opp, (pow2_inject (ln + 1)), (pow2_inject ld) by lia.
      apply Qle_refl. }
  destruct (Qle_bool (2 ^ (ln - ld)) (n # d)) eqn:B.
  - apply Qle_bool_iff in B. split; [exact B|exact Hi].
  - split; [exact Lo|].
    replace (ln - ld - 1 + 1)%Z with (ln - ld)%Z by lia.
    apply Qnot_le_lt. intros C. apply Qle_bool_iff in C. congruence.
Qed.

Lemma round_half_even_floor q :
  (Qfloor q <= round_half_even q <= Qfloor q + 1)%Z.
Proof.
  unfold round_half_even.
  destruct (Qcompare (q - inject_Z (Qfloor q)) (1 # 2)); [destruct (Z.even _)| |]; lia.
Qed.

(** Rounding to an integer never passes an integer bound. *)
Lemma round_half_even_le q N :
  q <= inject_Z N -> (round_half_even q <= N)%Z.
Proof.
  intros H. pose proof (Qfloor_le q) as F. pose proof (round_half_even_floor q) as R.
  assert (FN : (Qfloor q <= N)%Z).
  { rewrite Zle_Qle. eapply Qle_trans; eassumption. }
  destruct (Z.eq_dec (Qfloor q) N) as [E|E]; [|lia].
  assert (Z0 : q - inject_Z (Qfloor q) <= 0).
  { rewrite E. unfold Qminus. rewrite <- (Qplus_opp_r (inject_Z N)).
    apply Qplus_le_compat; [exact H|apply Qle_refl]. }
  unfold round_half_even.
  assert (C : Qcompare (q - inject_Z (Qfloor q)) (1 # 2) = Lt).
  { apply Qlt_alt. eapply Qle_lt_trans; [exact Z0|reflexivity]. }
  rewrite C. lia.
Qed.

Lemma round_half_even_nonneg q : 0 <= q -> (0 <= round_half_even q)%Z.
Proof.
  intros H. pose proof (round_half_even_floor q) as R.
  pose proof (Qfloor_resp_le 0 q H) as F. cbn in F. lia.
Qed.

(** Rounding to binary64 keeps a number between 0 and an integer below
    2^53 that bounds it: such an integer is itself a binary64 number. *)
Lemma round64_bounded x n :
  0 <= x -> x <= inject_Z n -> (n < 2 ^ 53)%Z ->
  exists y, round64 x = Num y /\ 0 <= y /\ y <= inject_Z n.
Proof.
  intros H0 Hn B. unfold round64.
  destruct (Qeq_bool x 0) eqn:Z0.
  - exists 0. split; [reflexivity|]. split; [apply Qle_refl|].
    eapply Qle_trans; eassumption.
  - apply Qeq_bool_neq in Z0.
    assert (Hx : 0 < x).
    { apply Qle_lteq in H0. destruct H0 as [H0|H0]; [exact H0|].
      exfalso. apply Z0. symmetry. exact H0. }
    destruct x as [p d]. destruct p as [|p|p];
      [exfalso; apply Z0; reflexivity| |discriminate Hx].
    cbn [Qabs Z.abs Qsign_neg Qnum Z.ltb Z.compare].
    set (x := Zpos p # d) in *.
    set (e := Z.max (floor_log2 x) (-1022)).
    set (ulp := 2 ^ (e - 52)).
    set (m := round_half_even (x / ulp)).
    assert (U : 0 < ulp) by apply pow2_pos.
    assert (E : (e <= 52)%Z).
    { destruct (floor_log2_spec x Hx) as [L _].
      assert (L53 : 2 ^ floor_log2 x < 2 ^ 53).
      { eapply Qle_lt_trans; [exact L|]. eapply Qle_lt_trans; [exact Hn|].
        rewrite (pow2_inject 53) by lia. rewrite <- Zlt_Qlt. exact B. }
      apply Qpower_lt_compat_l_inv in L53; [|reflexivity]. unfold e. lia. }
    assert (S : inject_Z n == inject_Z (n * 2 ^ (52 - e)) * ulp).
    { unfold ulp. rewrite inject_Z_mult, <- (pow2_inject (52 - e)) by lia.
      rewrite <- Qmult_assoc, <- pow2_add.
      replace (52 - e + (e - 52))%Z with 0%Z by lia. cbn. ring. }
    assert (M0 : (0 <= m)%Z).
    { apply round_half_even_nonneg. apply Qle_shift_div_l; [exact U|].
      rewrite Qmult_0_l. exact H0. }
    assert (M1 : (m <= n * 2 ^ (52 - e))%Z).
    { apply round_half_even_le. apply Qle_shift_div_r; [exact U|].
      rewrite <- S. exact Hn. }
    assert (Y0 : 0 <= inject_Z m * ulp).
    { apply Qmult_le_0_compat; [rewrite <- (Zle_Qle 0); exact M0|apply Qlt_le_weak, U]. }
    assert (Y1 : inject_Z m * ulp <= inject_Z n).
    { rewrite S. apply Qmult_le_compat_r; [|apply Qlt_le_weak, U].
      rewrite <- Zle_Qle. exact M1. }
    assert (O : Qle_bool (2 ^ 1024) (inject_Z m * ulp) = false).
    { destruct (Qle_bool (2 ^ 1024) (inject_Z m * ulp)) eqn:O; [|reflexivity].
      exfalso. apply Qle_bool_iff in O.
      assert (T : 2 ^ 1024 <= inject_Z n) by (eapply Qle_trans; eassumption).
      rewrite (pow2_inject 1024), <- Zle_Qle in T by lia.
      assert ((2 ^ 53 < 2 ^ 1024)%Z) by (apply Z.pow_lt_mono_r; lia). lia. }
    rewrite O. eexists. split; [reflexivity|].
    rewrite Qred_correct. split; assumption.
Qed.

(** [round_half_even q] is an integer nearest to [q]. *)
Lemma round_half_even_nearest q :
  Qabs (inject_Z (round_half_even q) - q) <= 1 # 2.
Proof.
  pose proof (Qfloor_le q) as F. pose proof (Qlt_floor q) as C.
  rewrite inject_Z_plus in C. change (inject_Z 1) with 1 in C.
  apply Qabs_Qle_condition. unfold round_half_even.
  destruct (Qcompare (q - inject_Z (Qfloor q)) (1 # 2)) eqn:K.
  - apply Qeq_alt in K.
    destruct (Z.even (Qfloor q));
      [|rewrite inject_Z_plus; change (inject_Z 1) with 1]; lra.
  - apply Qlt_alt in K. lra.
  - apply Qgt_alt in K. rewrite inject_Z_plus. change (inject_Z 1) with 1. lra.
Qed.

Lemma round_half_even_Z z : round_half_even (inject_Z z) = z.
Proof.
  unfold round_half_even. rewrite Qfloor_Z.
  assert (K : Qcompare (inject_Z z - inject_Z z) (1 # 2) = Lt).
  { rewrite <- Qlt_alt. lra. }
  now rewrite K.
Qed.

Lemma round_half_even_comp a b : a == b -> round_half_even a = round_half_even b.
Proof.
  intros E. unfold round_half_even.
  rewrite (Qfloor_comp a b E).
  assert (K : Qcompare (a - inject_Z (Qfloor b)) (1 # 2)
              = Qcompare (b - inject_Z (Qfloor b)) (1 # 2)).
  { apply Qcompare_comp; [now rewrite E|reflexivity]. }
  now rewrite K.
Qed.

(** An integer from 0 to below 2^53 is a binary64 number: rounding leaves
    it as it is. *)
Lemma round64_integer n :
  (0 <= n < 2 ^ 53)%Z ->
  exists y, round64 (inject_Z n) = Num y /\ y == inject_Z n.
Proof.
  intros [N0 B]. unfold round64.
  destruct n as [|p|p]; [exists 0; split; reflexivity| |lia].
  change (Qeq_bool (inject_Z (Z.pos p)) 0) with false. cbv iota.
  change (Qabs (inject_Z (Z.pos p))) with (inject_Z (Z.pos p)).
  change (Qsign_neg (inject_Z (Z.pos p))) with false. cbv iota.
  set (x := inject_Z (Z.pos p)).
  assert (Hx : 0 < x) by (apply inject_Z_pos; lia).
  assert (X53 : x < 2 ^ 53).
  { rewrite (pow2_inject 53) by lia. unfold x. rewrite <- Zlt_Qlt. exact B. }
  set (e := Z.max (floor_log2 x) (-1022)).
  set (ulp := 2 ^ (e - 52)).
  assert (E : (e <= 52)%Z).
  { destruct (floor_log2_spec x Hx) as [L _].
    assert (L53 : 2 ^ floor_log2 x < 2 ^ 53) by (eapply Qle_lt_trans; eassumption).
    apply Qpower_lt_compat_l_inv in L53; [|reflexivity]. unfold e. lia. }
  assert (S : x / ulp == inject_Z (Z.pos p * 2 ^ (52 - e))).
  { unfold ulp, x, Qdiv. rewrite <- Qpower_opp.
    replace (- (e - 52))%Z with (52 - e)%Z by lia.
    rewrite inject_Z_mult, <- (pow2_inject (52 - e)) by lia. reflexivity. }
  assert (Y : inject_Z (round_half_even (x / ulp)) * ulp == x).
  { rewrite (round_half_even_comp _ _ S), round_half_even_Z, inject_Z_mult,
      <- (pow2_inject (52 - e)) by lia.
    unfold ulp. rewrite <- Qmult_assoc, <- pow2_add.
    replace (52 - e + (e - 52))%Z with 0%Z by lia. unfold x. cbn. ring. }
  assert (O : Qle_bool (2 ^ 1024) (inject_Z (round_half_even (x / ulp)) * ulp) = false).
  { destruct (Qle_bool (2 ^ 1024) _) eqn:O; [|reflexivity].
    exfalso. apply Qle_bool_iff in O. rewrite Y in O.
    assert (P : 2 ^ 53 <= 2 ^ 1024) by (apply pow2_le; lia).
    apply (Qlt_irrefl x). eapply Qlt_le_trans; [exact X53|].
    eapply Qle_trans; eassumption. }
  rewrite O. eexists. split; [reflexivity|]. rewrite Qred_correct. exact Y.
Qed.

(** A finite result of rounding lies within half the spacing of the
    binade of the number rounded. *)
Lemma round64_nearest x y :
  round64 x = Num y ->
  Qabs (y - x) <= 2 ^ (Z.max (floor_log2 (Qabs x)) (-1022) - 53).
Proof.
  unfold round64. destruct (Qeq_bool x 0) eqn:Z0.
  - intros [= <-]. apply Qeq_bool_iff in Z0.
    assert (A0 : Qabs (0 - x) == 0) by (rewrite Z0; reflexivity).
    rewrite A0. apply Qlt_le_weak, pow2_pos.
  - set (e := Z.max (floor_log2 (Qabs x)) (-1022)).
    set (ulp := 2 ^ (e - 52)).
    set (m := round_half_even (Qabs x / ulp)).
    destruct (Qle_bool _ _); [discriminate|]. intros [= <-].
    assert (U : 0 < ulp) by apply pow2_pos.
    assert (H : 2 ^ (e - 53) == ulp * (1 # 2)).
    { unfold ulp. replace (e - 53)%Z with ((e - 52) + -1)%Z by lia.
      rewrite pow2_add. reflexivity. }
    pose proof (round_half_even_nearest (Qabs x / ulp)) as N. fold m in N.
    assert (D : inject_Z m * ulp - Qabs x == (inject_Z m - Qabs x / ulp) * ulp).
    { field. intros C. rewrite C in U. discriminate U. }
    assert (A : Qabs (inject_Z m * ulp - Qabs x) <= 2 ^ (e - 53)).
    { rewrite D, Qabs_Qmult, H, (Qabs_pos ulp) by (apply Qlt_le_weak, U).
      rewrite (Qmult_comm ulp). apply Qmult_le_compat_r; [exact N|apply Qlt_le_weak, U]. }
    rewrite Qred_correct. destruct x as [n d]. destruct n as [|p|p].
    + discriminate Z0.
    + exact A.
    + change (Qsign_neg (Z.neg p # d)) with true. cbv iota.
      assert (X : - (inject_Z m * ulp) - (Z.neg p # d)
                  == - (inject_Z m * ulp - Qabs (Z.neg p # d))).
      { change (Qabs (Z.neg p # d)) with (- (Z.neg p # d)). ring. }
      rewrite X, Qabs_opp. exact A.
Qed.

(** Rounding gives a finite number or an infinity, never [NaN]. *)
Lemma round64_finite_or_infinite x :
  (exists y, round64 x = Num y) \/ (exists n, round64 x = Infinity n).
Proof.
  unfold round64. destruct (Qeq_bool x 0); [left; now eexists|].
  destruct (Qle_bool _ _); [right|left]; now eexists.
Qed.

(** One attendance of three registrations: the quotient and the product
    are each rounded, which gives 33.33333333333333, below the real
    100/3; seven of a hundred give 7.000000000000001. *)
Lemma rate_rounded_twice :
  mul (div (of_nat 1) (of_nat 3)) (Num 100)
    = Num (2345624805922133 # 70368744177664)
  /\ mul (div (of_nat 7) (of_nat 100)) (Num 100)
     = Num (7881299347898369 # 1125899906842624)
  /\ mul (div (of_nat 1) (of_nat 2)) (Num 100) = Num 50.
Proof. repeat split; vm_compute; reflexivity. Qed.

End Binary64.

(** ** Statistics *)

Section Statistics.

Import Storage.

(** C10. [getEventStats] returns, for every event id and store, the
    number of the event's registrations, the number of its attendance
    records and a rate: 0 when the event has no registration, and
    otherwise attendances / registrations * 100, the quotient and the
    product each rounded to binary64.  No division by zero takes place:
    the rate is never [NaN], and it is finite for every number of
    attendance records an array can hold. *)
Theorem getEventStats_rate :
  forall eventId ls,
    let stats := getEventStats eventId ls in
    let r := count (fun reg => String.eqb (reg_event_id reg) eventId)
                       (getRegistrations ls) in
    let a := count (fun att => String.eqb (att_event_id att) eventId)
                       (getAttendances ls) in
    totalRegistrations stats = r
    /\ totalAttendances stats = a
    /\ (r = 0 -> attendanceRate stats = Num 0)
    /\ (0 < r ->
        attendanceRate stats
          = mul (round64 (inject_Z (Z.of_nat a) / inject_Z (Z.of_nat r))%Q)
                (Num 100))
    /\ attendanceRate stats <> NaN
    /\ ((Z.of_nat a < 2 ^ 32)%Z ->
        exists q, attendanceRate stats = Num q /\ (0 <= q)%Q).
Proof.
  intros eventId ls stats r a. subst stats.
  unfold getEventStats, getEventRegistrations, getEventAttendances.
  cbn [totalRegistrations totalAttendances attendanceRate].
  rewrite !count_filter. fold r. fold a.
  assert (D : 0 < r ->
              div (of_nat a) (of_nat r)
              = round64 (inject_Z (Z.of_nat a) / inject_Z (Z.of_nat r))%Q).
  { intros Hr. unfold of_nat, div.
    assert (Z : Qeq_bool (inject_Z (Z.of_nat r)) 0 = false).
    { unfold Qeq_bool, inject_Z. cbn [Qnum Qden].
      apply Z.eqb_neq. lia. }
    rewrite Z. reflexivity. }
  split; [reflexivity|]. split; [reflexivity|].
  split; [intros ->; reflexivity|].
  split; [intros Hr; destruct (Nat.ltb_spec 0 r); [now rewrite D|lia]|].
  destruct (Nat.ltb_spec 0 r) as [Hr|Hr].
  - rewrite (D Hr). split.
    + destruct (round64_finite_or_infinite
                  (inject_Z (Z.of_nat a) / inject_Z (Z.of_nat r))%Q)
        as [[q1 ->] | [n ->]].
      * cbn [mul].
        destruct (round64_finite_or_infinite (q1 * 100)%Q) as [[q2 ->] | [n ->]];
          discriminate.
      * cbn. discriminate.
    + intros Ha.
      destruct (round64_bounded
                  (inject_Z (Z.of_nat a) / inject_Z (Z.of_nat r))%Q (Z.of_nat a))
        as [q1 [E1 [L1 U1]]]; [| |lia|].
      * apply Qle_shift_div_l; [apply inject_Z_pos; lia|].
        rewrite Qmult_0_l, <- (Zle_Qle 0). lia.
      * apply Qle_shift_div_r; [apply inject_Z_pos; lia|].
        rewrite <- inject_Z_mult, <- Zle_Qle. nia.
      * rewrite E1. cbn [mul].
        destruct (round64_bounded (q1 * 100)%Q (Z.of_nat a * 100))
          as [q2 [E2 [L2 _]]]; [| |lia|].
        -- apply Qmult_le_0_compat; [exact L1|discriminate].
        -- rewrite inject_Z_mult. apply Qmult_le_compat_r; [exact U1|discriminate].
        -- exists q2. split; [exact E2|exact L2].
  - split; [discriminate|]. intros _. exists 0%Q. split; [reflexivity|apply Qle_refl].
Qed.

End Statistics.

(** ** Check-in *)

Section CheckIn.

Import Storage Scanner.

Lemma lookup_In code ls r :
  lookup code ls = Some r -> In r (getRegistrations ls).
Proof.
  unfold lookup, findRegistrationByQR, findRegistrationByBackupCode.
  destruct (find _ (getRegistrations ls)) eqn:F.
  - intros E. injection E as <-. now apply find_some in F.
  - intros E. now apply find_some in E.
Qed.

Lemma find_by_id_of_In ls r :
  In r (getRegistrations ls) ->
  exists r', find (fun reg => String.eqb (reg_id reg) (reg_id r)) (getRegistrations ls)
             = Some r'
             /\ reg_id r' = reg_id r.
Proof.
  intros Hin.
  destruct (find (fun reg => String.eqb (reg_id reg) (reg_id r)) (getRegistrations ls))
    as [r'|] eqn:F.
  - exists r'. split; auto. apply find_some in F. now apply String.eqb_eq.
  - exfalso. pose proof (find_none _ _ F r Hin) as N. cbn beta in N.
    rewrite String.eqb_refl in N. discriminate.
Qed.

(** *** [checkInAttendee] *)

Lemma checkInAttendee_unknown o registrationId method staffId ls :
  (forall r, In r (getRegistrations ls) -> reg_id r <> registrationId) ->
  checkInAttendee o registrationId method staffId ls
    = (Throw "Registration not found", ls).
Proof.
  intros H. unfold checkInAttendee.
  destruct (find _ (getRegistrations ls)) as [r|] eqn:F; [|reflexivity].
  apply find_some in F. destruct F as [Hin E]. apply String.eqb_eq in E.
  exfalso. exact (H r Hin E).
Qed.

Lemma checkInAttendee_again o registrationId method staffId ls :
  (exists r, In r (getRegistrations ls) /\ reg_id r = registrationId) ->
  isAttendeeCheckedIn registrationId ls = true ->
  checkInAttendee o registrationId method staffId ls
    = (Throw "Already checked in", ls).
Proof.
  intros [r [Hin <-]] C. unfold checkInAttendee.
  destruct (find_by_id_of_In ls r Hin) as [r' [F _]].
  rewrite F, C. reflexivity.
Qed.

Lemma checkInAttendee_new o registrationId method staffId ls r :
  find (fun reg => String.eqb (reg_id reg) registrationId) (getRegistrations ls)
    = Some r ->
  isAttendeeCheckedIn registrationId ls = false ->
  checkInAttendee o registrationId method staffId ls
    = (Ok {| att_id := generateId o 0 0;
             registration_id := registrationId;
             att_event_id := reg_event_id r;
             att_user_id := user_id r;
             checked_in_at := Date_now o 1;
             check_in_method := method;
             staff_id := staffId |},
       set_attendances
         (getAttendances ls ++
          [{| att_id := generateId o 0 0;
              registration_id := registrationId;
              att_event_id := reg_event_id r;
              att_user_id := user_id r;
              checked_in_at := Date_now o 1;
              check_in_method := method;
              staff_id := staffId |}])%list
         ls).
Proof.
  intros F C. unfold checkInAttendee. rewrite F, C. reflexivity.
Qed.

(** What a call of [checkInAttendee] can do to the store: nothing, or
    append one record for a registration that had none. *)
Lemma checkInAttendee_store o registrationId method staffId ls :
  snd (checkInAttendee o registrationId method staffId ls) = ls
  \/ exists a,
       snd (checkInAttendee o registrationId method staffId ls)
         = set_attendances (getAttendances ls ++ [a])%list ls
       /\ registration_id a = registrationId
       /\ isAttendeeCheckedIn registrationId ls = false
       /\ fst (checkInAttendee o registrationId method staffId ls) = Ok a.
Proof.
  unfold checkInAttendee.
  destruct (find _ (getRegistrations ls)) as [r|]; [|now left].
  destruct (isAttendeeCheckedIn registrationId ls) eqn:C; [now left|].
  right. eexists. cbn [fst snd]. repeat split.
Qed.

Lemma isAttendeeCheckedIn_after o registrationId method staffId ls a :
  fst (checkInAttendee o registrationId method staffId ls) = Ok a ->
  isAttendeeCheckedIn registrationId
    (snd (checkInAttendee o registrationId method staffId ls)) = true
  /\ getRegistrations (snd (checkInAttendee o registrationId method staffId ls))
     = getRegistrations ls.
Proof.
  unfold checkInAttendee.
  destruct (find _ (getRegistrations ls)) as [r|]; [|discriminate].
  destruct (isAttendeeCheckedIn registrationId ls) eqn:C; [discriminate|].
  cbn [fst snd]. intros _. split; [|reflexivity].
  unfold isAttendeeCheckedIn, getAttendances.
  cbn [set_attendances swiftattend_attendances].
  rewrite existsb_app. cbn [existsb registration_id].
  rewrite String.eqb_refl. now rewrite orb_true_r.
Qed.

(** *** The branches of [handleScan] *)

Lemma handleScan_guard o user st ls :
  ~ passes_guard st ->
  handleScan o user st ls
    = (setMessage (err "Please select an event and enter QR code or backup code") st,
       ls).
Proof.
  unfold passes_guard, handleScan. intros H.
  destruct (truthy (selectedEventId st)); cbn [negb orb]; [|reflexivity].
  destruct (truthy (trim (scanInput st))); cbn [negb]; [|reflexivity].
  exfalso. apply H. auto.
Qed.

Lemma handleScan_invalid o user st ls :
  passes_guard st ->
  lookup (trim (scanInput st)) ls = None ->
  handleScan o user st ls
    = (setScanning false
         (setMessage (err "Invalid QR code or backup code")
            (setMessage None (setScanning true st))),
       ls).
Proof.
  unfold handleScan. intros [G1 G2] L. rewrite G1, G2, L. reflexivity.
Qed.

Lemma handleScan_wrong_event o user st ls r :
  passes_guard st ->
  lookup (trim (scanInput st)) ls = Some r ->
  reg_event_id r <> selectedEventId st ->
  handleScan o user st ls
    = (setScanning false
         (setMessage (err "This registration is not for the selected event")
            (setMessage None (setScanning true st))),
       ls).
Proof.
  unfold handleScan. intros [G1 G2] L E. rewrite G1, G2, L.
  apply String.eqb_neq in E. rewrite E. reflexivity.
Qed.

Lemma handleScan_already o user st ls r :
  passes_guard st ->
  lookup (trim (scanInput st)) ls = Some r ->
  reg_event_id r = selectedEventId st ->
  isAttendeeCheckedIn (reg_id r) ls = true ->
  handleScan o user st ls
    = (setScanning false
         (setMessage (err (user_name r ++ " is already checked in"))
            (setMessage None (setScanning true st))),
       ls).
Proof.
  unfold handleScan. intros [G1 G2] L E C. rewrite G1, G2, L.
  apply String.eqb_eq in E. rewrite E, C. reflexivity.
Qed.

Lemma handleScan_checks_in o user st ls r :
  passes_guard st ->
  lookup (trim (scanInput st)) ls = Some r ->
  reg_event_id r = selectedEventId st ->
  isAttendeeCheckedIn (reg_id r) ls = false ->
  exists a,
    handleScan o user st ls
      = (setScanning false
           (setScanInput ""
              (setMessage
                 (Some {| type := success;
                          text := "✅ " ++ user_name r ++ " checked in successfully!" |})
                 (setMessage None (setScanning true st)))),
         set_attendances (getAttendances ls ++ [a])%list ls)
    /\ registration_id a = reg_id r
    /\ staff_id a = Auth.id user
    /\ check_in_method a
       = (if (10 <? String.length (scanInput st))%nat
          then qr_scan else backup_code_method).
Proof.
  unfold handleScan. intros [G1 G2] L E C. rewrite G1, G2, L.
  apply String.eqb_eq in E. rewrite E, C. cbn [negb orb].
  destruct (find_by_id_of_In ls r (lookup_In _ _ _ L)) as [r' [F _]].
  rewrite (checkInAttendee_new o (reg_id r) _ (Auth.id user) ls r' F C).
  eexists. repeat split.
Qed.

Lemma passes_guard_dec st : passes_guard st \/ ~ passes_guard st.
Proof.
  unfold passes_guard.
  destruct (truthy (selectedEventId st)), (truthy (trim (scanInput st))).
  - left. auto.
  - right. intros [_ H]. discriminate.
  - right. intros [H _]. discriminate.
  - right. intros [H _]. discriminate.
Qed.

(** The store after [handleScan] is the store before, or the store after
    one call of [checkInAttendee]. *)
Lemma handleScan_store o user st ls :
  snd (handleScan o user st ls) = ls
  \/ exists registrationId method,
       snd (handleScan o user st ls)
         = snd (checkInAttendee o registrationId method (Auth.id user) ls).
Proof.
  unfold handleScan.
  destruct (negb (truthy (selectedEventId st)) || negb (truthy (trim (scanInput st))));
    [now left|].
  destruct (lookup (trim (scanInput st)) ls) as [r|]; [|now left].
  destruct (negb (String.eqb (reg_event_id r) (selectedEventId st))); [now left|].
  destruct (isAttendeeCheckedIn (reg_id r) ls); [now left|].
  right.
  exists (reg_id r),
    (if (10 <? String.length (scanInput st))%nat then qr_scan else backup_code_method).
  destruct (checkInAttendee o (reg_id r) _ (Auth.id user) ls) as [[a|m] ls'];
    reflexivity.
Qed.

End CheckIn.

(** ** At most one attendance record per registration *)

Section AttendanceInvariant.

Import Storage Scanner.

Lemma attendances_of_checkInAttendee o registrationId method staffId ls other :
  Run.attendances_of other ls <= 1 ->
  Run.attendances_of other (snd (checkInAttendee o registrationId method staffId ls))
    <= 1.
Proof.
  intros H.
  destruct (checkInAttendee_store o registrationId method staffId ls)
    as [-> | [a [-> [Ha [C _]]]]]; [exact H|].
  unfold Run.attendances_of, getAttendances in *.
  cbn [set_attendances swiftattend_attendances].
  rewrite count_app. cbn [count]. rewrite Ha.
  destruct (String.eqb_spec registrationId other) as [->|N].
  - unfold isAttendeeCheckedIn, getAttendances in C.
    rewrite (count_existsb_false _ _ C). lia.
  - lia.
Qed.

Lemma attendances_of_exec o op ls other :
  Run.attendances_of other ls <= 1 ->
  Run.attendances_of other (Run.exec o op ls) <= 1.
Proof.
  intros H. destruct op; cbn [Run.exec].
  - exact H.
  - unfold registerForEvent.
    destruct (find _ (getRegistrations ls)); exact H.
  - unfold deleteRegistration.
    destruct (_ =? _)%nat; cbn [snd]; [exact H|].
    unfold Run.attendances_of, getAttendances in *.
    cbn [set_attendances set_registrations swiftattend_attendances].
    eapply Nat.le_trans; [apply count_filter_le|exact H].
  - exact H.
  - unfold resolveSupportMessage.
    destruct (update_first _ _ _); exact H.
  - now apply attendances_of_checkInAttendee.
  - destruct (handleScan_store o user st ls) as [-> | [rid [m ->]]]; [exact H|].
    now apply attendances_of_checkInAttendee.
  - unfold Run.attendances_of. cbn. lia.
Qed.

Lemma reachable_attendances_unique ls :
  Run.reachable ls -> forall other, Run.attendances_of other ls <= 1.
Proof.
  induction 1 as [|o op ls _ _ IH]; intros other.
  - unfold Run.attendances_of. cbn. lia.
  - apply attendances_of_exec, IH.
Qed.

(** C1. In every store that runs of the application reach, a
    registration has at most one attendance record.  Once a record
    exists for a registration, [checkInAttendee] on it throws "Already
    checked in" and [handleScan], for a code of that registration and its
    event, reports "<name> is already checked in"; either leaves the
    store as it was.  In particular a second check-in right after a
    successful one fails in this way. *)
Theorem check_in_at_most_once :
  (forall ls, Run.reachable ls ->
     forall registrationId, Run.attendances_of registrationId ls <= 1)
  /\ (forall o registrationId method staffId ls,
        (exists r, In r (getRegistrations ls) /\ reg_id r = registrationId) ->
        isAttendeeCheckedIn registrationId ls = true ->
        checkInAttendee o registrationId method staffId ls
          = (Throw "Already checked in", ls))
  /\ (forall o user st ls r,
        passes_guard st ->
        lookup (trim (scanInput st)) ls = Some r ->
        reg_event_id r = selectedEventId st ->
        isAttendeeCheckedIn (reg_id r) ls = true ->
        message (fst (handleScan o user st ls))
          = err (user_name r ++ " is already checked in")
        /\ snd (handleScan o user st ls) = ls)
  /\ (forall o o' user user' st st' ls t,
        message (fst (handleScan o user st ls))
          = Some {| type := success; text := t |} ->
        selectedEventId st' = selectedEventId st ->
        scanInput st' = scanInput st ->
        let ls1 := snd (handleScan o user st ls) in
        exists r,
          lookup (trim (scanInput st)) ls = Some r
          /\ Run.attendances_of (reg_id r) ls = 0
          /\ Run.attendances_of (reg_id r) ls1 = 1
          /\ message (fst (handleScan o' user' st' ls1))
             = err (user_name r ++ " is already checked in")
          /\ snd (handleScan o' user' st' ls1) = ls1).
Proof.
  split; [exact reachable_attendances_unique|].
  split; [exact checkInAttendee_again|].
  split.
  - intros o user st ls r G L E C.
    rewrite (handleScan_already o user st ls r G L E C). split; reflexivity.
  - intros o o' user user' st st' ls t S Esel Einp ls1.
    destruct (passes_guard_dec st) as [G|G].
    2:{ rewrite (handleScan_guard o user st ls G) in S. discriminate. }
    destruct (lookup (trim (scanInput st)) ls) as [r|] eqn:L.
    2:{ rewrite (handleScan_invalid o user st ls G L) in S. discriminate. }
    destruct (String.eqb_spec (reg_event_id r) (selectedEventId st)) as [E|E].
    2:{ rewrite (handleScan_wrong_event o user st ls r G L E) in S. discriminate. }
    destruct (isAttendeeCheckedIn (reg_id r) ls) eqn:C.
    1:{ rewrite (handleScan_already o user st ls r G L E C) in S. discriminate. }
    destruct (handleScan_checks_in o user st ls r G L E C) as [a [H [Ha _]]].
    exists r. subst ls1. rewrite H. cbn [snd].
    assert (G' : passes_guard st').
    { unfold passes_guard in *. now rewrite Esel, Einp. }
    assert (L' : lookup (trim (scanInput st'))
                   (set_attendances (getAttendances ls ++ [a])%list ls) = Some r).
    { rewrite Einp. exact L. }
    assert (E' : reg_event_id r = selectedEventId st') by congruence.
    assert (C' : isAttendeeCheckedIn (reg_id r)
                   (set_attendances (getAttendances ls ++ [a])%list ls) = true).
    { unfold isAttendeeCheckedIn, getAttendances.
      cbn [set_attendances swiftattend_attendances].
      rewrite existsb_app. cbn [existsb]. rewrite Ha, String.eqb_refl.
      now rewrite orb_true_r. }
    rewrite (handleScan_already o' user' st' _ r G' L' E' C').
    repeat split.
    + unfold Run.attendances_of. apply count_existsb_false. exact C.
    + unfold Run.attendances_of, getAttendances.
      cbn [set_attendances swiftattend_attendances].
      rewrite count_app. cbn [count]. rewrite Ha, String.eqb_refl.
      unfold isAttendeeCheckedIn, getAttendances in C.
      rewrite (count_existsb_false _ _ C). reflexivity.
Qed.

End AttendanceInvariant.

(** ** Resolving a scanned code *)

Section CodeResolution.

Import Storage Scanner.

Lemma lookup_unfold code ls :
  lookup code ls
  = match find (fun reg => String.eqb (qr_code_data reg) code) (getRegistrations ls) with
    | Some r => Some r
    | None => find (fun reg => String.eqb (backup_code reg) (toUpperCase code))
                   (getRegistrations ls)
    end.
Proof.
  unfold lookup, findRegistrationByQR, findRegistrationByBackupCode.
  now rewrite toUpperCase_idem.
Qed.

(** A code that resolves to a registration with a non-empty payload and
    a non-empty backup code is not empty. *)
Lemma lookup_nonempty code ls r :
  lookup code ls = Some r ->
  qr_code_data r <> "" -> backup_code r <> "" -> code <> "".
Proof.
  rewrite lookup_unfold. intros L Hq Hb ->.
  destruct (find _ (getRegistrations ls)) as [r'|] eqn:F.
  - injection L as ->. apply find_some in F. destruct F as [_ F].
    apply String.eqb_eq in F. contradiction.
  - apply find_some in L. destruct L as [_ L].
    apply String.eqb_eq in L. contradiction.
Qed.


End CodeResolution.

(** ** Backup codes *)

Section BackupCodes.

Import Storage.

Lemma every_app p a b : every p (a ++ b) = every p a && every p b.
Proof.
  induction a as [|c a IH]; simpl; [reflexivity|].
  now rewrite IH, andb_assoc.
Qed.

(** The index computed from a draw in [0,1) is below 36. *)
Lemma floor_draw_bound (q : Q) :
  unit_interval q -> (0 <= Math_floor (q * inject_Z 36) < 36)%Z.
Proof.
  intros [H0 H1]. unfold Math_floor. split.
  - change 0%Z with (Qfloor 0). apply Qfloor_resp_le.
    apply Qmult_le_0_compat; [exact H0|]. unfold Qle. simpl. lia.
  - assert (L : (q * inject_Z 36 < inject_Z 36)%Q).
    { setoid_replace (inject_Z 36) with (1 * inject_Z 36)%Q at 2 by ring.
      apply Qmult_lt_compat_r; [reflexivity|exact H1]. }
    pose proof (Qfloor_le (q * inject_Z 36)) as F.
    pose proof (Qle_lt_trans _ _ _ F L) as T.
    rewrite <- Zlt_Qlt in T. exact T.
Qed.

Lemma charAt_chars (i : nat) :
  i < 36 ->
  exists c, charAt chars i = String c "" /\ is_upper_or_digit c = true.
Proof.
  intros H.
  do 36 (destruct i as [|i]; [eexists; split; reflexivity|]).
  lia.
Qed.

Lemma generateBackupCode_loop_spec o n :
  well_drawn o ->
  forall kr result,
    String.length (generateBackupCode_loop o kr n result) = String.length result + n
    /\ every is_upper_or_digit (generateBackupCode_loop o kr n result)
       = every is_upper_or_digit result.
Proof.
  intros U. induction n as [|n IH]; intros kr result; cbn [generateBackupCode_loop].
  - split; [lia|reflexivity].
  - destruct (IH (S kr)
                (result ++ charAt chars
                   (Z.to_nat (Math_floor (Math_random o kr
                      * inject_Z (Z.of_nat (String.length chars)))))))
      as [L E].
    change (Z.of_nat (String.length chars)) with 36%Z in *.
    pose proof (floor_draw_bound _ (U kr)) as B.
    destruct (charAt_chars (Z.to_nat (Math_floor (Math_random o kr * inject_Z 36))))
      as [c [Hc Pc]]; [lia|].
    rewrite Hc in L, E |- *. split.
    + rewrite L, append_length. simpl. lia.
    + rewrite E, every_app. cbn [every]. rewrite Pc. cbn [andb].
      now rewrite andb_true_r.
Qed.

(** The backup code of the local-storage variant: eight characters, each
    an upper-case letter or a digit. *)
Lemma generateBackupCode_format o kr :
  well_drawn o ->
  String.length (generateBackupCode o kr) = 8
  /\ every is_upper_or_digit (generateBackupCode o kr) = true.
Proof.
  intros U. unfold generateBackupCode.
  destruct (generateBackupCode_loop_spec o 8 U kr "") as [L E].
  split; [exact L|exact E].
Qed.

Lemma registerForEvent_backup_code o eventId userId userName userEmail ls r :
  well_drawn o ->
  fst (registerForEvent o eventId userId userName userEmail ls) = Ok r ->
  String.length (backup_code r) = 8
  /\ every is_upper_or_digit (backup_code r) = true
  /\ startsWith (qr_code_data r) "SWIFTATTEND_" = true.
Proof.
  intros U. unfold registerForEvent.
  destruct (find _ (getRegistrations ls)); cbn [fst]; [discriminate|].
  intros E. injection E as <-. cbn [backup_code qr_code_data].
  destruct (generateBackupCode_format o 1 U) as [L P].
  split; [exact L|]. split; [exact P|].
  unfold startsWith, generateQRCodeData. apply String.prefix_correct.
  cbn [String.length append substring].
  now destruct (eventId ++ _).
Qed.

Lemma generated_code_nonempty (code : string) :
  String.length code = 8 -> code <> "".
Proof. intros H ->. discriminate. Qed.

End BackupCodes.

(** ** Reachable stores *)

Section ReachableStores.

Import Storage Scanner.

Lemma codes_nonempty_exec o op ls :
  well_drawn o -> Run.codes_nonempty ls -> Run.codes_nonempty (Run.exec o op ls).
Proof.
  intros W H. destruct op; cbn [Run.exec].
  - exact H.
  - unfold registerForEvent.
    destruct (find _ (getRegistrations ls)); cbn [snd]; [exact H|].
    intros r Hr. unfold getRegistrations in Hr.
    cbn [set_registrations swiftattend_registrations] in Hr.
    apply in_app_or in Hr. destruct Hr as [Hr | [<- | []]]; [now apply H|].
    cbn [qr_code_data backup_code]. split.
    + discriminate.
    + apply generated_code_nonempty, generateBackupCode_format, W.
  - unfold deleteRegistration.
    destruct (_ =? _)%nat; cbn [snd]; [exact H|].
    intros r Hr. unfold getRegistrations in Hr.
    cbn [set_attendances set_registrations swiftattend_registrations] in Hr.
    apply filter_In in Hr. now apply H.
  - exact H.
  - unfold resolveSupportMessage.
    destruct (update_first _ _ _); exact H.
  - destruct (checkInAttendee_store o registrationId method staffId ls)
      as [-> | [a [-> _]]]; exact H.
  - destruct (handleScan_store o user st ls) as [-> | [rid [m ->]]]; [exact H|].
    destruct (checkInAttendee_store o rid m (Auth.id user) ls)
      as [-> | [a [-> _]]]; exact H.
  - intros r [].
Qed.

Lemma reachable_codes_nonempty ls :
  Run.reachable ls -> Run.codes_nonempty ls.
Proof.
  induction 1 as [|o op ls W _ IH].
  - intros r [].
  - now apply codes_nonempty_exec.
Qed.

(** In a reachable store a code that resolves to a registration passes
    the first test of [handleScan], once an event is selected. *)
Lemma lookup_passes_guard st ls r :
  Run.reachable ls ->
  selectedEventId st <> "" ->
  lookup (trim (scanInput st)) ls = Some r ->
  passes_guard st.
Proof.
  intros R S L. split.
  - now apply truthy_true.
  - apply truthy_true.
    destruct (reachable_codes_nonempty ls R r (lookup_In _ _ _ L)) as [Hq Hb].
    exact (lookup_nonempty _ _ _ L Hq Hb).
Qed.

(** C4. In every store the application reaches, a check-in attempt for a
    selected event with a code that resolves to a registration of another
    event fails with "This registration is not for the selected event"
    and leaves the store, its attendance records among the rest, as it
    was. *)
Theorem handleScan_wrong_event_rejected :
  forall o user st ls r,
    Run.reachable ls ->
    selectedEventId st <> "" ->
    lookup (trim (scanInput st)) ls = Some r ->
    reg_event_id r <> selectedEventId st ->
    message (fst (handleScan o user st ls))
      = err "This registration is not for the selected event"
    /\ snd (handleScan o user st ls) = ls
    /\ getAttendances (snd (handleScan o user st ls)) = getAttendances ls.
Proof.
  intros o user st ls r R S L E.
  rewrite (handleScan_wrong_event o user st ls r
             (lookup_passes_guard st ls r R S L) L E).
  repeat split.
Qed.

Lemma oracle_at_well_drawn t seed : well_drawn (Examples.oracle_at t seed).
Proof.
  intros k. unfold unit_interval, Examples.oracle_at, Math_random, Qle, Qlt.
  cbn [Qnum Qden].
  pose proof (Z.mod_pos_bound (Z.of_nat k * 7 + seed) 36 eq_refl) as B.
  split; lia.
Qed.

End ReachableStores.

(** ** Backup codes of the hosted variant *)

Section HostedBackupCodes.

Lemma substring_length_le n m s : String.length (substring n m s) <= m.
Proof.
  revert n m. induction s as [|c s IH]; intros n m.
  - destruct n, m; simpl; lia.
  - destruct n as [|n].
    + destruct m as [|m]; simpl; [lia|]. specialize (IH 0 m). lia.
    + simpl. apply IH.
Qed.

Lemma every_substring p n m s :
  every p s = true -> every p (substring n m s) = true.
Proof.
  revert n m. induction s as [|c s IH]; intros n m H.
  - destruct n, m; reflexivity.
  - simpl in H. apply andb_true_iff in H. destruct H as [Hc Hs].
    destruct n as [|n].
    + destruct m as [|m]; simpl; [reflexivity|].
      rewrite Hc. now apply IH.
    + simpl. now apply IH.
Qed.

Lemma upper_char_of_lower_or_digit c :
  is_lower_or_digit c = true -> is_upper_or_digit (upper_char c) = true.
Proof.
  destruct c as [[] [] [] [] [] [] [] []]; vm_compute; auto.
Qed.

Lemma every_toUpperCase s :
  every is_lower_or_digit s = true ->
  every is_upper_or_digit (toUpperCase s) = true.
Proof.
  induction s as [|c s IH]; simpl; [reflexivity|].
  intros H. apply andb_true_iff in H. destruct H as [Hc Hs].
  now rewrite (upper_char_of_lower_or_digit c Hc), IH.
Qed.

Lemma charAt_digits36 (i : nat) :
  i < 36 ->
  exists c, charAt digits36 i = String c "" /\ is_lower_or_digit c = true.
Proof.
  intros H.
  do 36 (destruct i as [|i]; [eexists; split; reflexivity|]).
  lia.
Qed.

Lemma Qfloor_Qred (q : Q) : Qfloor (Qred q) = Qfloor q.
Proof. apply Qfloor_comp, Qred_correct. Qed.

(** What is left of a fraction in [0,1) after its first base-36 digit is
    again in [0,1). *)
Lemma fraction_step (q : Q) :
  unit_interval q ->
  unit_interval (Qred (Qred (q * 36) - inject_Z (Qfloor (Qred (q * 36))))).
Proof.
  intros _. unfold unit_interval. rewrite Qred_correct, Qfloor_Qred.
  set (x := Qred (q * 36)).
  assert (X : (x == q * 36)%Q) by apply Qred_correct.
  pose proof (Qfloor_le (q * 36)) as F.
  pose proof (Qlt_floor (q * 36)) as G.
  rewrite inject_Z_plus in G. rewrite X. split.
  - apply Qle_minus_iff in F. exact F.
  - apply Qlt_minus_iff. apply Qlt_minus_iff in G.
    setoid_replace (1 + - (q * 36 - inject_Z (Qfloor (q * 36))))%Q
      with (inject_Z (Qfloor (q * 36)) + inject_Z 1 + - (q * 36))%Q by ring.
    exact G.
Qed.

Lemma frac_digits36_chars fuel :
  forall q, unit_interval q ->
            every is_lower_or_digit (frac_digits36 fuel q) = true.
Proof.
  induction fuel as [|fuel IH]; intros q U; cbn [frac_digits36]; [reflexivity|].
  destruct (Qeq_bool q 0); [reflexivity|].
  rewrite every_app, (IH _ (fraction_step q U)), andb_true_r.
  rewrite Qfloor_Qred.
  pose proof (floor_draw_bound q U) as B. unfold Math_floor in B.
  destruct (charAt_digits36 (Z.to_nat (Qfloor (q * 36)))) as [c [Hc Pc]].
  - change (inject_Z 36) with 36%Q in B. lia.
  - rewrite Hc. cbn [every]. now rewrite Pc.
Qed.

Lemma toString36_shape (q : Q) :
  unit_interval q ->
  toString36 q = "0"
  \/ exists ds, toString36 q = "0." ++ ds /\ every is_lower_or_digit ds = true.
Proof.
  intros U. unfold toString36. destruct (Qeq_bool q 0).
  - left. reflexivity.
  - right. eexists. split; [reflexivity|]. apply frac_digits36_chars, U.
Qed.

(** The backup code of the hosted variant has at most eight characters,
    each an upper-case letter or a digit. *)
Lemma hosted_backup_code_format o eventId userId :
  unit_interval (Math_random o 0) ->
  String.length (Supabase.new_backup_code (Supabase.registerForEvent o eventId userId))
    <= 8
  /\ every is_upper_or_digit
       (Supabase.new_backup_code (Supabase.registerForEvent o eventId userId)) = true.
Proof.
  intros U. unfold Supabase.registerForEvent, Supabase.new_backup_code. split.
  - rewrite toUpperCase_length. apply substring_length_le.
  - apply every_toUpperCase. unfold substr.
    destruct (toString36_shape _ U) as [E | [ds [E D]]]; rewrite E.
    + reflexivity.
    + change (substring 2 8 ("0." ++ ds)) with (substring 0 8 ds).
      now apply every_substring.
Qed.

End HostedBackupCodes.

(** C8. The code departs from the specification in the hosted variant:
    when [Math.random()] returns one half, whose base-36 form is "0.i",
    [registerForEvent] of lib/supabase.ts makes the backup code "I", one
    character long instead of eight.  (The local-storage variant always
    makes eight characters: [generateBackupCode_format].) *)
Theorem hosted_backup_code_short :
  forall eventId userId,
    unit_interval (Math_random Examples.o_half 0)
    /\ toString36 (Math_random Examples.o_half 0) = "0.i"
    /\ Supabase.new_backup_code
         (Supabase.registerForEvent Examples.o_half eventId userId) = "I"
    /\ String.length
         (Supabase.new_backup_code
            (Supabase.registerForEvent Examples.o_half eventId userId)) <> 8.
Proof.
  intros eventId userId.
  unfold Supabase.registerForEvent, Supabase.new_backup_code.
  assert (E : toString36 (Math_random Examples.o_half 0) = "0.i")
    by (vm_compute; reflexivity).
  rewrite E. repeat split.
  - unfold Qle. simpl. lia.
  - discriminate.
Qed.

(** ** The index page *)

Section IndexListing.

Import Storage IndexPage.

Lemma is_upcoming_unfold tza now event d :
  Date_parse (event_date event) = Some (d * msPerDay)%Z ->
  is_upcoming tza now event
  = (local_day tza now * msPerDay - tza <=? d * msPerDay)%Z.
Proof.
  intros P. unfold is_upcoming, setHours0, local_day. now rewrite P.
Qed.

(** Where local time is UTC or ahead of it, by less than a day, the
    filter keeps exactly the events dated on the local day or later. *)
Lemma is_upcoming_east tza now event d :
  (0 <= tza < msPerDay)%Z ->
  Date_parse (event_date event) = Some (d * msPerDay)%Z ->
  is_upcoming tza now event = true <-> (local_day tza now <= d)%Z.
Proof.
  intros T P. rewrite (is_upcoming_unfold tza now event d P).
  rewrite Z.leb_le. unfold msPerDay in *.
  generalize (local_day tza now). intros l. split; intros H; nia.
Qed.

(** Where local time is behind UTC, by less than a day, the filter keeps
    exactly the events dated after the local day: it drops those dated
    on the local day. *)
Lemma is_upcoming_west tza now event d :
  (- msPerDay < tza < 0)%Z ->
  Date_parse (event_date event) = Some (d * msPerDay)%Z ->
  is_upcoming tza now event = true <-> (local_day tza now < d)%Z.
Proof.
  intros T P. rewrite (is_upcoming_unfold tza now event d P).
  rewrite Z.leb_le. unfold msPerDay in *.
  generalize (local_day tza now). intros l. split; intros H; nia.
Qed.

(** Every valid date parses to midnight UTC of a day. *)
Lemma Date_parse_midnight s t :
  Date_parse s = Some t -> exists d, t = (d * msPerDay)%Z.
Proof.
  unfold Date_parse. destruct (parse_date_only s) as [[[y m] d]|]; [|discriminate].
  intros E. injection E as <-. eexists. reflexivity.
Qed.

Lemma filter_upcoming_In tza o event :
  forall allEvents k,
    In event (filter_upcoming tza o k allEvents) ->
    In event allEvents
    /\ exists j, is_upcoming tza (Date_now o j) event = true.
Proof.
  induction allEvents as [|e l IH]; intros k; cbn [filter_upcoming].
  - contradiction.
  - destruct (is_upcoming tza (Date_now o k) e) eqn:U.
    + intros [<- | H].
      * split; [now left|]. now exists k.
      * destruct (IH (S k) H) as [H1 H2]. split; [now right|exact H2].
    + intros H. destruct (IH (S k) H) as [H1 H2]. split; [now right|exact H2].
Qed.

End IndexListing.

(** C6. The code departs from the specification where local time is
    behind UTC: with the index page opened at local noon of 2024-06-15 in
    a zone five hours behind UTC, the event dated 2024-06-15, which is
    today, fails the filter and is not listed.  [new Date("2024-06-15")]
    is midnight UTC, which is 19:00 of the day before in local time,
    while [today] is local midnight.  (Where local time is UTC or ahead
    the filter keeps the events dated today or later:
    [is_upcoming_east].) *)
Theorem index_drops_event_dated_today :
  local_day Examples.tza_minus_5h (Date_now Examples.o1 0) = day_of_civil 2024 6 15
  /\ Date_parse (Storage.event_date Examples.event_today)
     = Some (day_of_civil 2024 6 15 * msPerDay)%Z
  /\ Storage.getEvents Examples.with_event_today = [Examples.event_today]
  /\ IndexPage.is_upcoming Examples.tza_minus_5h (Date_now Examples.o1 0)
       Examples.event_today = false
  /\ IndexPage.upcomingEvents Examples.tza_minus_5h Examples.o1
       Examples.with_event_today = [].
Proof.
  repeat split; vm_compute; reflexivity.
Qed.

(** ** The order of listings *)

Section ListingOrder.

Import Storage.

(** The local-storage variant keeps and returns events in the order of
    their creation. *)
Lemma createEvent_appends o eventData ls :
  getEvents (snd (createEvent o eventData ls))
  = (getEvents ls ++ [fst (createEvent o eventData ls)])%list
  /\ event_date (fst (createEvent o eventData ls)) = d_event_date eventData.
Proof. split; reflexivity. Qed.

Lemma insert_asc_perm {A : Type} (key : A -> Z) (x : A) (rows : list A) :
  Permutation (x :: rows) (Supabase.insert_asc key x rows).
Proof.
  induction rows as [|y rows IH]; cbn [Supabase.insert_asc]; [reflexivity|].
  destruct (key x <? key y)%Z; [reflexivity|].
  rewrite perm_swap. now constructor.
Qed.

Lemma order_asc_perm {A : Type} (key : A -> Z) (rows : list A) :
  Permutation rows (Supabase.order_asc key rows).
Proof.
  induction rows as [|x rows IH]; cbn [Supabase.order_asc]; [constructor|].
  rewrite <- insert_asc_perm. now constructor.
Qed.

Lemma insert_asc_sorted {A : Type} (key : A -> Z) (x : A) (rows : list A) :
  Sorted (fun a b => (key a <= key b)%Z) rows ->
  Sorted (fun a b => (key a <= key b)%Z) (Supabase.insert_asc key x rows).
Proof.
  induction rows as [|y rows IH]; cbn [Supabase.insert_asc]; intros S.
  - repeat constructor.
  - destruct (Z.ltb_spec (key x) (key y)) as [L|L].
    + constructor; [exact S|]. constructor. lia.
    + inversion S as [|? ? S' Hd]; subst.
      constructor; [now apply IH|].
      destruct rows as [|z rows]; cbn [Supabase.insert_asc].
      * constructor. exact L.
      * destruct (key x <? key z)%Z; constructor; [exact L|].
        now inversion Hd.
Qed.

Lemma order_asc_sorted {A : Type} (key : A -> Z) (rows : list A) :
  Sorted (fun a b => (key a <= key b)%Z) (Supabase.order_asc key rows).
Proof.
  induction rows as [|x rows IH]; cbn [Supabase.order_asc].
  - constructor.
  - now apply insert_asc_sorted.
Qed.

(** The hosted variant returns events in ascending order of date. *)
Lemma hosted_getEvents_sorted selected :
  Sorted (fun a b => (Supabase.event_date a <= Supabase.event_date b)%Z)
         (Supabase.getEvents selected)
  /\ Permutation selected (Supabase.getEvents selected).
Proof.
  unfold Supabase.getEvents. split.
  - apply order_asc_sorted.
  - apply order_asc_perm.
Qed.

End ListingOrder.

(** C7. The code departs from the specification in the local-storage
    variant: after an event dated 2024-06-30 and then one dated
    2024-06-20 are created, [getEvents] returns them in this order, and
    so does the index page (opened on 2024-06-15), which shows the result
    of its filter as it is; the listing is not in ascending order of
    date.  (The hosted [getEvents] orders by date:
    [hosted_getEvents_sorted].) *)
Theorem local_listing_in_creation_order :
  map Storage.event_date (Storage.getEvents Examples.two_events)
    = ["2024-06-30"; "2024-06-20"]
  /\ IndexPage.ascending_by_date (Storage.getEvents Examples.two_events) = false
  /\ IndexPage.upcomingEvents Examples.tza_plus_5h30 Examples.o3 Examples.two_events
     = Storage.getEvents Examples.two_events
  /\ IndexPage.ascending_by_date
       (IndexPage.upcomingEvents Examples.tza_plus_5h30 Examples.o3
          Examples.two_events) = false.
Proof.
  repeat split; vm_compute; reflexivity.
Qed.

(** ** The properties on the sample runs *)

Section SampleRuns.

Import Storage Scanner Examples.

Lemma check_in_at_most_once_witness :
  message (fst (handleScan o3 staff_user (scanner the_event_id " mt07elsz ")
                  with_registration))
    = Some {| type := success; text := "✅ Asha Rao checked in successfully!" |}
  /\ Run.attendances_of (reg_id the_registration) with_attendance = 1
  /\ message (fst (handleScan o4 staff_user (scanner the_event_id "MT07ELSZ")
                     with_attendance))
     = err "Asha Rao is already checked in"
  /\ snd (handleScan o4 staff_user (scanner the_event_id "MT07ELSZ") with_attendance)
     = with_attendance.
Proof.
  assert (S : message (fst (handleScan o3 staff_user
                              (scanner the_event_id " mt07elsz ") with_registration))
              = Some {| type := success;
                        text := "✅ Asha Rao checked in successfully!" |})
    by (vm_compute; reflexivity).
  destruct check_in_at_most_once as [_ [_ [_ H]]].
  destruct (H o3 o4 staff_user staff_user (scanner the_event_id " mt07elsz ")
              (scanner the_event_id " mt07elsz ") with_registration _ S
              eq_refl eq_refl) as [r [L [_ [C [M E]]]]].
  assert (R : r = the_registration).
  { vm_compute in L. injection L as <-. vm_compute. reflexivity. }
  subst r. split; [exact S|]. split; [exact C|].
  split; vm_compute; reflexivity.
Defined.

Lemma registerForEvent_twice_conflict_witness :
  fst (registerForEvent o4 the_event_id "user_asha" "Asha Rao" "asha@nmamit.in"
         with_registration)
    = Throw "Already registered for this event"
  /\ snd (registerForEvent o4 the_event_id "user_asha" "Asha Rao" "asha@nmamit.in"
            with_registration)
     = with_registration.
Proof.
  destruct (registerForEvent_twice_conflict o2 o4 the_event_id "user_asha"
              "Asha Rao" "asha@nmamit.in" "Asha Rao" "asha@nmamit.in" with_event)
    as [_ [H1 [H2 _]]].
  split; [exact H1|exact H2].
Defined.



Lemma with_registration_reachable : Run.reachable with_registration.
Proof.
  unfold with_registration, with_event.
  repeat (apply Run.reach_exec; [apply oracle_at_well_drawn|]).
  apply Run.reach_empty.
Qed.

Lemma handleScan_wrong_event_rejected_witness :
  lookup (trim " mt07elsz ") with_registration = Some the_registration
  /\ reg_event_id the_registration <> "1718470900000_zz"
  /\ message (fst (handleScan o3 staff_user (scanner "1718470900000_zz" " mt07elsz ")
                     with_registration))
     = err "This registration is not for the selected event"
  /\ getAttendances
       (snd (handleScan o3 staff_user (scanner "1718470900000_zz" " mt07elsz ")
               with_registration))
     = [].
Proof.
  assert (S : selectedEventId (scanner "1718470900000_zz" " mt07elsz ") <> "")
    by (vm_compute; discriminate).
  assert (L : lookup (trim (scanInput (scanner "1718470900000_zz" " mt07elsz ")))
                with_registration = Some the_registration)
    by (vm_compute; reflexivity).
  assert (E : reg_event_id the_registration
              <> selectedEventId (scanner "1718470900000_zz" " mt07elsz "))
    by (vm_compute; discriminate).
  destruct (handleScan_wrong_event_rejected o3 staff_user _ _ _
              with_registration_reachable S L E) as [M [_ A]].
  split; [exact L|]. split; [exact E|].
  split; [exact M|]. rewrite A. reflexivity.
Defined.

Lemma deleteRegistration_cascade_witness :
  fst (deleteRegistration (reg_id the_registration) with_second_registration) = true
  /\ getAttendances
       (snd (deleteRegistration (reg_id the_registration) with_second_registration))
     = []
  /\ map user_id
       (getRegistrations
          (snd (deleteRegistration (reg_id the_registration)
                  with_second_registration)))
     = ["user_ravi"].
Proof.
  destruct (deleteRegistration_cascade (reg_id the_registration)
              with_second_registration) as [H1 [H2 [H3 _]]].
  { exists the_registration. split; [left|]; vm_compute; reflexivity. }
  split; [exact H1|]. rewrite H2, H3. split; vm_compute; reflexivity.
Defined.

Lemma signIn_succeeds_iff_witness :
  Auth.success
    (fst (Auth.signIn o1 "asha@nmamit.in" "" Auth.participant (Some "Asha Rao") None
            None)) = true
  /\ Auth.success
       (fst (Auth.signIn o1 "admin@nmamit.in" "12345" Auth.admin (Some "Admin") None
               None)) = false.
Proof.
  split.
  - apply (signIn_succeeds_iff o1 "asha@nmamit.in" "" Auth.participant
             (Some "Asha Rao") None None).
    split; [reflexivity|]. exists "Asha Rao". split; [reflexivity|discriminate].
  - destruct (signIn_succeeds_iff o1 "admin@nmamit.in" "12345" Auth.admin
                (Some "Admin") None None) as [[H _] _].
    destruct (Auth.success _); [|reflexivity].
    destruct (H eq_refl) as [_ P]. discriminate P.
Defined.

Lemma getEventStats_rate_witness :
  totalRegistrations (getEventStats the_event_id with_second_registration) = 2
  /\ totalAttendances (getEventStats the_event_id with_second_registration) = 1
  /\ attendanceRate (getEventStats the_event_id with_second_registration)
     = Num 50
  /\ attendanceRate (getEventStats "1718470900000_zz" with_second_registration)
     = Num 0
  /\ exists q,
       attendanceRate (getEventStats the_event_id with_second_registration) = Num q
       /\ (0 <= q)%Q.
Proof.
  destruct (getEventStats_rate the_event_id with_second_registration)
    as [R [A [_ [P [_ F]]]]].
  destruct (getEventStats_rate "1718470900000_zz" with_second_registration)
    as [_ [_ [Z _]]].
  split; [rewrite R; vm_compute; reflexivity|].
  split; [rewrite A; vm_compute; reflexivity|].
  split; [|split].
  - rewrite P; vm_compute; [reflexivity|lia].
  - apply Z. vm_compute. reflexivity.
  - apply F. vm_compute. reflexivity.
Defined.

End SampleRuns.

(* ================================================================== *)
(** * Further properties of the stores the application reaches *)
(* ================================================================== *)

Section StoreSteps.

Import Storage Scanner.

(** What one operation does to the registrations and to the attendance
    records: nothing; one registration more, for a user who had none for
    the event; the registrations and attendance records of one id
    removed; one attendance record more, for a registration that had
    none; or everything removed. *)
Lemma exec_registrations_attendances o op ls :
  (getRegistrations (Run.exec o op ls) = getRegistrations ls
   /\ getAttendances (Run.exec o op ls) = getAttendances ls)
  \/ (exists eventId userId userName userEmail r,
        fst (registerForEvent o eventId userId userName userEmail ls) = Ok r
        /\ checkRegistrationStatus eventId userId ls = None
        /\ reg_event_id r = eventId /\ user_id r = userId
        /\ getRegistrations (Run.exec o op ls) = (getRegistrations ls ++ [r])%list
        /\ getAttendances (Run.exec o op ls) = getAttendances ls)
  \/ (exists registrationId,
        getRegistrations (Run.exec o op ls)
          = filter (fun reg => negb (String.eqb (reg_id reg) registrationId))
                   (getRegistrations ls)
        /\ getAttendances (Run.exec o op ls)
           = filter (fun att => negb (String.eqb (registration_id att) registrationId))
                    (getAttendances ls))
  \/ (exists r a,
        In r (getRegistrations ls)
        /\ isAttendeeCheckedIn (reg_id r) ls = false
        /\ registration_id a = reg_id r
        /\ att_event_id a = reg_event_id r
        /\ att_user_id a = user_id r
        /\ getRegistrations (Run.exec o op ls) = getRegistrations ls
        /\ getAttendances (Run.exec o op ls) = (getAttendances ls ++ [a])%list)
  \/ (getRegistrations (Run.exec o op ls) = []
      /\ getAttendances (Run.exec o op ls) = []).
Proof.
  assert (C : forall registrationId method staffId,
             (getRegistrations (snd (checkInAttendee o registrationId method staffId ls))
                = getRegistrations ls
              /\ getAttendances (snd (checkInAttendee o registrationId method staffId ls))
                 = getAttendances ls)
             \/ (exists r a,
                   In r (getRegistrations ls)
                   /\ isAttendeeCheckedIn (reg_id r) ls = false
                   /\ registration_id a = reg_id r
                   /\ att_event_id a = reg_event_id r
                   /\ att_user_id a = user_id r
                   /\ getRegistrations
                        (snd (checkInAttendee o registrationId method staffId ls))
                      = getRegistrations ls
                   /\ getAttendances
                        (snd (checkInAttendee o registrationId method staffId ls))
                      = (getAttendances ls ++ [a])%list)).
  { intros registrationId method staffId. unfold checkInAttendee.
    destruct (find _ (getRegistrations ls)) as [r|] eqn:F; [|now left].
    destruct (isAttendeeCheckedIn registrationId ls) eqn:A; [now left|].
    right. apply find_some in F. destruct F as [Hin Hid].
    apply String.eqb_eq in Hid. subst registrationId.
    exists r. eexists. cbn [snd]. repeat split; auto. }
  destruct op; cbn [Run.exec].
  - left. split; reflexivity.
  - destruct (checkRegistrationStatus eventId userId ls) eqn:S.
    + left. rewrite registerForEvent_conflict by congruence. split; reflexivity.
    + right. left.
      destruct (registerForEvent_fresh o eventId userId userName userEmail ls S)
        as [r [E [He Hu]]].
      exists eventId, userId, userName, userEmail, r. rewrite E. cbn [fst snd].
      repeat split; auto.
  - unfold deleteRegistration.
    destruct (_ =? _)%nat; cbn [snd].
    + left. split; reflexivity.
    + right. right. left. exists registrationId. split; reflexivity.
  - left. split; reflexivity.
  - left. unfold resolveSupportMessage.
    destruct (update_first _ _ _); split; reflexivity.
  - destruct (C registrationId method staffId) as [H|H]; [now left|].
    right. right. right. left. exact H.
  - destruct (handleScan_store o user st ls) as [-> | [rid [m ->]]].
    + left. split; reflexivity.
    + destruct (C rid m (Auth.id user)) as [H|H]; [now left|].
      right. right. right. left. exact H.
  - right. right. right. right. split; reflexivity.
Qed.

End StoreSteps.

Section StoreInvariants.

Import Storage Scanner Invariants.

Lemma count_pos_of_In {A : Type} (p : A -> bool) (l : list A) (x : A) :
  In x l -> p x = true -> 1 <= count p l.
Proof.
  induction l as [|y l IH]; cbn [count In]; [contradiction|].
  intros [-> | H] P.
  - rewrite P. lia.
  - specialize (IH H P). lia.
Qed.

Lemma count_zero_of_find_None {A : Type} (p : A -> bool) (l : list A) :
  find p l = None -> count p l = 0.
Proof.
  induction l as [|y l IH]; cbn [count find]; [reflexivity|].
  destruct (p y); [discriminate|]. exact IH.
Qed.

(** One operation keeps every attendance record attached to a stored
    registration: check-in needs the registration, and deleting a
    registration removes its attendance records. *)
Lemma exec_attendance_refers o op ls :
  attendance_refers ls -> attendance_refers (Run.exec o op ls).
Proof.
  intros IH a Ha.
  destruct (exec_registrations_attendances o op ls)
    as [[Er Ea] | [[e [u [n [m [r [_ [_ [_ [_ [Er Ea]]]]]]]]]]
                 | [[rid [Er Ea]]
                 | [[r [a' [Hr [_ [Hid [He [Hu [Er Ea]]]]]]]] | [_ Ea]]]]];
    rewrite Ea in Ha; rewrite ?Er.
  - exact (IH a Ha).
  - destruct (IH a Ha) as [r' [Hin H']]. exists r'. split; [|exact H'].
    apply in_or_app. now left.
  - apply filter_In in Ha. destruct Ha as [Ha Hne].
    destruct (IH a Ha) as [r' [Hin [Hid H']]]. exists r'. split; [|now split].
    apply filter_In. split; [exact Hin|]. now rewrite Hid.
  - apply in_app_or in Ha. destruct Ha as [Ha | [<- | []]].
    + exact (IH a Ha).
    + exists r. auto.
  - destruct Ha.
Qed.

(** One operation keeps a user at no more than one registration for an
    event: [registerForEvent] appends only when [checkRegistrationStatus]
    found none. *)
Lemma exec_registrations_of o op ls eventId userId :
  registrations_of eventId userId ls <= 1 ->
  registrations_of eventId userId (Run.exec o op ls) <= 1.
Proof.
  intros IH. unfold registrations_of in *.
  destruct (exec_registrations_attendances o op ls)
    as [[Er _] | [[e [u [n [m [r [_ [S [He [Hu [Er _]]]]]]]]]]
                 | [[rid [Er _]] | [[r [a' [_ [_ [_ [_ [_ [Er _]]]]]]]] | [Er _]]]]];
    rewrite Er.
  - exact IH.
  - rewrite count_app. cbn [count]. rewrite He, Hu.
    destruct (String.eqb e eventId && String.eqb u userId) eqn:B; [|lia].
    apply andb_true_iff in B. destruct B as [B1 B2].
    apply String.eqb_eq in B1, B2. rewrite B1, B2 in S.
    unfold checkRegistrationStatus in S.
    rewrite (count_zero_of_find_None _ _ S). lia.
  - eapply Nat.le_trans; [apply count_filter_le|exact IH].
  - exact IH.
  - cbn. lia.
Qed.

(** X1. In every store the application reaches, each attendance record
    is that of a stored registration with the same id, event and user:
    check-in needs the registration, and deleting a registration removes
    its attendance records. *)
Theorem reachable_attendance_refers :
  forall ls, Run.reachable ls -> attendance_refers ls.
Proof.
  induction 1 as [|o op ls W _ IH].
  - intros a [].
  - now apply exec_attendance_refers.
Qed.

(** X2. In every store the application reaches, a user holds at most one
    registration for an event. *)
Theorem reachable_registration_unique :
  forall ls, Run.reachable ls ->
    forall eventId userId, registrations_of eventId userId ls <= 1.
Proof.
  induction 1 as [|o op ls W _ IH]; intros eventId userId.
  - cbn. lia.
  - now apply exec_registrations_of.
Qed.

(** In every store the application reaches, the payload of a
    registration starts with "SWIFTATTEND_" and its backup code is made
    of eight upper-case letters or digits. *)
Lemma reachable_well_coded ls :
  Run.reachable ls -> forall r, In r (getRegistrations ls) -> well_coded r.
Proof.
  induction 1 as [|o op ls W _ IH]; intros r0 H0.
  - destruct H0.
  - destruct (exec_registrations_attendances o op ls)
      as [[Er _] | [[e [u [n [m [r [R [_ [_ [_ [Er _]]]]]]]]]]
                   | [[rid [Er _]] | [[r [a' [_ [_ [_ [_ [_ [Er _]]]]]]]] | [Er _]]]]];
      rewrite Er in H0.
    + now apply IH.
    + apply in_app_or in H0. destruct H0 as [H0 | [<- | []]]; [now apply IH|].
      destruct (registerForEvent_backup_code o e u n m ls r W R) as [L [P Q]].
      repeat split; assumption.
    + apply filter_In in H0. now apply IH.
    + now apply IH.
    + destruct H0.
Qed.

Lemma NoDup_map_of_count {A : Type} (f : A -> string) (l : list A) :
  (forall x, count (fun a => String.eqb (f a) x) l <= 1) -> NoDup (map f l).
Proof.
  induction l as [|a l IH]; cbn [map]; intros H; constructor.
  - intros Hin. apply in_map_iff in Hin. destruct Hin as [b [Hb Hin]].
    specialize (H (f a)). cbn [count] in H. rewrite String.eqb_refl in H.
    assert (1 <= count (fun a0 => String.eqb (f a0) (f a)) l).
    { apply count_pos_of_In with (x := b); [exact Hin|].
      now apply String.eqb_eq. }
    lia.
  - apply IH. intros x. specialize (H x). cbn [count] in H. lia.
Qed.

Lemma NoDup_map_filter {A B : Type} (key : A -> B) (p : A -> bool) :
  forall l, NoDup (map key l) -> NoDup (map key (filter p l)).
Proof.
  intros l. induction l as [|a l IH]; cbn [map filter]; intros H; [constructor|].
  inversion H as [|? ? Hn Hd]; subst.
  destruct (p a); cbn [map]; [|now apply IH].
  constructor; [|now apply IH].
  intros Hin. apply Hn. apply in_map_iff in Hin. destruct Hin as [b [Hb Hin]].
  apply in_map_iff. exists b. split; [exact Hb|]. apply filter_In in Hin. tauto.
Qed.

(** In every store the application reaches, an event has no more
    attendance records than registrations. *)
Lemma reachable_attendances_le_registrations ls eventId :
  Run.reachable ls ->
  List.length (getEventAttendances eventId ls)
    <= List.length (getEventRegistrations eventId ls).
Proof.
  intros R.
  assert (AR : attendance_refers ls).
  { clear - R. induction R as [|o op ls W _ IH]; [intros a []|].
    now apply exec_attendance_refers. }
  unfold getEventAttendances, getEventRegistrations.
  rewrite <- (length_map registration_id), <- (length_map reg_id).
  apply NoDup_incl_length.
  - apply NoDup_map_filter, NoDup_map_of_count.
    intros x. exact (reachable_attendances_unique ls R x).
  - intros x Hx. apply in_map_iff in Hx. destruct Hx as [a [<- Ha]].
    apply filter_In in Ha. destruct Ha as [Ha He]. apply String.eqb_eq in He.
    destruct (AR a Ha) as [r [Hr [Hid [Hev _]]]].
    apply in_map_iff. exists r. split; [exact Hid|].
    apply filter_In. split; [exact Hr|]. apply String.eqb_eq. congruence.
Qed.

(** X3. In every store the application reaches, [getEventStats] reports
    no more attendances than registrations, and a rate between 0 and
    100. *)
Theorem reachable_attendance_rate_bounded :
  forall ls eventId,
    Run.reachable ls ->
    let stats := getEventStats eventId ls in
    totalAttendances stats <= totalRegistrations stats
    /\ exists q, attendanceRate stats = Num q /\ (0 <= q)%Q /\ (q <= 100)%Q.
Proof.
  intros ls eventId R stats. subst stats.
  pose proof (reachable_attendances_le_registrations ls eventId R) as L.
  unfold getEventStats. cbn [totalAttendances totalRegistrations attendanceRate].
  split; [exact L|].
  set (a := List.length (getEventAttendances eventId ls)) in *.
  set (r := List.length (getEventRegistrations eventId ls)) in *.
  destruct (Nat.ltb_spec 0 r) as [Hr|Hr].
  - unfold of_nat, div.
    assert (Z : Qeq_bool (inject_Z (Z.of_nat r)) 0 = false).
    { unfold Qeq_bool, inject_Z. cbn [Qnum Qden]. apply Z.eqb_neq. lia. }
    rewrite Z.
    destruct (round64_bounded
                (inject_Z (Z.of_nat a) / inject_Z (Z.of_nat r))%Q 1)
      as [q1 [E1 [L1 U1]]]; [| |lia|].
    + apply Qle_shift_div_l; [apply inject_Z_pos; lia|].
      rewrite Qmult_0_l, <- (Zle_Qle 0). lia.
    + apply Qle_shift_div_r; [apply inject_Z_pos; lia|].
      rewrite Qmult_1_l, <- Zle_Qle. lia.
    + rewrite E1. cbn [mul].
      destruct (round64_bounded (q1 * 100)%Q 100) as [q2 [E2 [L2 U2]]]; [| |lia|].
      * apply Qmult_le_0_compat; [exact L1|discriminate].
      * rewrite <- (Qmult_1_l (inject_Z 100)).
        apply Qmult_le_compat_r; [exact U1|discriminate].
      * exists q2. split; [exact E2|]. split; [exact L2|exact U2].
  - exists 0%Q. split; [reflexivity|]. split; unfold Qle; cbn; lia.
Qed.

End StoreInvariants.

(* ================================================================== *)
(** * Registering, looking up, deleting *)
(* ================================================================== *)

Section RegisterLookupDelete.

Import Storage Invariants.

Lemma find_app_last {A : Type} (p : A -> bool) (l : list A) (x : A) :
  p x = true -> exists y, find p (l ++ [x]) = Some y /\ p y = true.
Proof.
  intros P. destruct (find p l) as [y|] eqn:F.
  - exists y. split; [now apply find_app_Some|]. now apply find_some in F.
  - exists x. rewrite (find_app_None p l x F), P. auto.
Qed.

Lemma filter_app_last {A : Type} (p : A -> bool) (l : list A) (x : A) :
  filter p (l ++ [x]) = (filter p l ++ (if p x then [x] else []))%list.
Proof. rewrite filter_app. reflexivity. Qed.

(** X4. A registration that [registerForEvent] returns can be found
    again: [checkRegistrationStatus] gives it back for its event and
    user; its QR payload and its backup code, in any letter case, find a
    registration with that payload or code, which is the new one when
    the payload or code was not in the store before; and it is the last
    of the registrations of its event, those of other events being as
    they were. *)
Theorem register_then_lookup :
  forall o eventId userId userName userEmail ls r,
    fst (registerForEvent o eventId userId userName userEmail ls) = Ok r ->
    let ls' := snd (registerForEvent o eventId userId userName userEmail ls) in
    checkRegistrationStatus eventId userId ls' = Some r
    /\ (exists r', findRegistrationByQR (qr_code_data r) ls' = Some r'
                   /\ qr_code_data r' = qr_code_data r)
    /\ (findRegistrationByQR (qr_code_data r) ls = None ->
        findRegistrationByQR (qr_code_data r) ls' = Some r)
    /\ (forall code, toUpperCase code = backup_code r ->
          (exists r', findRegistrationByBackupCode code ls' = Some r'
                      /\ backup_code r' = backup_code r)
          /\ (findRegistrationByBackupCode code ls = None ->
              findRegistrationByBackupCode code ls' = Some r))
    /\ getEventRegistrations eventId ls'
       = (getEventRegistrations eventId ls ++ [r])%list
    /\ (forall other, other <> eventId ->
          getEventRegistrations other ls' = getEventRegistrations other ls).
Proof.
  intros o eventId userId userName userEmail ls r H ls'.
  destruct (checkRegistrationStatus eventId userId ls) eqn:S.
  { rewrite registerForEvent_conflict in H by congruence. discriminate. }
  destruct (registerForEvent_fresh o eventId userId userName userEmail ls S)
    as [r0 [E [He Hu]]].
  subst ls'. rewrite E in H |- *. cbn [fst snd] in *. injection H as ->.
  unfold checkRegistrationStatus, findRegistrationByQR,
    findRegistrationByBackupCode, getEventRegistrations, getRegistrations in *.
  cbn [set_registrations swiftattend_registrations].
  split.
  { rewrite (find_app_None _ _ _ S), He, Hu, !String.eqb_refl. reflexivity. }
  split.
  { destruct (find_app_last
                (fun reg => String.eqb (qr_code_data reg) (qr_code_data r))
                (swiftattend_registrations ls) r (String.eqb_refl _))
      as [y [F P]].
    exists y. split; [exact F|]. now apply String.eqb_eq. }
  split.
  { intros N. rewrite (find_app_None _ _ _ N), String.eqb_refl. reflexivity. }
  split.
  { intros code U. split.
    - destruct (find_app_last
                  (fun reg => String.eqb (backup_code reg) (toUpperCase code))
                  (swiftattend_registrations ls) r) as [y [F P]].
      + rewrite U. apply String.eqb_refl.
      + exists y. split; [exact F|]. apply String.eqb_eq in P. congruence.
    - intros N. rewrite (find_app_None _ _ _ N), U, String.eqb_refl. reflexivity. }
  split.
  { rewrite filter_app_last, He, String.eqb_refl. reflexivity. }
  intros other N. rewrite filter_app_last, He.
  apply String.eqb_neq in N. rewrite String.eqb_sym, N. apply app_nil_r.
Qed.

(** X13. Deleting an id that no registration has returns [false] and
    changes nothing; so does deleting the same id a second time. *)
Theorem deleteRegistration_absent_or_twice :
  forall registrationId ls,
    ((forall r, In r (getRegistrations ls) -> reg_id r <> registrationId) ->
     deleteRegistration registrationId ls = (false, ls))
    /\ deleteRegistration registrationId (snd (deleteRegistration registrationId ls))
       = (false, snd (deleteRegistration registrationId ls)).
Proof.
  intros registrationId ls. split; [apply deleteRegistration_absent|].
  apply deleteRegistration_absent. intros r Hr.
  unfold deleteRegistration in Hr.
  destruct (_ =? _)%nat eqn:E; cbn [snd] in Hr.
  - apply Nat.eqb_eq, filter_length_eq in E.
    unfold getRegistrations in *. rewrite <- E in Hr.
    apply filter_In in Hr. destruct Hr as [_ Hr]. intros Ei.
    rewrite Ei, String.eqb_refl in Hr. discriminate.
  - unfold getRegistrations in Hr.
    cbn [set_attendances set_registrations swiftattend_registrations] in Hr.
    apply filter_In in Hr. destruct Hr as [_ Hr]. intros Ei.
    rewrite Ei, String.eqb_refl in Hr. discriminate.
Qed.

Lemma count_two_of_In {A : Type} (p : A -> bool) (l : list A) (x y : A) :
  In x l -> In y l -> x <> y -> p x = true -> p y = true -> 2 <= count p l.
Proof.
  induction l as [|z l IH]; cbn [In count]; [contradiction|].
  intros [-> | Hx] [-> | Hy] N Px Py.
  - contradiction.
  - rewrite Px. pose proof (count_pos_of_In p l y Hy Py). lia.
  - rewrite Py. pose proof (count_pos_of_In p l x Hx Px). lia.
  - specialize (IH Hx Hy N Px Py). lia.
Qed.

(** X14. In every store the application reaches, once the registration
    of a user for an event is deleted the user holds none for that event
    and can register for it again. *)
Theorem delete_then_register_again :
  forall ls r,
    Run.reachable ls ->
    In r (getRegistrations ls) ->
    let ls1 := snd (deleteRegistration (reg_id r) ls) in
    fst (deleteRegistration (reg_id r) ls) = true
    /\ checkRegistrationStatus (reg_event_id r) (user_id r) ls1 = None
    /\ forall o userName userEmail,
         exists r2,
           fst (registerForEvent o (reg_event_id r) (user_id r) userName userEmail ls1)
             = Ok r2
           /\ checkRegistrationStatus (reg_event_id r) (user_id r)
                (snd (registerForEvent o (reg_event_id r) (user_id r)
                        userName userEmail ls1))
              = Some r2.
Proof.
  intros ls r R Hin ls1. subst ls1.
  rewrite (deleteRegistration_found (reg_id r) ls) by (exists r; auto).
  cbn [fst snd].
  assert (N : checkRegistrationStatus (reg_event_id r) (user_id r)
                (set_attendances
                   (filter (fun att => negb (String.eqb (registration_id att) (reg_id r)))
                           (getAttendances ls))
                   (set_registrations
                      (filter (fun reg => negb (String.eqb (reg_id reg) (reg_id r)))
                              (getRegistrations ls)) ls)) = None).
  { unfold checkRegistrationStatus, getRegistrations.
    cbn [set_attendances set_registrations swiftattend_registrations].
    apply find_None_forall. intros r' Hr'. apply filter_In in Hr'.
    destruct Hr' as [Hr' Hne].
    destruct (String.eqb (reg_event_id r') (reg_event_id r)
              && String.eqb (user_id r') (user_id r)) eqn:B; [|reflexivity].
    exfalso.
    assert (D : r' <> r).
    { intros ->. rewrite String.eqb_refl in Hne. discriminate. }
    pose proof (count_two_of_In
                  (fun reg => String.eqb (reg_event_id reg) (reg_event_id r)
                              && String.eqb (user_id reg) (user_id r))
                  (swiftattend_registrations ls) r' r Hr' Hin D B) as T.
    cbn beta in T. rewrite !String.eqb_refl in T. specialize (T eq_refl).
    assert (U : registrations_of (reg_event_id r) (user_id r) ls <= 1).
    { clear - R. induction R as [|o op ls W _ IH]; [cbn; lia|].
      now apply exec_registrations_of. }
    unfold registrations_of, getRegistrations in U. lia. }
  split; [reflexivity|]. split; [exact N|].
  intros o userName userEmail.
  destruct (registerForEvent_fresh o (reg_event_id r) (user_id r) userName userEmail
              _ N) as [r2 [E [He Hu]]].
  exists r2. rewrite E. cbn [fst snd]. split; [reflexivity|].
  unfold checkRegistrationStatus in *. unfold getRegistrations at 1.
  cbn [set_registrations swiftattend_registrations].
  rewrite (find_app_None _ _ _ N), He, Hu, !String.eqb_refl. reflexivity.
Qed.

End RegisterLookupDelete.

(* ================================================================== *)
(** * Creating events *)
(* ================================================================== *)

Section Events.

Import Storage.

(** X12. [createEvent] puts the new event last and leaves the rest of
    the store alone: every event found by id before is found, the same,
    afterwards; the id of the new event finds an event with that id,
    which is the new event when the id was not in the store. *)
Theorem createEvent_then_getEventById :
  forall o eventData ls,
    let e := fst (createEvent o eventData ls) in
    let ls' := snd (createEvent o eventData ls) in
    getEvents ls' = (getEvents ls ++ [e])%list
    /\ (forall eventId e0,
          getEventById eventId ls = Some e0 -> getEventById eventId ls' = Some e0)
    /\ (exists e', getEventById (id e) ls' = Some e' /\ id e' = id e)
    /\ (getEventById (id e) ls = None -> getEventById (id e) ls' = Some e)
    /\ (forall eventId,
          eventId <> id e -> getEventById eventId ls' = getEventById eventId ls)
    /\ getRegistrations ls' = getRegistrations ls
    /\ getAttendances ls' = getAttendances ls
    /\ getSupportMessages ls' = getSupportMessages ls.
Proof.
  intros o eventData ls e ls'. subst e ls'.
  unfold createEvent, getEventById, getEvents. cbn [fst snd].
  cbn [set_events swiftattend_events].
  set (e := {| id := generateId o 0 0;
               name := d_name eventData;
               description := d_description eventData;
               event_date := d_event_date eventData;
               start_time := d_start_time eventData;
               end_time := d_end_time eventData;
               location := d_location eventData;
               max_capacity := d_max_capacity eventData;
               poster_url := d_poster_url eventData;
               created_by := d_created_by eventData;
               created_at := Date_now o 1 |}).
  split; [reflexivity|]. split.
  { intros eventId e0 F. now apply find_app_Some. }
  split.
  { destruct (find_app_last (fun event => String.eqb (id event) (id e))
                (swiftattend_events ls) e (String.eqb_refl _)) as [y [F P]].
    exists y. split; [exact F|]. now apply String.eqb_eq. }
  split.
  { intros N. rewrite (find_app_None _ _ _ N), String.eqb_refl. reflexivity. }
  split.
  { intros eventId N.
    destruct (find (fun event => String.eqb (id event) eventId)
                   (swiftattend_events ls)) as [y|] eqn:F.
    - now apply find_app_Some.
    - rewrite (find_app_None _ _ _ F).
      apply not_eq_sym, String.eqb_neq in N. now rewrite N. }
  repeat split.
Qed.

End Events.

(* ================================================================== *)
(** * Successful check-in *)
(* ================================================================== *)

Section SuccessfulCheckIn.

Import Storage Scanner Invariants.

Lemma prefix_length p s : String.prefix p s = true -> String.length p <= String.length s.
Proof.
  revert s. induction p as [|c p IH]; intros s H; cbn [String.length]; [lia|].
  destruct s as [|d s]; cbn [String.prefix] in H; [discriminate|].
  destruct (ascii_dec c d); [|discriminate].
  specialize (IH s H). cbn [String.length]. lia.
Qed.

Lemma trimStart_length s : String.length (trimStart s) <= String.length s.
Proof.
  induction s as [|c s IH]; cbn [trimStart String.length]; [lia|].
  destruct (is_space c); cbn [String.length]; lia.
Qed.

Lemma trimEnd_length s : String.length (trimEnd s) <= String.length s.
Proof.
  induction s as [|c s IH]; cbn [trimEnd String.length]; [lia|].
  destruct (is_space c && String.eqb (trimEnd s) ""); cbn [String.length]; lia.
Qed.

Lemma trim_length s : String.length (trim s) <= String.length s.
Proof.
  unfold trim. pose proof (trimEnd_length (trimStart s)).
  pose proof (trimStart_length s). lia.
Qed.

Lemma well_coded_payload_length r : well_coded r -> 12 <= String.length (qr_code_data r).
Proof.
  intros [P _]. apply prefix_length in P. exact P.
Qed.

(** In a reachable store an input that is a backup code is no QR
    payload. *)
Lemma backup_code_is_no_payload ls code r :
  Run.reachable ls ->
  findRegistrationByBackupCode code ls = Some r ->
  findRegistrationByQR code ls = None /\ String.length code = 8.
Proof.
  intros R F. unfold findRegistrationByBackupCode in F.
  apply find_some in F. destruct F as [Hin E]. apply String.eqb_eq in E.
  destruct (reachable_well_coded ls R r Hin) as [_ [L _]].
  assert (L8 : String.length code = 8).
  { rewrite <- (toUpperCase_length code), <- E. exact L. }
  split; [|exact L8].
  unfold findRegistrationByQR.
  destruct (find _ (getRegistrations ls)) as [r0|] eqn:F0; [|reflexivity].
  apply find_some in F0. destruct F0 as [Hin0 E0]. apply String.eqb_eq in E0.
  pose proof (well_coded_payload_length r0 (reachable_well_coded ls R r0 Hin0)).
  rewrite E0 in H. lia.
Qed.

(** X5. In every store the application reaches, with an event selected,
    typing the backup code of a registration for that event, in any
    letter case and with blanks around it, checks in the first
    registration that holds the code when it is not checked in yet: the
    success message names the attendee, the input is cleared, and one
    attendance record is added, for that registration and by the acting
    user; the method recorded is [backup_code] unless the input with its
    blanks is longer than ten characters. *)
Theorem scan_backup_code_checks_in :
  forall o user st ls r,
    Run.reachable ls ->
    selectedEventId st <> "" ->
    findRegistrationByBackupCode (trim (scanInput st)) ls = Some r ->
    reg_event_id r = selectedEventId st ->
    isAttendeeCheckedIn (reg_id r) ls = false ->
    exists a,
      snd (handleScan o user st ls)
        = set_attendances (getAttendances ls ++ [a])%list ls
      /\ message (fst (handleScan o user st ls))
         = Some {| type := success;
                   text := "✅ " ++ user_name r ++ " checked in successfully!" |}
      /\ scanInput (fst (handleScan o user st ls)) = ""
      /\ registration_id a = reg_id r
      /\ staff_id a = Auth.id user
      /\ check_in_method a
         = (if (10 <? String.length (scanInput st))%nat
            then qr_scan else backup_code_method)
      /\ isAttendeeCheckedIn (reg_id r) (snd (handleScan o user st ls)) = true.
Proof.
  intros o user st ls r R S F E C.
  destruct (backup_code_is_no_payload ls _ r R F) as [Q L8].
  assert (G : passes_guard st).
  { split; apply truthy_true; [exact S|]. intros Z. rewrite Z in L8. discriminate. }
  assert (L : lookup (trim (scanInput st)) ls = Some r).
  { unfold lookup. rewrite Q. unfold findRegistrationByBackupCode in *.
    now rewrite toUpperCase_idem. }
  destruct (handleScan_checks_in o user st ls r G L E C) as [a [H [Ha [Hs Hm]]]].
  exists a. rewrite H. cbn [fst snd]. repeat split; auto.
  unfold isAttendeeCheckedIn, getAttendances.
  cbn [set_attendances swiftattend_attendances].
  rewrite existsb_app. cbn [existsb]. rewrite Ha, String.eqb_refl.
  now rewrite orb_true_r.
Qed.

(** X6. In every store the application reaches, with an event selected,
    an input that, trimmed, is the QR payload of a registration for that
    event checks in the first registration with that payload when it is
    not checked in yet, and the method recorded is always [qr_scan]. *)
Theorem scan_payload_checks_in :
  forall o user st ls r,
    Run.reachable ls ->
    selectedEventId st <> "" ->
    findRegistrationByQR (trim (scanInput st)) ls = Some r ->
    reg_event_id r = selectedEventId st ->
    isAttendeeCheckedIn (reg_id r) ls = false ->
    exists a,
      snd (handleScan o user st ls)
        = set_attendances (getAttendances ls ++ [a])%list ls
      /\ message (fst (handleScan o user st ls))
         = Some {| type := success;
                   text := "✅ " ++ user_name r ++ " checked in successfully!" |}
      /\ registration_id a = reg_id r
      /\ staff_id a = Auth.id user
      /\ check_in_method a = qr_scan.
Proof.
  intros o user st ls r R S F E C.
  assert (L : lookup (trim (scanInput st)) ls = Some r).
  { unfold lookup. now rewrite F. }
  pose proof (lookup_passes_guard st ls r R S L) as G.
  destruct (handleScan_checks_in o user st ls r G L E C) as [a [H [Ha [Hs Hm]]]].
  exists a. rewrite H. cbn [fst snd]. repeat split; auto.
  rewrite Hm.
  unfold findRegistrationByQR in F. apply find_some in F.
  destruct F as [Hin Eq]. apply String.eqb_eq in Eq.
  pose proof (well_coded_payload_length r (reachable_well_coded ls R r Hin)) as P.
  pose proof (trim_length (scanInput st)) as T. rewrite Eq in P.
  destruct (Nat.ltb_spec 10 (String.length (scanInput st))); [reflexivity|lia].
Qed.

End SuccessfulCheckIn.

(* ================================================================== *)
(** * Support messages *)
(* ================================================================== *)

Section SupportMessages.

Import Storage Invariants.

Lemma update_first_absent {A : Type} (p : A -> bool) (f : A -> A) (l : list A) :
  (forall x, In x l -> p x = false) -> update_first p f l = None.
Proof.
  induction l as [|y l IH]; cbn [update_first]; intros H; [reflexivity|].
  rewrite (H y (or_introl eq_refl)), IH; [reflexivity|].
  intros x Hx. apply H. now right.
Qed.

Lemma update_first_found {A : Type} (p : A -> bool) (f : A -> A)
    (before after : list A) (m : A) :
  (forall x, In x before -> p x = false) -> p m = true ->
  update_first p f (before ++ m :: after) = Some (before ++ f m :: after)%list.
Proof.
  induction before as [|y l IH]; cbn [update_first app]; intros H P.
  - now rewrite P.
  - rewrite (H y (or_introl eq_refl)), IH; auto.
    intros x Hx. apply H. now right.
Qed.

(** Every list splits at the first element that satisfies [p], if any. *)
Lemma split_at_first {A : Type} (p : A -> bool) (l : list A) :
  (forall x, In x l -> p x = false)
  \/ exists before m after,
       l = (before ++ m :: after)%list
       /\ (forall x, In x before -> p x = false) /\ p m = true.
Proof.
  induction l as [|y l IH].
  - left. intros x [].
  - destruct (p y) eqn:P.
    + right. exists [], y, l. repeat split; auto. intros x [].
    + destruct IH as [H | [before [m [after [-> [H Pm]]]]]].
      * left. intros x [<- | Hx]; auto.
      * right. exists (y :: before), m, after. repeat split; auto.
        intros x [<- | Hx]; auto.
Qed.

(** The message [resolveSupportMessage] writes in place of [msg]. *)
Lemma resolveSupportMessage_found o messageId resolvedBy ls before m after :
  getSupportMessages ls = (before ++ m :: after)%list ->
  (forall x, In x before -> msg_id x <> messageId) ->
  msg_id m = messageId ->
  exists m',
    resolveSupportMessage o messageId resolvedBy ls
      = (true, set_support_messages (before ++ m' :: after)%list ls)
    /\ msg_id m' = msg_id m
    /\ msg_event_id m' = msg_event_id m
    /\ msg_user_id m' = msg_user_id m
    /\ msg_user_name m' = msg_user_name m
    /\ msg_user_email m' = msg_user_email m
    /\ message m' = message m
    /\ msg_created_at m' = msg_created_at m
    /\ status m' = resolved
    /\ resolved_at m' = Some (Date_now o 0)
    /\ resolved_by m' = Some resolvedBy.
Proof.
  intros E H Hm. unfold resolveSupportMessage. rewrite E.
  rewrite update_first_found.
  - eexists. split; [reflexivity|]. repeat split.
  - intros x Hx. apply String.eqb_neq. now apply H.
  - now apply String.eqb_eq.
Qed.

(** X7. [resolveSupportMessage] returns [false] and changes nothing when
    no message has the id.  Otherwise it returns [true] and rewrites the
    first message with the id, and only that one: its status becomes
    resolved, with the resolver and the time of the call, whether or not
    it was resolved before; its id, event, user id, user name, user
    email, text and creation time, the other messages and the rest of
    the store stay as they were. *)
Theorem resolveSupportMessage_effect :
  forall o messageId resolvedBy ls,
    ((forall x, In x (getSupportMessages ls) -> msg_id x <> messageId) ->
     resolveSupportMessage o messageId resolvedBy ls = (false, ls))
    /\ (forall before m after,
          getSupportMessages ls = (before ++ m :: after)%list ->
          (forall x, In x before -> msg_id x <> messageId) ->
          msg_id m = messageId ->
          resolveSupportMessage o messageId resolvedBy ls
          = (true,
             set_support_messages
               (before
                ++ {| msg_id := msg_id m;
                      msg_event_id := msg_event_id m;
                      msg_user_id := msg_user_id m;
                      msg_user_name := msg_user_name m;
                      msg_user_email := msg_user_email m;
                      message := message m;
                      status := resolved;
                      msg_created_at := msg_created_at m;
                      resolved_at := Some (Date_now o 0);
                      resolved_by := Some resolvedBy |}
                   :: after)%list ls)
          /\ getEvents (snd (resolveSupportMessage o messageId resolvedBy ls))
             = getEvents ls
          /\ getRegistrations (snd (resolveSupportMessage o messageId resolvedBy ls))
             = getRegistrations ls
          /\ getAttendances (snd (resolveSupportMessage o messageId resolvedBy ls))
             = getAttendances ls).
Proof.
  intros o messageId resolvedBy ls. split.
  - intros H. unfold resolveSupportMessage.
    rewrite update_first_absent; [reflexivity|].
    intros x Hx. apply String.eqb_neq. now apply H.
  - intros before m after E H Hm.
    assert (R : resolveSupportMessage o messageId resolvedBy ls
                = (true,
                   set_support_messages
                     (before
                      ++ {| msg_id := msg_id m;
                            msg_event_id := msg_event_id m;
                            msg_user_id := msg_user_id m;
                            msg_user_name := msg_user_name m;
                            msg_user_email := msg_user_email m;
                            message := message m;
                            status := resolved;
                            msg_created_at := msg_created_at m;
                            resolved_at := Some (Date_now o 0);
                            resolved_by := Some resolvedBy |}
                         :: after)%list ls)).
    { unfold resolveSupportMessage. rewrite E.
      rewrite update_first_found; [reflexivity| |now apply String.eqb_eq].
      intros x Hx. apply String.eqb_neq. now apply H. }
    rewrite R. repeat split.
Qed.

Lemma statuses_kept_refl l : statuses_kept l l.
Proof. induction l as [|m l IH]; cbn [statuses_kept]; auto. Qed.

Lemma statuses_kept_app l l' : statuses_kept l (l ++ l').
Proof. induction l as [|m l IH]; cbn [statuses_kept app]; auto. Qed.

Lemma statuses_kept_update before m m' after :
  msg_id m' = msg_id m -> status m' = resolved ->
  statuses_kept (before ++ m :: after) (before ++ m' :: after).
Proof.
  intros Hi Hs. induction before as [|x l IH]; cbn [statuses_kept app].
  - repeat split; auto. apply statuses_kept_refl.
  - repeat split; auto.
Qed.

(** X8. No operation other than [clearAllData] removes a support message
    or takes one back from resolved to open: after the operation the
    messages of before are still there, in their places and under their
    ids, and those that were resolved are resolved. *)
Theorem support_statuses_kept :
  forall o op ls,
    op <> Run.ClearAllData ->
    statuses_kept (getSupportMessages ls) (getSupportMessages (Run.exec o op ls)).
Proof.
  intros o op ls N. destruct op; cbn [Run.exec].
  - apply statuses_kept_refl.
  - unfold registerForEvent.
    destruct (find _ (getRegistrations ls)); apply statuses_kept_refl.
  - unfold deleteRegistration.
    destruct (_ =? _)%nat; apply statuses_kept_refl.
  - unfold createSupportMessage, getSupportMessages. cbn [snd].
    cbn [set_support_messages swiftattend_support_messages].
    apply statuses_kept_app.
  - destruct (split_at_first (fun msg => String.eqb (msg_id msg) messageId)
                (getSupportMessages ls)) as [H | [before [m [after [E [H Pm]]]]]].
    + unfold resolveSupportMessage. rewrite update_first_absent by exact H.
      apply statuses_kept_refl.
    + destruct (resolveSupportMessage_found o messageId resolvedBy ls before m after E)
        as [m' [R [Hi [_ [_ [_ [_ [_ [_ [Hs _]]]]]]]]]].
      * intros x Hx. apply String.eqb_neq. now apply H.
      * now apply String.eqb_eq.
      * rewrite R, E. cbn [snd]. unfold getSupportMessages.
        cbn [set_support_messages swiftattend_support_messages].
        now apply statuses_kept_update.
  - destruct (checkInAttendee_store o registrationId method staffId ls)
      as [-> | [a [-> _]]]; apply statuses_kept_refl.
  - destruct (handleScan_store o user st ls) as [-> | [rid [m ->]]].
    + apply statuses_kept_refl.
    + destruct (checkInAttendee_store o rid m (Auth.id user) ls)
        as [-> | [a [-> _]]]; apply statuses_kept_refl.
  - contradiction.
Qed.

Lemma open_count_app l l' :
  List.length (filter Dashboard.is_open (l ++ l'))
  = List.length (filter Dashboard.is_open l) + List.length (filter Dashboard.is_open l').
Proof. now rewrite filter_app, length_app. Qed.

(** X11. The number of open messages that the dashboard shows goes up by
    one with each message created; resolving an id goes down by one when
    the first message with the id is open, and leaves the number as it
    is when that message is resolved already or there is none. *)
Theorem open_message_count_steps :
  forall o ls,
    (forall eventId userId userName userEmail text,
       Dashboard.loadSupportMessageCount
         (snd (createSupportMessage o eventId userId userName userEmail text ls))
       = S (Dashboard.loadSupportMessageCount ls))
    /\ (forall messageId resolvedBy,
          (forall x, In x (getSupportMessages ls) -> msg_id x <> messageId) ->
          Dashboard.loadSupportMessageCount
            (snd (resolveSupportMessage o messageId resolvedBy ls))
          = Dashboard.loadSupportMessageCount ls)
    /\ (forall messageId resolvedBy before m after,
          getSupportMessages ls = (before ++ m :: after)%list ->
          (forall x, In x before -> msg_id x <> messageId) ->
          msg_id m = messageId ->
          Dashboard.loadSupportMessageCount ls
          = Dashboard.loadSupportMessageCount
              (snd (resolveSupportMessage o messageId resolvedBy ls))
            + (if Dashboard.is_open m then 1 else 0)).
Proof.
  intros o ls. unfold Dashboard.loadSupportMessageCount, getAllSupportMessages.
  split; [|split].
  - intros. unfold createSupportMessage, getSupportMessages. cbn [snd].
    cbn [set_support_messages swiftattend_support_messages].
    rewrite open_count_app. cbn. lia.
  - intros messageId resolvedBy H. unfold resolveSupportMessage.
    rewrite update_first_absent; [reflexivity|].
    intros x Hx. apply String.eqb_neq. now apply H.
  - intros messageId resolvedBy before m after E H Hm.
    destruct (resolveSupportMessage_found o messageId resolvedBy ls before m after
                E H Hm) as [m' [R [_ [_ [_ [_ [_ [_ [_ [Hs _]]]]]]]]]].
    rewrite R, E. cbn [snd]. unfold getSupportMessages.
    cbn [set_support_messages swiftattend_support_messages].
    rewrite !open_count_app. cbn [filter].
    assert (C : Dashboard.is_open m' = false)
      by (unfold Dashboard.is_open; now rewrite Hs).
    rewrite C.
    destruct (Dashboard.is_open m); cbn [List.length]; lia.
Qed.

End SupportMessages.

(* ================================================================== *)
(** * The support chat *)
(* ================================================================== *)

Section SupportChatFacts.

Import Storage SupportChat.

Lemma insert_desc_perm {A : Type} (key : A -> Z) (x : A) (rows : list A) :
  Permutation (x :: rows) (insert_desc key x rows).
Proof.
  induction rows as [|y rows IH]; cbn [insert_desc]; [reflexivity|].
  destruct (key y <=? key x)%Z; [reflexivity|].
  rewrite perm_swap. now constructor.
Qed.

Lemma sort_desc_perm {A : Type} (key : A -> Z) (rows : list A) :
  Permutation rows (sort_desc key rows).
Proof.
  induction rows as [|x rows IH]; cbn [sort_desc]; [constructor|].
  rewrite <- insert_desc_perm. now constructor.
Qed.

Lemma insert_desc_sorted {A : Type} (key : A -> Z) (x : A) (rows : list A) :
  Sorted (fun a b => (key b <= key a)%Z) rows ->
  Sorted (fun a b => (key b <= key a)%Z) (insert_desc key x rows).
Proof.
  induction rows as [|y rows IH]; cbn [insert_desc]; intros S.
  - repeat constructor.
  - destruct (Z.leb_spec (key y) (key x)) as [L|L].
    + constructor; [exact S|]. constructor. exact L.
    + inversion S as [|? ? S' Hd]; subst.
      constructor; [now apply IH|].
      destruct rows as [|z rows]; cbn [insert_desc].
      * constructor. lia.
      * destruct (key z <=? key x)%Z; constructor; [lia|].
        now inversion Hd.
Qed.

Lemma sort_desc_sorted {A : Type} (key : A -> Z) (rows : list A) :
  Sorted (fun a b => (key b <= key a)%Z) (sort_desc key rows).
Proof.
  induction rows as [|x rows IH]; cbn [sort_desc].
  - constructor.
  - now apply insert_desc_sorted.
Qed.

Lemma filter_filter {A : Type} (p q : A -> bool) (l : list A) :
  filter q (filter p l) = filter (fun x => p x && q x) l.
Proof.
  induction l as [|x l IH]; cbn [filter]; [reflexivity|].
  destruct (p x); cbn [filter andb]; [|exact IH].
  destruct (q x); now rewrite IH.
Qed.

Lemma filter_all {A : Type} (l : list A) : filter (fun _ => true) l = l.
Proof. induction l as [|x l IH]; cbn [filter]; congruence. Qed.

(** X9. The messages the support chat shows are those of the store that
    the user may see, each as often as it is stored and the newest
    first: an administrator sees the messages of every user, any other
    user only those written under the user's own id, and with an event
    given only the messages of that event. *)
Theorem loaded_messages_visible_newest_first :
  forall user eventId ls,
    let shown := loaded_messages user eventId ls in
    Sorted (fun a b => (msg_created_at b <= msg_created_at a)%Z) shown
    /\ Permutation
         (filter (fun msg =>
                    (Auth.role_eqb (Auth.role user) Auth.admin
                     || String.eqb (msg_user_id msg) (Auth.id user))
                    && match eventId with
                       | Some e => negb (truthy e) || String.eqb (msg_event_id msg) e
                       | None => true
                       end)
                 (getSupportMessages ls))
         shown
    /\ (Auth.role user <> Auth.admin ->
        forall msg, In msg shown -> msg_user_id msg = Auth.id user)
    /\ (forall e, eventId = Some e -> e <> "" ->
        forall msg, In msg shown -> msg_event_id msg = e).
Proof.
  intros user eventId ls shown.
  assert (P : Permutation
                (filter (fun msg =>
                           (Auth.role_eqb (Auth.role user) Auth.admin
                            || String.eqb (msg_user_id msg) (Auth.id user))
                           && match eventId with
                              | Some e =>
                                  negb (truthy e) || String.eqb (msg_event_id msg) e
                              | None => true
                              end)
                        (getSupportMessages ls))
                shown).
  { subst shown. unfold loaded_messages.
    rewrite <- sort_desc_perm.
    assert (E : forall A (l l' : list A), l = l' -> Permutation l l')
      by (intros; subst; reflexivity).
    apply E.
    destruct (Auth.role_eqb (Auth.role user) Auth.admin); cbn [orb];
      destruct eventId as [e|]; try destruct (truthy e); cbn [negb orb];
      rewrite ?filter_filter; try reflexivity;
      try (now rewrite filter_all);
      try (apply filter_ext; intros; now rewrite andb_true_r). }
  split; [subst shown; apply sort_desc_sorted|].
  split; [exact P|]. split.
  - intros N msg Hin. apply (Permutation_in _ (Permutation_sym P)) in Hin.
    apply filter_In in Hin. destruct Hin as [_ Hin].
    apply andb_true_iff in Hin. destruct Hin as [Hin _].
    destruct (Auth.role user); try contradiction; cbn in Hin;
      now apply String.eqb_eq.
  - intros e -> Ne msg Hin. apply (Permutation_in _ (Permutation_sym P)) in Hin.
    apply filter_In in Hin. destruct Hin as [_ Hin].
    apply andb_true_iff in Hin. destruct Hin as [_ Hin].
    apply truthy_true in Ne. rewrite Ne in Hin. cbn in Hin.
    now apply String.eqb_eq.
Qed.

Lemma before_first_app sep t rest :
  every (fun c => negb (Ascii.eqb c sep)) t = true ->
  before_first sep (t ++ String sep rest) = t.
Proof.
  induction t as [|c t IH]; cbn [every append before_first]; intros H.
  - now rewrite Ascii.eqb_refl.
  - apply andb_true_iff in H. destruct H as [Hc Ht].
    apply negb_true_iff in Hc. rewrite Hc. now rewrite IH.
Qed.

(** The issue type is read back from a message text that starts with it
    in brackets. *)
Lemma getIssueTypeFromMessage_bracketed t body :
  t <> "" ->
  every (fun c => negb (Ascii.eqb c "]")) t = true ->
  getIssueTypeFromMessage ("[" ++ t ++ "] " ++ body) = t.
Proof.
  intros N E. cbn [append]. unfold getIssueTypeFromMessage.
  rewrite (before_first_app "]" t (String " " body) E).
  apply truthy_true in N. rewrite N. cbn [andb].
  rewrite append_length. cbn [String.length].
  destruct (Nat.ltb_spec (String.length t) (String.length t + S (S (String.length body))));
    [reflexivity|lia].
Qed.

Lemma drop_app t c rest : drop (S (String.length t)) (t ++ String c rest) = rest.
Proof. induction t as [|d t IH]; cbn [drop String.length append]; auto. Qed.

(** The text is read back, without the white space it starts with, from
    a message that starts with the issue type in brackets. *)
Lemma getMessageContent_bracketed t body :
  t <> "" ->
  every (fun c => negb (Ascii.eqb c "]")) t = true ->
  getMessageContent ("[" ++ t ++ "] " ++ body) = trimStart body.
Proof.
  intros N E. cbn [append]. unfold getMessageContent.
  rewrite (before_first_app "]" t (String " " body) E).
  apply truthy_true in N. rewrite N. cbn [andb].
  rewrite append_length. cbn [String.length].
  destruct (Nat.ltb_spec (String.length t) (String.length t + S (S (String.length body))));
    [|lia].
  rewrite drop_app. reflexivity.
Qed.

(** X10. A message sent from the support chat, whose text is of ASCII
    characters, needs an issue type and a text that is not blank:
    without one of them nothing is stored and the form shows "Please
    fill in all fields".  Otherwise the message is appended to the store
    as an open message of the user, with the user's name and email, for
    the given event or for "general", and is put first in the list
    shown, the form being cleared and closed; from its text
    [getIssueTypeFromMessage] reads the issue type back, and
    [getMessageContent] the text typed without the white space it starts
    with, when the issue type has no closing bracket. *)
Theorem handleSubmitMessage_round_trip :
  forall o user eventId st ls,
    is_ascii (form_message st) = true ->
    ((issueType st = "" \/ trim (form_message st) = "") ->
     handleSubmitMessage o user eventId st ls
     = ({| messages := messages st;
           loading := loading st;
           sending := sending st;
           dialogOpen := dialogOpen st;
           issueType := issueType st;
           form_message := form_message st;
           success := success st;
           error := Some "Please fill in all fields" |}, ls))
    /\ (issueType st <> "" -> trim (form_message st) <> "" ->
        exists m,
          createSupportMessage o (event_or_general eventId) (Auth.id user)
            (Auth.full_name user) (Auth.email user)
            ("[" ++ issueType st ++ "] " ++ form_message st) ls
          = (m, snd (handleSubmitMessage o user eventId st ls))
          /\ getSupportMessages (snd (handleSubmitMessage o user eventId st ls))
             = (getSupportMessages ls ++ [m])%list
          /\ fst (handleSubmitMessage o user eventId st ls)
             = {| messages := m :: messages st;
                  loading := loading st;
                  sending := false;
                  dialogOpen := false;
                  issueType := "";
                  form_message := "";
                  success :=
                    Some "Your message has been sent to admin. You will receive a response soon.";
                  error := None |}
          /\ status m = open
          /\ msg_user_id m = Auth.id user
          /\ msg_user_name m = Auth.full_name user
          /\ msg_user_email m = Auth.email user
          /\ msg_event_id m = event_or_general eventId
          /\ message m = "[" ++ issueType st ++ "] " ++ form_message st
          /\ resolved_at m = None
          /\ resolved_by m = None
          /\ (every (fun c => negb (Ascii.eqb c "]")) (issueType st) = true ->
              getIssueTypeFromMessage (message m) = issueType st
              /\ getMessageContent (message m) = trimStart (form_message st))).
Proof.
  intros o user eventId st ls _. unfold handleSubmitMessage. split.
  - intros H.
    assert (G : negb (truthy (issueType st)) || negb (truthy (trim (form_message st)))
                = true).
    { apply orb_true_iff. destruct H as [H|H]; [left|right];
        apply negb_true_iff, truthy_false; exact H. }
    rewrite G. reflexivity.
  - intros H1 H2. apply truthy_true in H1 as T1. apply truthy_true in H2 as T2.
    rewrite T1, T2. cbn [negb orb]. unfold createSupportMessage.
    cbn [fst snd]. eexists. unfold getSupportMessages at 2.
    cbn [set_support_messages swiftattend_support_messages].
    split; [reflexivity|]. split; [reflexivity|]. split; [reflexivity|].
    cbn [status msg_user_id msg_user_name msg_user_email msg_event_id message
         resolved_at resolved_by].
    do 8 (split; [reflexivity|]).
    intros E. split.
    + now apply getIssueTypeFromMessage_bracketed.
    + now apply getMessageContent_bracketed.
Qed.

End SupportChatFacts.

(* ================================================================== *)
(** * The listing of the index page, by time zone *)
(* ================================================================== *)

Section IndexByZone.

Import Storage IndexPage.

Lemma bool_eq_of_iff (a b : bool) : (a = true <-> b = true) -> a = b.
Proof.
  destruct a, b; intros [H1 H2]; try reflexivity.
  - symmetry. now apply H1.
  - now apply H2.
Qed.

Lemma filter_upcoming_east tza o today :
  (0 <= tza < msPerDay)%Z ->
  forall allEvents k,
    (forall j, k <= j < k + List.length allEvents ->
               local_day tza (Date_now o j) = today) ->
    filter_upcoming tza o k allEvents
    = filter (fun event =>
                match Date_parse (event_date event) with
                | Some eventDate => (today * msPerDay <=? eventDate)%Z
                | None => false
                end) allEvents.
Proof.
  intros T. induction allEvents as [|e l IH]; intros k H;
    cbn [filter_upcoming filter]; [reflexivity|].
  rewrite (IH (S k)) by (intros j Hj; apply H; cbn [List.length]; lia).
  assert (Hk : local_day tza (Date_now o k) = today)
    by (apply H; cbn [List.length]; lia).
  assert (E : is_upcoming tza (Date_now o k) e
              = match Date_parse (event_date e) with
                | Some eventDate => (today * msPerDay <=? eventDate)%Z
                | None => false
                end).
  { destruct (Date_parse (event_date e)) as [t|] eqn:P.
    - destruct (Date_parse_midnight _ _ P) as [d ->].
      apply bool_eq_of_iff.
      rewrite (is_upcoming_east tza (Date_now o k) e d T P), Hk, Z.leb_le.
      unfold msPerDay. split; intros; nia.
    - unfold is_upcoming. now rewrite P. }
  rewrite E. reflexivity.
Qed.

Lemma filter_upcoming_west tza o today :
  (- msPerDay < tza < 0)%Z ->
  forall allEvents k,
    (forall j, k <= j < k + List.length allEvents ->
               local_day tza (Date_now o j) = today) ->
    filter_upcoming tza o k allEvents
    = filter (fun event =>
                match Date_parse (event_date event) with
                | Some eventDate => (today * msPerDay <? eventDate)%Z
                | None => false
                end) allEvents.
Proof.
  intros T. induction allEvents as [|e l IH]; intros k H;
    cbn [filter_upcoming filter]; [reflexivity|].
  rewrite (IH (S k)) by (intros j Hj; apply H; cbn [List.length]; lia).
  assert (Hk : local_day tza (Date_now o k) = today)
    by (apply H; cbn [List.length]; lia).
  assert (E : is_upcoming tza (Date_now o k) e
              = match Date_parse (event_date e) with
                | Some eventDate => (today * msPerDay <? eventDate)%Z
                | None => false
                end).
  { destruct (Date_parse (event_date e)) as [t|] eqn:P.
    - destruct (Date_parse_midnight _ _ P) as [d ->].
      apply bool_eq_of_iff.
      rewrite (is_upcoming_west tza (Date_now o k) e d T P), Hk, Z.ltb_lt.
      unfold msPerDay. split; intros; nia.
    - unfold is_upcoming. now rewrite P. }
  rewrite E. reflexivity.
Qed.

(** X15. When every stored event has a valid date-only string as its
    date and the clock stays on one local day while the index page
    filters the events, the page lists the stored events, in their stored
    order, whose date is, where local time is UTC or ahead of it, that
    day or later, and, where local time is behind UTC, later than that
    day. *)
Theorem upcomingEvents_by_zone :
  forall tza o ls today,
    (forall event, In event (getEvents ls) ->
       exists d, Date_parse (event_date event) = Some (d * msPerDay)%Z) ->
    (forall j, j < List.length (getEvents ls) ->
               local_day tza (Date_now o j) = today) ->
    ((0 <= tza < msPerDay)%Z ->
     upcomingEvents tza o ls
     = filter (fun event =>
                 match Date_parse (event_date event) with
                 | Some eventDate => (today <=? eventDate / msPerDay)%Z
                 | None => false
                 end) (getEvents ls)
     /\ forall event d,
          Date_parse (event_date event) = Some (d * msPerDay)%Z ->
          (In event (upcomingEvents tza o ls)
           <-> In event (getEvents ls) /\ (today <= d)%Z))
    /\ ((- msPerDay < tza < 0)%Z ->
        upcomingEvents tza o ls
        = filter (fun event =>
                    match Date_parse (event_date event) with
                    | Some eventDate => (today <? eventDate / msPerDay)%Z
                    | None => false
                    end) (getEvents ls)
        /\ forall event d,
             Date_parse (event_date event) = Some (d * msPerDay)%Z ->
             (In event (upcomingEvents tza o ls)
              <-> In event (getEvents ls) /\ (today < d)%Z)).
Proof.
  intros tza o ls today V H. unfold upcomingEvents. split; intros T.
  - rewrite (filter_upcoming_east tza o today T (getEvents ls) 0)
      by (intros j Hj; apply H; lia).
    assert (E : filter (fun event =>
                          match Date_parse (event_date event) with
                          | Some eventDate => (today * msPerDay <=? eventDate)%Z
                          | None => false
                          end) (getEvents ls)
                = filter (fun event =>
                            match Date_parse (event_date event) with
                            | Some eventDate => (today <=? eventDate / msPerDay)%Z
                            | None => false
                            end) (getEvents ls)).
    { apply filter_ext_in. intros e He. destruct (V e He) as [d ->].
      rewrite Z.div_mul by (unfold msPerDay; lia).
      apply bool_eq_of_iff. rewrite !Z.leb_le. unfold msPerDay. lia. }
    rewrite E. split; [reflexivity|].
    intros event d P. rewrite filter_In, P, Z.div_mul by (unfold msPerDay; lia).
    now rewrite Z.leb_le.
  - rewrite (filter_upcoming_west tza o today T (getEvents ls) 0)
      by (intros j Hj; apply H; lia).
    assert (E : filter (fun event =>
                          match Date_parse (event_date event) with
                          | Some eventDate => (today * msPerDay <? eventDate)%Z
                          | None => false
                          end) (getEvents ls)
                = filter (fun event =>
                            match Date_parse (event_date event) with
                            | Some eventDate => (today <? eventDate / msPerDay)%Z
                            | None => false
                            end) (getEvents ls)).
    { apply filter_ext_in. intros e He. destruct (V e He) as [d ->].
      rewrite Z.div_mul by (unfold msPerDay; lia).
      apply bool_eq_of_iff. rewrite !Z.ltb_lt. unfold msPerDay. lia. }
    rewrite E. split; [reflexivity|].
    intros event d P. rewrite filter_In, P, Z.div_mul by (unfold msPerDay; lia).
    now rewrite Z.ltb_lt.
Qed.

End IndexByZone.

(* ================================================================== *)
(** * One-click registration *)
(* ================================================================== *)

Section OneClick.

Import Storage EventDetails.

(** X16. The page of an event, loaded from a store that holds the
    event, offers the button that registers exactly to a participant who
    holds no registration for the event in that store.  When the handler
    runs on a page that shows the event, whatever the store has become
    since the page was loaded: if the user holds no registration for the
    event, the handler stores the one [registerForEvent] returns, shows
    it with the success text and no button, and the page loaded again
    shows it; if the user holds one, stored after the page was loaded or
    before, the handler stores nothing and shows "Failed to register for
    event", whatever the storage layer threw, and the registration shown
    and the button stay as they were. *)
Theorem one_click_register :
  forall o user ev st ls,
    event st = Some ev ->
    let after := handleOneClickRegister o user st ls in
    (forall st0 ls0,
       id ev <> "" ->
       getEventById (id ev) ls0 = Some ev ->
       let loaded := fst (load (Some (id ev)) user st0 ls0) in
       event loaded = Some ev
       /\ registration loaded = checkRegistrationStatus (id ev) (Auth.id user) ls0
       /\ (canRegister user loaded = true <->
           Auth.role user = Auth.participant
           /\ checkRegistrationStatus (id ev) (Auth.id user) ls0 = None))
    /\ (checkRegistrationStatus (id ev) (Auth.id user) ls = None ->
        exists r,
          registerForEvent o (id ev) (Auth.id user) (Auth.full_name user)
            (Auth.email user) ls = (Ok r, snd after)
          /\ getRegistrations (snd after) = (getRegistrations ls ++ [r])%list
          /\ reg_event_id r = id ev
          /\ user_id r = Auth.id user
          /\ fst after
             = {| event := Some ev;
                  registration := Some r;
                  loading := loading st;
                  registering := false;
                  error := None;
                  showQR := showQR st;
                  success :=
                    Some ("Successfully registered for " ++ name ev
                          ++ "! Your QR code and backup code are ready.") |}
          /\ canRegister user (fst after) = false
          /\ (id ev <> "" -> getEventById (id ev) ls = Some ev ->
              forall st0,
                registration (fst (load (Some (id ev)) user st0 (snd after)))
                = Some r
                /\ canRegister user (fst (load (Some (id ev)) user st0 (snd after)))
                   = false))
    /\ (checkRegistrationStatus (id ev) (Auth.id user) ls <> None ->
        snd after = ls
        /\ fst after
           = {| event := Some ev;
                registration := registration st;
                loading := loading st;
                registering := false;
                error := Some "Failed to register for event";
                showQR := showQR st;
                success := None |}
        /\ canRegister user (fst after) = canRegister user st).
Proof.
  intros o user ev st ls Ev after. split; [|split].
  - intros st0 ls0 N F loaded. apply truthy_true in N as T.
    assert (Hl : loaded = {| event := Some ev;
                             registration :=
                               checkRegistrationStatus (id ev) (Auth.id user) ls0;
                             loading := false;
                             registering := registering st0;
                             error := error st0;
                             showQR := showQR st0;
                             success := success st0 |}).
    { subst loaded. unfold load. rewrite T, F. reflexivity. }
    rewrite Hl. split; [reflexivity|]. split; [reflexivity|].
    unfold canRegister, isRegistered. cbn [registration].
    destruct (checkRegistrationStatus (id ev) (Auth.id user) ls0);
      destruct (Auth.role user); cbn; split; try discriminate; auto;
      intros [? ?]; discriminate.
  - intros S. subst after. unfold handleOneClickRegister. rewrite Ev.
    destruct (registerForEvent_fresh o (id ev) (Auth.id user) (Auth.full_name user)
                (Auth.email user) ls S) as [r [E [He Hu]]].
    rewrite E. cbn [fst snd]. exists r.
    split; [reflexivity|]. split; [reflexivity|].
    split; [exact He|]. split; [exact Hu|]. split; [reflexivity|].
    split; [reflexivity|].
    intros N F st0. apply truthy_true in N as T.
    assert (S' : checkRegistrationStatus (id ev) (Auth.id user)
                   (set_registrations (getRegistrations ls ++ [r]) ls) = Some r).
    { unfold checkRegistrationStatus in *. unfold getRegistrations at 1.
      cbn [set_registrations swiftattend_registrations].
      rewrite (find_app_None _ _ _ S), He, Hu, !String.eqb_refl. reflexivity. }
    assert (F' : getEventById (id ev)
                   (set_registrations (getRegistrations ls ++ [r]) ls) = Some ev)
      by exact F.
    unfold load. rewrite T, F'. cbn [fst registration].
    unfold canRegister, isRegistered. cbn [registration]. rewrite S'.
    split; reflexivity.
  - intros S. subst after. unfold handleOneClickRegister. rewrite Ev.
    rewrite (registerForEvent_conflict o (id ev) (Auth.id user)
               (Auth.full_name user) (Auth.email user) ls S).
    cbn [fst snd]. split; [reflexivity|]. split; [reflexivity|].
    unfold canRegister, isRegistered. cbn [registration]. reflexivity.
Qed.

End OneClick.

(* ================================================================== *)
(** * The badges of the event card *)
(* ================================================================== *)

Section CardBadges.

Import EventCard.

Lemma local_day_of_midnight_east tza d :
  (0 <= tza < msPerDay)%Z -> local_day tza (d * msPerDay) = d.
Proof.
  intros T. unfold local_day, msPerDay in *.
  symmetry. apply (Z.div_unique _ _ _ tza); lia.
Qed.

Lemma local_day_of_midnight_west tza d :
  (- msPerDay < tza < 0)%Z -> local_day tza (d * msPerDay) = (d - 1)%Z.
Proof.
  intros T. unfold local_day, msPerDay in *.
  symmetry. apply (Z.div_unique _ _ _ (tza + 86400000)); lia.
Qed.

(** X17. The card of an event with a valid date shows the badge "Today"
    on the local day of the event's date where local time is UTC or
    ahead of it, and on the day before the event's date where local time
    is behind UTC.  It shows "Past", and hides the button that
    registers, from the first millisecond after midnight UTC of the
    event's date on. *)
Theorem card_badges_by_zone :
  forall tza now event d,
    Date_parse (event_date event) = Some (d * msPerDay)%Z ->
    ((0 <= tza < msPerDay)%Z ->
     (isEventToday tza now event = true <-> local_day tza now = d))
    /\ ((- msPerDay < tza < 0)%Z ->
        (isEventToday tza now event = true <-> local_day tza now = (d - 1)%Z))
    /\ (isEventPast now event = true <-> (d * msPerDay < now)%Z)
    /\ (forall user_role,
          showsRegister user_role now event = true <->
          user_role = Auth.participant /\ (now <= d * msPerDay)%Z).
Proof.
  intros tza now event d P. unfold isEventToday, showsRegister, isEventPast.
  rewrite P. split; [|split; [|split]].
  - intros T. rewrite (local_day_of_midnight_east tza d T), Z.eqb_eq.
    split; auto.
  - intros T. rewrite (local_day_of_midnight_west tza d T), Z.eqb_eq.
    split; auto.
  - apply Z.ltb_lt.
  - intros user_role. rewrite andb_true_iff, negb_true_iff, Z.ltb_ge.
    destruct user_role; cbn [Auth.role_eqb]; split; intros [R L];
      try discriminate; auto.
Qed.

End CardBadges.

(* ================================================================== *)
(** * The further properties on the sample runs *)
(* ================================================================== *)

Section TourRuns.

Import Storage Scanner Invariants Examples Tour.

Ltac run_step := apply Run.reach_exec; [apply oracle_at_well_drawn|].

Lemma with_second_registration_reachable :
  Run.reachable with_second_registration.
Proof.
  unfold with_second_registration, with_attendance. do 2 run_step.
  exact with_registration_reachable.
Qed.

Lemma with_attendance_reachable : Run.reachable with_attendance.
Proof. unfold with_attendance. run_step. exact with_registration_reachable. Qed.

Lemma reachable_attendance_refers_witness :
  attendance_refers with_second_registration.
Proof.
  exact (reachable_attendance_refers _ with_second_registration_reachable).
Defined.

Lemma reachable_registration_unique_witness :
  registrations_of the_event_id "user_asha" with_second_registration <= 1.
Proof.
  exact (reachable_registration_unique _ with_second_registration_reachable
           the_event_id "user_asha").
Defined.

Lemma reachable_attendance_rate_bounded_witness :
  totalAttendances (getEventStats the_event_id with_second_registration)
    <= totalRegistrations (getEventStats the_event_id with_second_registration)
  /\ exists q,
       attendanceRate (getEventStats the_event_id with_second_registration) = Num q
       /\ (0 <= q)%Q /\ (q <= 100)%Q.
Proof.
  exact (reachable_attendance_rate_bounded _ the_event_id
           with_second_registration_reachable).
Defined.

Lemma register_then_lookup_witness :
  checkRegistrationStatus the_event_id "user_ravi" with_second_registration
    = Some the_second_registration
  /\ findRegistrationByQR (qr_code_data the_second_registration)
       with_second_registration
     = Some the_second_registration.
Proof.
  assert (H : fst (registerForEvent o4 the_event_id "user_ravi" "Ravi Shetty"
                     "ravi@nmamit.in" with_attendance)
              = Ok the_second_registration) by (vm_compute; reflexivity).
  destruct (register_then_lookup o4 the_event_id "user_ravi" "Ravi Shetty"
              "ravi@nmamit.in" with_attendance the_second_registration H)
    as [S [_ [Q _]]].
  split; [exact S|]. apply Q. vm_compute. reflexivity.
Defined.

Lemma scan_backup_code_checks_in_witness :
  exists a,
    snd (handleScan o3 staff_user (scanner the_event_id " mt07elsz ")
           with_registration)
      = set_attendances (getAttendances with_registration ++ [a])%list
          with_registration
    /\ registration_id a = reg_id the_registration
    /\ check_in_method a = backup_code_method.
Proof.
  destruct (scan_backup_code_checks_in o3 staff_user
              (scanner the_event_id " mt07elsz ") with_registration the_registration
              with_registration_reachable)
    as [a [S [_ [_ [R [_ [M _]]]]]]].
  - vm_compute. discriminate.
  - vm_compute. reflexivity.
  - vm_compute. reflexivity.
  - vm_compute. reflexivity.
  - exists a. split; [exact S|]. split; [exact R|]. exact M.
Defined.

Lemma scan_payload_checks_in_witness :
  exists a,
    snd (handleScan o3 staff_user
           (scanner the_event_id (qr_code_data the_registration)) with_registration)
      = set_attendances (getAttendances with_registration ++ [a])%list
          with_registration
    /\ registration_id a = reg_id the_registration
    /\ check_in_method a = qr_scan.
Proof.
  destruct (scan_payload_checks_in o3 staff_user
              (scanner the_event_id (qr_code_data the_registration))
              with_registration the_registration with_registration_reachable)
    as [a [S [_ [R [_ M]]]]].
  - vm_compute. discriminate.
  - vm_compute. reflexivity.
  - vm_compute. reflexivity.
  - vm_compute. reflexivity.
  - exists a. split; [exact S|]. split; [exact R|]. exact M.
Defined.

Lemma resolveSupportMessage_effect_witness :
  resolveSupportMessage o7 (msg_id first_message) "user_admin" with_two_messages
  = (true,
     set_support_messages
       [ {| msg_id := msg_id first_message;
            msg_event_id := msg_event_id first_message;
            msg_user_id := msg_user_id first_message;
            msg_user_name := msg_user_name first_message;
            msg_user_email := msg_user_email first_message;
            Storage.message := Storage.message first_message;
            status := resolved;
            msg_created_at := msg_created_at first_message;
            resolved_at := Some (Date_now o7 0);
            resolved_by := Some "user_admin" |};
         second_message ] with_two_messages).
Proof.
  destruct (resolveSupportMessage_effect o7 (msg_id first_message) "user_admin"
              with_two_messages) as [_ H].
  destruct (H [] first_message [second_message]) as [R _].
  - vm_compute. reflexivity.
  - intros x [].
  - reflexivity.
  - exact R.
Defined.

Lemma support_statuses_kept_witness :
  statuses_kept (getSupportMessages with_two_messages)
                (getSupportMessages with_resolved).
Proof.
  apply (support_statuses_kept o7
           (Run.ResolveSupportMessage (msg_id first_message) "user_admin")
           with_two_messages).
  discriminate.
Defined.

Lemma loaded_messages_visible_newest_first_witness :
  Forall (fun msg => msg_user_id msg = "user_asha")
         (SupportChat.loaded_messages asha None with_two_messages)
  /\ Forall (fun msg => msg_event_id msg = "general")
            (SupportChat.loaded_messages staff_user (Some "general")
               with_two_messages).
Proof.
  split; apply Forall_forall.
  - destruct (loaded_messages_visible_newest_first asha None with_two_messages)
      as [_ [_ [H _]]].
    apply H. discriminate.
  - destruct (loaded_messages_visible_newest_first staff_user (Some "general")
                with_two_messages) as [_ [_ [_ H]]].
    apply (H "general" eq_refl). discriminate.
Defined.

Lemma handleSubmitMessage_round_trip_witness :
  is_ascii (SupportChat.form_message chat) = true
  /\ exists m,
       getSupportMessages
         (snd (SupportChat.handleSubmitMessage o5 asha (Some the_event_id) chat
                 with_second_registration))
         = (getSupportMessages with_second_registration ++ [m])%list
       /\ msg_event_id m = the_event_id
       /\ msg_user_name m = Auth.full_name asha
       /\ SupportChat.getIssueTypeFromMessage (Storage.message m)
          = "Registration Problem"
       /\ SupportChat.getMessageContent (Storage.message m) = "I cannot see my code".
Proof.
  assert (A : is_ascii (SupportChat.form_message chat) = true)
    by (vm_compute; reflexivity).
  split; [exact A|].
  destruct (handleSubmitMessage_round_trip o5 asha (Some the_event_id) chat
              with_second_registration A) as [_ H].
  destruct H as [m [_ [S [_ [_ [_ [N [_ [E [_ [_ [_ T]]]]]]]]]]]].
  - vm_compute. discriminate.
  - vm_compute. discriminate.
  - exists m. split; [exact S|]. split; [exact E|]. split; [exact N|].
    apply T. vm_compute. reflexivity.
Defined.

Lemma open_message_count_steps_witness :
  Dashboard.loadSupportMessageCount with_two_messages = 2
  /\ Dashboard.loadSupportMessageCount with_resolved = 1.
Proof.
  destruct (open_message_count_steps o7 with_two_messages) as [_ [_ H]].
  specialize (H (msg_id first_message) "user_admin" [] first_message
                [second_message]).
  assert (C : Dashboard.loadSupportMessageCount with_two_messages = 2)
    by (vm_compute; reflexivity).
  split; [exact C|].
  rewrite C in H.
  assert (O : Dashboard.is_open first_message = true) by (vm_compute; reflexivity).
  rewrite O in H.
  change (snd (resolveSupportMessage o7 (msg_id first_message) "user_admin"
                 with_two_messages)) with with_resolved in H.
  assert (E : 2 = Dashboard.loadSupportMessageCount with_resolved + 1).
  { apply H; [vm_compute; reflexivity | intros x [] | reflexivity]. }
  lia.
Defined.

Lemma createEvent_then_getEventById_witness :
  getEventById the_event_id with_event
    = Some (fst (createEvent o1 (event_on "2024-06-20" "Orientation") Storage.empty)).
Proof.
  destruct (createEvent_then_getEventById o1 (event_on "2024-06-20" "Orientation")
              Storage.empty) as [_ [_ [_ [H _]]]].
  apply H. vm_compute. reflexivity.
Defined.

Lemma deleteRegistration_absent_or_twice_witness :
  deleteRegistration "1718470900000_zz" with_second_registration
    = (false, with_second_registration)
  /\ fst (deleteRegistration (reg_id the_registration)
            (snd (deleteRegistration (reg_id the_registration)
                    with_second_registration)))
     = false.
Proof.
  split.
  - destruct (deleteRegistration_absent_or_twice "1718470900000_zz"
                with_second_registration) as [H _].
    apply H. intros r Hr. vm_compute in Hr.
    destruct Hr as [<- | [<- | []]]; vm_compute; discriminate.
  - destruct (deleteRegistration_absent_or_twice (reg_id the_registration)
                with_second_registration) as [_ H].
    now rewrite H.
Defined.

Lemma delete_then_register_again_witness :
  checkRegistrationStatus "1718470800000_3i" "user_asha"
    (snd (deleteRegistration (reg_id the_registration) with_second_registration))
    = None
  /\ exists r2,
       fst (registerForEvent o5 "1718470800000_3i" "user_asha" "Asha Rao"
              "asha@nmamit.in"
              (snd (deleteRegistration (reg_id the_registration)
                      with_second_registration)))
         = Ok r2.
Proof.
  destruct (delete_then_register_again with_second_registration the_registration
              with_second_registration_reachable) as [_ [N H]].
  - left. vm_compute. reflexivity.
  - split; [exact N|].
    destruct (H o5 "Asha Rao" "asha@nmamit.in") as [r2 [E _]].
    exists r2. exact E.
Defined.

Lemma upcomingEvents_by_zone_witness :
  IndexPage.upcomingEvents tza_plus_5h30 o3 two_events
    = filter (fun event =>
                match Date_parse (event_date event) with
                | Some eventDate => (19889 <=? eventDate / msPerDay)%Z
                | None => false
                end) (getEvents two_events)
  /\ IndexPage.upcomingEvents tza_minus_5h o1 with_event_today
     = filter (fun event =>
                 match Date_parse (event_date event) with
                 | Some eventDate => (19889 <? eventDate / msPerDay)%Z
                 | None => false
                 end) (getEvents with_event_today).
Proof.
  split.
  - assert (V : forall event, In event (getEvents two_events) ->
                  exists d, Date_parse (event_date event) = Some (d * msPerDay)%Z).
    { intros event Hin. vm_compute in Hin.
      destruct Hin as [<- | [<- | []]];
        [exists 19904%Z|exists 19894%Z]; vm_compute; reflexivity. }
    assert (H : forall j, j < List.length (getEvents two_events) ->
                          local_day tza_plus_5h30 (Date_now o3 j) = 19889%Z).
    { intros j Hj. change (List.length (getEvents two_events)) with 2 in Hj.
      destruct j as [|[|j]]; [vm_compute; reflexivity|vm_compute; reflexivity|lia]. }
    destruct (upcomingEvents_by_zone tza_plus_5h30 o3 two_events 19889 V H)
      as [E _].
    destruct E as [E _]; [unfold tza_plus_5h30, msPerDay; lia|]. exact E.
  - assert (V : forall event, In event (getEvents with_event_today) ->
                  exists d, Date_parse (event_date event) = Some (d * msPerDay)%Z).
    { intros event Hin. vm_compute in Hin.
      destruct Hin as [<- | []]. exists 19889%Z. vm_compute. reflexivity. }
    assert (H : forall j, j < List.length (getEvents with_event_today) ->
                          local_day tza_minus_5h (Date_now o1 j) = 19889%Z).
    { intros j Hj. change (List.length (getEvents with_event_today)) with 1 in Hj.
      destruct j as [|j]; [vm_compute; reflexivity|lia]. }
    destruct (upcomingEvents_by_zone tza_minus_5h o1 with_event_today 19889 V H)
      as [_ W].
    destruct W as [W _]; [unfold tza_minus_5h, msPerDay; lia|]. exact W.
Defined.

Lemma one_click_register_witness :
  EventDetails.canRegister asha
    (fst (EventDetails.load (Some the_event_id) asha EventDetails.initial
            with_event)) = true
  /\ EventDetails.error
       (fst (EventDetails.handleOneClickRegister o4 asha
               (fst (EventDetails.load (Some the_event_id) asha
                       EventDetails.initial with_event))
               with_attendance))
     = Some "Failed to register for event"
  /\ snd (EventDetails.handleOneClickRegister o4 asha
            (fst (EventDetails.load (Some the_event_id) asha
                    EventDetails.initial with_event))
            with_attendance)
     = with_attendance
  /\ EventDetails.canRegister asha
       (fst (EventDetails.handleOneClickRegister o4 asha
               (fst (EventDetails.load (Some the_event_id) asha
                       EventDetails.initial with_event))
               with_attendance))
     = true.
Proof.
  set (ev := fst (createEvent o1 (event_on "2024-06-20" "Orientation")
                    Storage.empty)).
  set (st := fst (EventDetails.load (Some the_event_id) asha EventDetails.initial
                    with_event)).
  assert (Ev : EventDetails.event st = Some ev) by (vm_compute; reflexivity).
  destruct (one_click_register o4 asha ev st with_attendance Ev) as [L [_ C]].
  assert (B : EventDetails.canRegister asha st = true).
  { destruct (L EventDetails.initial with_event) as [_ [_ B]].
    - vm_compute. discriminate.
    - vm_compute. reflexivity.
    - apply B. split; vm_compute; reflexivity. }
  destruct C as [C1 [C2 C3]]; [vm_compute; discriminate|].
  split; [exact B|]. split; [rewrite C2; reflexivity|].
  split; [exact C1|]. rewrite C3. exact B.
Defined.

Lemma card_badges_by_zone_witness :
  EventCard.isEventToday tza_plus_5h30 t0 card_event = true
  /\ EventCard.isEventToday tza_minus_5h t0 card_event = false
  /\ EventCard.showsRegister Auth.participant t0 card_event = false.
Proof.
  assert (P : Date_parse (EventCard.event_date card_event)
              = Some (19889 * msPerDay)%Z) by (vm_compute; reflexivity).
  destruct (card_badges_by_zone tza_plus_5h30 t0 card_event 19889 P)
    as [E [_ [_ S]]].
  destruct (card_badges_by_zone tza_minus_5h t0 card_event 19889 P)
    as [_ [W _]].
  split; [|split].
  - apply E; [unfold tza_plus_5h30, msPerDay; lia|vm_compute; reflexivity].
  - destruct (EventCard.isEventToday tza_minus_5h t0 card_event) eqn:T;
      [|reflexivity].
    assert (X : local_day tza_minus_5h t0 = (19889 - 1)%Z).
    { apply W; [unfold tza_minus_5h, msPerDay; lia|reflexivity]. }
    vm_compute in X. discriminate.
  - destruct (EventCard.showsRegister Auth.participant t0 card_event) eqn:T;
      [|reflexivity].
    destruct (proj1 (S Auth.participant) T) as [_ L]. vm_compute in L.
    exfalso. apply L. reflexivity.
Defined.

End TourRuns.

(* ================================================================== *)
(** * What a scan leaves alone *)
(* ================================================================== *)

Section ScanFrame.

Import Storage Scanner Examples.

(** X18. [handleScan] always ends with a message.  It never touches the
    events, the registrations, the support messages or the attendance
    records already stored: after an error message the store is as it
    was, and after a success message it differs by exactly one attendance
    record, appended for the acting user. *)
Theorem handleScan_frame :
  forall o user st ls,
    let st' := fst (handleScan o user st ls) in
    let ls' := snd (handleScan o user st ls) in
    getEvents ls' = getEvents ls
    /\ getRegistrations ls' = getRegistrations ls
    /\ getSupportMessages ls' = getSupportMessages ls
    /\ ((exists t,
           message st' = Some {| type := error; text := t |} /\ ls' = ls)
        \/ (exists t a,
              message st' = Some {| type := success; text := t |}
              /\ ls' = set_attendances (getAttendances ls ++ [a])%list ls
              /\ staff_id a = Auth.id user
              /\ isAttendeeCheckedIn (registration_id a) ls = false
              /\ scanInput st' = "")).
Proof.
  intros o user st ls st' ls'. subst st' ls'.
  destruct (passes_guard_dec st) as [G|G].
  2:{ rewrite (handleScan_guard o user st ls G). cbn [fst snd].
      repeat split. left. eexists. split; reflexivity. }
  destruct (lookup (trim (scanInput st)) ls) as [r|] eqn:L.
  2:{ rewrite (handleScan_invalid o user st ls G L). cbn [fst snd].
      repeat split. left. eexists. split; reflexivity. }
  destruct (String.eqb_spec (reg_event_id r) (selectedEventId st)) as [E|E].
  2:{ rewrite (handleScan_wrong_event o user st ls r G L E). cbn [fst snd].
      repeat split. left. eexists. split; reflexivity. }
  destruct (isAttendeeCheckedIn (reg_id r) ls) eqn:C.
  1:{ rewrite (handleScan_already o user st ls r G L E C). cbn [fst snd].
      repeat split. left. eexists. split; reflexivity. }
  destruct (handleScan_checks_in o user st ls r G L E C) as [a [H [Ha [Hs _]]]].
  rewrite H. cbn [fst snd]. repeat split.
  right. eexists. exists a. rewrite Ha. repeat split; auto.
Qed.

Lemma handleScan_frame_witness :
  getRegistrations
    (snd (handleScan o3 staff_user (scanner the_event_id " mt07elsz ")
            with_registration))
    = getRegistrations with_registration
  /\ snd (handleScan o4 staff_user (scanner the_event_id "MT07ELSZ") with_attendance)
     = with_attendance.
Proof.
  destruct (handleScan_frame o3 staff_user (scanner the_event_id " mt07elsz ")
              with_registration) as [_ [R _]].
  destruct (handleScan_frame o4 staff_user (scanner the_event_id "MT07ELSZ")
              with_attendance) as [_ [_ [_ [[t [_ E]] | [t [a [M _]]]]]]].
  - split; [exact R|exact E].
  - vm_compute in M. discriminate.
Defined.

End ScanFrame.
